(** * The chat route of tafa-ai: POST and DELETE of app/(chat)/api/chat/route.ts

    A shallow embedding of the route handler and of [buildModelMessages],
    the attachment preprocessing that runs before the model is called.  The
    handler talks to collaborators that live outside the route module (the
    session, the query layer, the network, the completion provider); their
    answers are the fields of a [World], and everything the handler does to
    them is appended, in order, to a trace. *)

From Stdlib Require Import List String Ascii ZArith NArith Lia Bool.
From Stdlib Require Import Strings.Byte.
From Stdlib Require DecimalString.
Import ListNotations.
Local Open Scope string_scope.
Local Open Scope Z_scope.
Set Warnings "-abstract-large-number".

(** ** Data *)

(** What a JavaScript [throw] carries in this module. *)
Inductive Exn : Type :=
| ChatSDKError (code : string)   (* new ChatSDKError('bad_request:api') *)
| Error (message : string)       (* new Error('Failed to fetch file') *)
| TypeError (message : string).  (* reading a property of undefined *)

Inductive Outcome (A : Type) : Type :=
| Returns (a : A)
| Throws (e : Exn).
Arguments Returns {A} a.
Arguments Throws {A} e.

Inductive Role : Type := user | assistant | system | tool.

Definition Role_eqb (a b : Role) : bool :=
  match a, b with
  | user, user | assistant, assistant | system, system | tool, tool => true
  | _, _ => false
  end.

(** A message part, tagged by its [type]. *)
Inductive Part : Type :=
| TextPart (text : string)               (* type: 'text' *)
| FilePart (url mediaType : string)      (* type: 'file' *)
| ToolCallPart (payload : string)
| ToolResultPart (payload : string).

Record ChatMessage : Type := mkChatMessage {
  msg_id : string;
  msg_role : Role;
  msg_parts : list Part
}.

(** The rows handed to [saveMessages]. *)
Record DBMessage : Type := mkDBMessage {
  row_chatId : string;
  row_id : string;
  row_role : Role;
  row_parts : list Part;
  row_attachments : list string;
  row_createdAt : Z
}.

Record Chat : Type := mkChat {
  chat_id : string;
  chat_userId : string;
  chat_title : string;
  chat_visibility : string
}.

Definition UserType : Type := string.

Record User : Type := mkUser { user_id : string; user_type : UserType }.
Record Session : Type := mkSession { session_user : option User }.
Record Entitlements : Type := mkEntitlements { maxMessagesPerDay : Z }.

Record RequestHints : Type := mkRequestHints {
  longitude : option string;
  latitude : option string;
  city : option string;
  country : option string
}.

Record PostRequestBody : Type := mkPostRequestBody {
  body_id : string;
  body_message : ChatMessage;
  selectedChatModel : string;
  selectedVisibilityType : string
}.

#[warnings="-register-all"]
Inductive Json : Type :=
| JNull
| JBool (b : bool)
| JNum (n : Z)
| JStr (s : string)
| JArr (items : list Json)
| JObj (fields : list (string * Json)).

Record Request : Type := mkRequest {
  request_json : Outcome Json;        (* await request.json() *)
  request_id_param : option string;   (* new URL(request.url).searchParams.get('id') *)
}.

(** A provider message: plain text for the other roles, a list of content
    blocks for a user message. *)
Inductive ContentPart : Type :=
| ContentText (text : string)        (* { type: 'text', text } *)
| ContentImageUrl (url : string).    (* { type: 'image_url', image_url: { url } } *)

Inductive ModelContent : Type :=
| ContentString (s : string)
| ContentParts (blocks : list ContentPart).

Record ModelMessage : Type := mkModelMessage {
  mm_role : Role;
  mm_content : ModelContent
}.

(** Token usage as a provider may report it: every field may be missing. *)
Record Usage : Type := mkUsage {
  inputTokens : option Z;
  promptTokens : option Z;
  prompt_tokens : option Z;
  outputTokens : option Z;
  completionTokens : option Z;
  completion_tokens : option Z;
  totalTokens : option Z;
  total_tokens : option Z
}.

(** What [consumeStream()] resolves to, as far as the handler looks into it:
    [res?.usage], [res?.data?.usage], [res?.metadata?.usage]. *)
Record ConsumeResult : Type := mkConsumeResult {
  res_usage : option Usage;
  res_data_usage : option Usage;
  res_metadata_usage : option Usage
}.

Inductive Promise : Type :=
| Resolves (res : option ConsumeResult)
| Rejects (e : Exn).

(** The [usageData] holder of the handler. *)
Record UsageData : Type := mkUsageData {
  ud_promptTokens : Z;
  ud_completionTokens : Z;
  ud_totalTokens : Z
}.

Record UsageLog : Type := mkUsageLog {
  log_userId : string;
  log_model : string;
  log_requestType : string;
  log_promptTokens : Z;
  log_completionTokens : Z;
  log_totalTokens : Z
}.

(** The options object given to [streamText]. *)
Record StreamTextOptions : Type := mkStreamTextOptions {
  opt_model : string;
  opt_system : string * RequestHints;
  opt_messages : list ModelMessage;
  opt_stopWhen : nat;                          (* stepCountIs(n) *)
  opt_experimental_activeTools : list string;
  opt_tools : list string
}.

(** What the provider does once called: the tools the model asks for at each
    of its successive steps, and what [consumeStream()] gives. *)
Record StreamTextResult : Type := mkStreamTextResult {
  modelSteps : list (list string);
  consumeStream : Outcome (option Promise)
}.

Inductive FetchResult : Type :=
| FetchRejects (e : Exn)
| FetchResponse (ok : bool) (arrayBuffer : Outcome (list byte)).

Inductive ResumableStreamContext : Type := resumableStreamContext.

Inductive JsNumber : Type := Finite (n : Z) | NaN.

(** ** Effects *)

Inductive DbWrite : Type :=
| SaveChat (c : Chat)
| SaveMessages (messages : list DBMessage)
| CreateStreamId (streamId chatId : string)
| SaveUsageLog (u : UsageLog)
| DeleteChatById (id : string).

Inductive Event : Type :=
| EvFetch (url : string)
| EvConsoleError (label : string)
| EvConsoleLog (label : string)
| EvDb (wr : DbWrite)                 (* a write the store accepted *)
| EvGenerateTitle (m : ChatMessage)   (* the auxiliary title call *)
| EvStreamText (o : StreamTextOptions)
| EvStep (toolCalls : list string)    (* one step of the model, with the tools it ran *)
| EvStreamError (errorText : string)  (* the in-band error chunk *)
| EvStreamDrained.

(** The module state: what happened so far, oldest first, and the
    module-level [globalStreamContext]. *)
Record Sys : Type := mkSys {
  trace : list Event;
  globalStreamContext : option ResumableStreamContext
}.

Definition M (A : Type) : Type := Sys -> Outcome A * Sys.

Definition ret {A} (a : A) : M A := fun s => (Returns a, s).

Definition throw {A} (e : Exn) : M A := fun s => (Throws e, s).

Definition bind {A B} (m : M A) (k : A -> M B) : M B :=
  fun s => match m s with
           | (Returns a, s') => k a s'
           | (Throws e, s') => (Throws e, s')
           end.

(** [try { m } catch (err) { handler err }]: what [m] did before it threw
    stays done. *)
Definition try_catch {A} (m : M A) (handler : Exn -> M A) : M A :=
  fun s => match m s with
           | (Returns a, s') => (Returns a, s')
           | (Throws e, s') => handler e s'
           end.

Definition emit (e : Event) : M unit :=
  fun s => (Returns tt, mkSys (trace s ++ [e])%list (globalStreamContext s)).

Definition await {A} (o : Outcome A) : M A :=
  match o with
  | Returns a => ret a
  | Throws e => throw e
  end.

Declare Scope js_scope.
Delimit Scope js_scope with js.
Notation "x <- m ;; k" := (bind m (fun x => k))
  (at level 61, m at next level, right associativity) : js_scope.
Notation "m ;; k" := (bind m (fun _ => k))
  (at level 61, right associativity) : js_scope.
Local Open Scope js_scope.

(** ** [Buffer.from(buf).toString('base64')] *)

Definition base64_alphabet : string :=
  "ABCDEFGHIJKLMNOPQRSTUVWXYZabcdefghijklmnopqrstuvwxyz0123456789+/".

Definition base64_digit (n : N) : ascii :=
  match String.get (N.to_nat n) base64_alphabet with
  | Some c => c
  | None => "="%char
  end.

Fixpoint base64 (bytes : list byte) : string :=
  match bytes with
  | [] => EmptyString
  | [a] =>
      let n := Byte.to_N a in
      String (base64_digit (n / 4))
        (String (base64_digit ((n mod 4) * 16)) "==")
  | [a; b] =>
      let n := (Byte.to_N a * 256 + Byte.to_N b)%N in
      String (base64_digit (n / 1024))
        (String (base64_digit ((n / 16) mod 64))
          (String (base64_digit ((n mod 16) * 4)) "="))
  | a :: b :: c :: rest =>
      let n := (Byte.to_N a * 65536 + Byte.to_N b * 256 + Byte.to_N c)%N in
      String (base64_digit (n / 262144))
        (String (base64_digit ((n / 4096) mod 64))
          (String (base64_digit ((n / 64) mod 64))
            (String (base64_digit (n mod 64)) (base64 rest))))
  end.

(** ** The collaborators

    None of them is defined in the route module: the request schema
    (./schema), the session (auth), the entitlements table, the query layer
    (lib/db/queries), the title action, the network, pdf-parse, the
    resumable-stream package and the completion provider.  A [World] fixes
    what each of them answers. *)
Record World : Type := mkWorld {
  postRequestBodySchema_parse : Json -> Outcome PostRequestBody;
  auth : Outcome (option Session);
  entitlementsByUserType : UserType -> Entitlements;
  getMessageCountByUserId : string -> Z -> Outcome Z;   (* id, differenceInHours *)
  getUsageCountByUserId : string -> Z -> Outcome Z;
  (* Number(process.env.DAILY_REQUEST_LIMIT), when the variable is set *)
  env_DAILY_REQUEST_LIMIT : option JsNumber;
  getChatById : string -> Outcome (option Chat);
  generateTitleFromUserMessage : ChatMessage -> Outcome string;
  getMessagesByChatId : string -> Outcome (list DBMessage);
  convertToUIMessages : list DBMessage -> list ChatMessage;
  geolocation : Request -> RequestHints;
  generateUUID : string;
  new_Date : Z;
  (* the store refuses a write with this error, or accepts it *)
  db_refuses : DbWrite -> option Exn;
  deleteChatById_result : string -> Chat;
  fetch : string -> FetchResult;
  (* (await pdfParse(buffer)).text *)
  pdfParse : list byte -> Outcome (option string);
  createResumableStreamContext : Outcome ResumableStreamContext;
  resumableStream : string -> Outcome unit;
  streamText : StreamTextOptions -> Outcome StreamTextResult;
  (* the messages the UI-message stream has assembled when it ends *)
  finishedMessages : list ChatMessage
}.

Section Route.

Variable w : World.

Definition dbWrite (wr : DbWrite) : M unit :=
  match db_refuses w wr with
  | Some e => throw e
  | None => emit (EvDb wr)
  end.

(** ** Attachment preprocessing *)

(** [fetchArrayBuffer(url)] *)
Definition fetchArrayBuffer (url : string) : M (list byte) :=
  emit (EvFetch url) ;;
  match fetch w url with
  | FetchRejects e => throw e
  | FetchResponse ok arrayBuffer =>
      if negb ok then throw (Error "Failed to fetch file")
      else await arrayBuffer
  end.

(** The local [extractTextFromPdf]: [res.text || '']. *)
Definition extractTextFromPdf (buffer : list byte) : M string :=
  res_text <- await (pdfParse w buffer) ;;
  ret (match res_text with
       | Some text => text
       | None => EmptyString
       end).

Definition summaryPrompt (textContent : string) : string :=
  "Please summarize the following document:" ++ String "010" (String "010" textContent).

(** The body of [for (const part of msg.parts)]: what [contentParts] is
    after the part was looked at. *)
Definition pushPart (contentParts : list ContentPart) (part : Part)
  : M (list ContentPart) :=
  match part with
  | TextPart text => ret (contentParts ++ [ContentText text])%list
  | FilePart url mediaType =>
      if String.prefix "image/" mediaType then
        try_catch
          (arrayBuf <- fetchArrayBuffer url ;;
           let base64 := base64 arrayBuf in
           ret (contentParts ++
                [ContentImageUrl ("data:" ++ mediaType ++ ";base64," ++ base64)%string])%list)
          (fun err =>
             emit (EvConsoleError "Error processing image attachment") ;;
             ret contentParts)
      else if String.eqb mediaType "application/pdf" then
        try_catch
          (arrayBuf <- fetchArrayBuffer url ;;
           text <- extractTextFromPdf arrayBuf ;;
           let textContent := String.substring 0 12000 text in
           ret (contentParts ++ [ContentText (summaryPrompt textContent)])%list)
          (fun err =>
             emit (EvConsoleError "Error processing PDF attachment") ;;
             ret contentParts)
      else ret contentParts
  | _ => ret contentParts
  end.

Fixpoint forParts (parts : list Part) (contentParts : list ContentPart)
  : M (list ContentPart) :=
  match parts with
  | [] => ret contentParts
  | part :: rest =>
      contentParts' <- pushPart contentParts part ;;
      forParts rest contentParts'
  end.

(** [msg.parts.filter((p) => p.type === 'text').map((p) => p.text).join('')] *)
Definition joinTextParts (parts : list Part) : string :=
  String.concat EmptyString
    (flat_map (fun p => match p with TextPart text => [text] | _ => [] end) parts).

Fixpoint forMessages (uiMessages : list ChatMessage)
  (modelMessages : list ModelMessage) : M (list ModelMessage) :=
  match uiMessages with
  | [] => ret modelMessages
  | msg :: rest =>
      if negb (Role_eqb (msg_role msg) user) then
        forMessages rest
          (modelMessages ++
           [mkModelMessage (msg_role msg)
              (ContentString (joinTextParts (msg_parts msg)))])%list
      else
        contentParts <- forParts (msg_parts msg) [] ;;
        forMessages rest
          (modelMessages ++ [mkModelMessage user (ContentParts contentParts)])%list
  end.

Definition buildModelMessages (uiMessages : list ChatMessage)
  : M (list ModelMessage) :=
  forMessages uiMessages [].

(** ** The model call *)

(** [a ?? b] *)
Definition nullish {A} (a : option A) (b : A) : A :=
  match a with
  | Some v => v
  | None => b
  end.

Definition orNullish {A} (a b : option A) : option A :=
  match a with
  | Some v => Some v
  | None => b
  end.

(** The three assignments to [usageData] made from a usage object. *)
Definition readUsage (usage : Usage) : UsageData :=
  {| ud_promptTokens :=
       nullish (orNullish (inputTokens usage)
                  (orNullish (promptTokens usage) (prompt_tokens usage))) 0;
     ud_completionTokens :=
       nullish (orNullish (outputTokens usage)
                  (orNullish (completionTokens usage) (completion_tokens usage))) 0;
     ud_totalTokens :=
       nullish (orNullish (totalTokens usage) (total_tokens usage)) 0 |}.

(** [res?.usage || res?.data?.usage || res?.metadata?.usage || null] *)
Definition pickUsage (res : option ConsumeResult) : option Usage :=
  match res with
  | None => None
  | Some r =>
      orNullish (res_usage r) (orNullish (res_data_usage r) (res_metadata_usage r))
  end.

Definition activeTools (selectedChatModel : string) : list string :=
  if String.eqb selectedChatModel "chat-model-reasoning" then []
  else ["getWeather"; "updateDocument"; "requestSuggestions"; "webSearch"].

(** The object literal passed to [streamText]. *)
Definition streamTextOptions (selectedChatModel : string)
  (requestHints : RequestHints) (modelMessagesForAI : list ModelMessage)
  : StreamTextOptions :=
  {| opt_model := selectedChatModel;
     opt_system := (selectedChatModel, requestHints);
     opt_messages := modelMessagesForAI;
     opt_stopWhen := 5;
     opt_experimental_activeTools := activeTools selectedChatModel;
     opt_tools := ["getWeather"; "createDocument"; "updateDocument";
                   "requestSuggestions"; "webSearch"] |}.

(** Modelled from the spec: the step loop of the completion provider, which
    is the [ai] package and not part of the route.  The model is only
    offered the declared tools that are active, a step that runs no tool is
    the last one, and [stopWhen] bounds the number of steps. *)
Fixpoint runSteps (budget : nat) (offered : list string)
  (steps : list (list string)) : list (list string) :=
  match budget, steps with
  | S budget', calls :: rest =>
      match filter (fun t => existsb (String.eqb t) offered) calls with
      | [] => [[]]
      | ran => ran :: runSteps budget' offered rest
      end
  | _, _ => []
  end.

Definition offeredTools (o : StreamTextOptions) : list string :=
  filter (fun t => existsb (String.eqb t) (opt_experimental_activeTools o))
    (opt_tools o).

Fixpoint emitSteps (steps : list (list string)) : M unit :=
  match steps with
  | [] => ret tt
  | calls :: rest => emit (EvStep calls) ;; emitSteps rest
  end.

(** The [execute] callback.  It leaves the two variables it shares with
    [onFinish]: [consumePromise], and [usageData] as the [.then] callback
    of the promise sets it (that callback runs before anything that awaits
    the promise later). *)
Definition execute (selectedChatModel : string) (requestHints : RequestHints)
  (modelMessagesForAI : list ModelMessage) (usageData : UsageData)
  : M (option Promise * UsageData) :=
  let o := streamTextOptions selectedChatModel requestHints modelMessagesForAI in
  emit (EvStreamText o) ;;
  result <- await (streamText w o) ;;
  emitSteps (runSteps (opt_stopWhen o) (offeredTools o) (modelSteps result)) ;;
  try_catch
    (consumePromise <- await (consumeStream result) ;;
     match consumePromise with
     | Some (Resolves res) =>
         match match res with Some r => res_usage r | None => None end with
         | Some usage => ret (consumePromise, readUsage usage)
         | None => ret (consumePromise, usageData)
         end
     | Some (Rejects err) =>
         emit (EvConsoleError "Error capturing token usage") ;;
         ret (consumePromise, usageData)
     | None => ret (None, usageData)
     end)
    (fun err =>
       emit (EvConsoleError "Error starting stream consumption") ;;
       ret (None, usageData)).

(** The stream object: the variables its [onFinish] closes over. *)
Record UIMessageStream : Type := mkUIMessageStream {
  stream_chatId : string;
  stream_userId : string;
  stream_model : string;
  stream_consumePromise : option Promise;
  stream_usageData : UsageData
}.

(** Modelled from the spec: [createUIMessageStream({ execute, onFinish,
    onError })] of the [ai] package.  It calls [execute] at once, and what
    [execute] throws is caught at the stream boundary and becomes one
    in-band error chunk whose text is what [onError] returns. *)
Definition createUIMessageStream (id userId selectedChatModel : string)
  (usageData : UsageData) (execute : M (option Promise * UsageData))
  : M UIMessageStream :=
  try_catch
    (shared <- execute ;;
     ret (mkUIMessageStream id userId selectedChatModel (fst shared) (snd shared)))
    (fun err =>
       emit (EvStreamError "Oops, an error occurred!") ;;
       ret (mkUIMessageStream id userId selectedChatModel None usageData)).

(** The [onFinish] callback. *)
Definition onFinish (stream : UIMessageStream) (messages : list ChatMessage)
  : M unit :=
  dbWrite (SaveMessages
             (map (fun message =>
                     {| row_chatId := stream_chatId stream;
                        row_id := msg_id message;
                        row_role := msg_role message;
                        row_parts := msg_parts message;
                        row_attachments := [];
                        row_createdAt := new_Date w |}) messages)) ;;
  usageData <-
    try_catch
      (match stream_consumePromise stream with
       | Some consumePromise =>
           res <- match consumePromise with
                  | Resolves res => ret res
                  | Rejects e => throw e
                  end ;;
           emit (EvConsoleLog "--- FULL GROK RESULT OBJECT ---") ;;
           match pickUsage res with
           | Some usage => ret (readUsage usage)
           | None => ret (stream_usageData stream)
           end
       | None => ret (stream_usageData stream)
       end)
      (fun err =>
         emit (EvConsoleError "Error awaiting consumePromise for usage data") ;;
         ret (stream_usageData stream)) ;;
  emit (EvConsoleLog "--- GROK API USAGE DATA ---") ;;
  try_catch
    (dbWrite (SaveUsageLog
                {| log_userId := stream_userId stream;
                   log_model := stream_model stream;
                   log_requestType := "chat";
                   log_promptTokens := ud_promptTokens usageData;
                   log_completionTokens := ud_completionTokens usageData;
                   log_totalTokens := ud_totalTokens usageData |}))
    (fun err => emit (EvConsoleError "Error saving usage log")).

(** ** The handlers *)

Inductive Response : Type :=
| ErrorResponse (code : string)                 (* new ChatSDKError(code).toResponse() *)
| MessageResponse (status : Z) (message : string)
    (* new Response(JSON.stringify({ message }), { status }) *)
| StreamingResponse (resumable : bool) (stream : UIMessageStream)
| ChatResponse (status : Z) (deletedChat : Chat). (* Response.json(chat, { status }) *)

Definition exn_message (e : Exn) : string :=
  match e with
  | ChatSDKError code => code
  | Error message => message
  | TypeError message => message
  end.

(** [s.includes(needle)] *)
Definition includes (s needle : string) : bool :=
  match String.index 0 needle s with
  | Some _ => true
  | None => false
  end.

Definition getStreamContext : M (option ResumableStreamContext) :=
  fun s =>
    match globalStreamContext s with
    | Some c => (Returns (Some c), s)
    | None =>
        match createResumableStreamContext w with
        | Returns c => (Returns (Some c), mkSys (trace s) (Some c))
        | Throws error =>
            if includes (exn_message error) "REDIS_URL" then
              (Returns None,
               mkSys (trace s ++
                      [EvConsoleLog " > Resumable streams are disabled due to missing REDIS_URL"])%list
                 None)
            else
              (Returns None,
               mkSys (trace s ++ [EvConsoleError (exn_message error)])%list None)
        end
    end.

(** [usageCount >= dailyLimit], with [dailyLimit] a JavaScript number *)
Definition js_ge (a : Z) (b : JsNumber) : bool :=
  match b with
  | Finite n => a >=? n
  | NaN => false
  end.

Definition POST (request : Request) : M (option Response) :=
  parsed <-
    try_catch
      (json <- await (request_json request) ;;
       requestBody <- await (postRequestBodySchema_parse w json) ;;
       ret (Some requestBody))
      (fun _ => ret None) ;;
  match parsed with
  | None => ret (Some (ErrorResponse "bad_request:api"))
  | Some requestBody =>
    try_catch
      (let id := body_id requestBody in
       let message := body_message requestBody in
       let selectedChatModel := selectedChatModel requestBody in
       let selectedVisibilityType := selectedVisibilityType requestBody in
       session <- await (auth w) ;;
       match match session with Some s => session_user s | None => None end with
       | None => ret (Some (ErrorResponse "unauthorized:chat"))
       | Some session_user =>
         let userType := user_type session_user in
         messageCount <- await (getMessageCountByUserId w (user_id session_user) 24) ;;
         if messageCount >? maxMessagesPerDay (entitlementsByUserType w userType) then
           ret (Some (ErrorResponse "rate_limit:chat"))
         else
           usageCount <-
             try_catch
               (await (getUsageCountByUserId w (user_id session_user) 24))
               (fun err =>
                  emit (EvConsoleError "Error fetching usage count for rate-limiting") ;;
                  ret 0) ;;
           let dailyLimit := nullish (env_DAILY_REQUEST_LIMIT w) (Finite 100) in
           if js_ge usageCount dailyLimit then
             ret (Some (MessageResponse 429 "Daily request limit exceeded."))
           else
             chat <- await (getChatById w id) ;;
             owned <-
               match chat with
               | None =>
                   emit (EvGenerateTitle message) ;;
                   title <- await (generateTitleFromUserMessage w message) ;;
                   dbWrite (SaveChat
                              {| chat_id := id;
                                 chat_userId := user_id session_user;
                                 chat_title := title;
                                 chat_visibility := selectedVisibilityType |}) ;;
                   ret true
               | Some chat =>
                   ret (String.eqb (chat_userId chat) (user_id session_user))
               end ;;
             if negb owned then ret (Some (ErrorResponse "forbidden:chat"))
             else
               messagesFromDb <- await (getMessagesByChatId w id) ;;
               let uiMessages := (convertToUIMessages w messagesFromDb ++ [message])%list in
               modelMessagesForAI <- buildModelMessages uiMessages ;;
               let requestHints := geolocation w request in
               dbWrite (SaveMessages
                          [{| row_chatId := id;
                              row_id := msg_id message;
                              row_role := user;
                              row_parts := msg_parts message;
                              row_attachments := [];
                              row_createdAt := new_Date w |}]) ;;
               let streamId := generateUUID w in
               dbWrite (CreateStreamId streamId id) ;;
               let usageData := mkUsageData 0 0 0 in
               stream <-
                 createUIMessageStream id (user_id session_user) selectedChatModel
                   usageData
                   (execute selectedChatModel requestHints modelMessagesForAI
                      usageData) ;;
               streamContext <- getStreamContext ;;
               match streamContext with
               | Some _ =>
                   await (resumableStream w streamId) ;;
                   ret (Some (StreamingResponse true stream))
               | None => ret (Some (StreamingResponse false stream))
               end
       end)
      (fun error =>
         match error with
         | ChatSDKError code => ret (Some (ErrorResponse code))
         | _ => ret None
         end)
  end.

(** Modelled from the spec: what the runtime and the [ai] package do with
    the handler's answer.  A streaming body is read to its end, and the
    stream then calls [onFinish] with the messages it has assembled; what
    [onFinish] throws no longer reaches the response. *)
Definition drain (response : option Response) : M unit :=
  match response with
  | Some (StreamingResponse _ stream) =>
      emit EvStreamDrained ;;
      try_catch (onFinish stream (finishedMessages w)) (fun _ => ret tt)
  | _ => ret tt
  end.

(** One whole turn: the handler, then the life of the stream it returned. *)
Definition chatTurn (request : Request) : M (option Response) :=
  response <- POST request ;;
  drain response ;;
  ret response.

Definition DELETE (request : Request) : M Response :=
  match request_id_param request with
  | None => ret (ErrorResponse "bad_request:api")
  | Some id =>
    if String.eqb id EmptyString then ret (ErrorResponse "bad_request:api")
    else
      session <- await (auth w) ;;
      match match session with Some s => session_user s | None => None end with
      | None => ret (ErrorResponse "unauthorized:chat")
      | Some session_user =>
          chat <- await (getChatById w id) ;;
          match chat with
          | None =>
              throw (TypeError "Cannot read properties of undefined (reading 'userId')")
          | Some chat =>
              if negb (String.eqb (chat_userId chat) (user_id session_user)) then
                ret (ErrorResponse "forbidden:chat")
              else
                dbWrite (DeleteChatById id) ;;
                ret (ChatResponse 200 (deleteChatById_result w id))
          end
      end
  end.

End Route.

(** ** Reading the attachment loop as functions

    What [pushPart] appends and what it logs only depend on the part and on
    the world, so the loops of [buildModelMessages] can be read as maps. *)

Section Reading.

Variable w : World.

(** What [fetchArrayBuffer(url)] comes to. *)
Definition fetched (url : string) : Outcome (list byte) :=
  match fetch w url with
  | FetchRejects e => Throws e
  | FetchResponse ok arrayBuffer =>
      if negb ok then Throws (Error "Failed to fetch file") else arrayBuffer
  end.

(** The text of a PDF attachment, when the file could be fetched and read. *)
Definition pdfText (url : string) : Outcome string :=
  match fetched url with
  | Throws e => Throws e
  | Returns arrayBuf =>
      match pdfParse w arrayBuf with
      | Throws e => Throws e
      | Returns res_text => Returns (nullish res_text EmptyString)
      end
  end.

Definition partBlocks (part : Part) : list ContentPart :=
  match part with
  | TextPart text => [ContentText text]
  | FilePart url mediaType =>
      if String.prefix "image/" mediaType then
        match fetched url with
        | Returns arrayBuf =>
            [ContentImageUrl ("data:" ++ mediaType ++ ";base64," ++ base64 arrayBuf)]
        | Throws _ => []
        end
      else if String.eqb mediaType "application/pdf" then
        match pdfText url with
        | Returns text => [ContentText (summaryPrompt (String.substring 0 12000 text))]
        | Throws _ => []
        end
      else []
  | _ => []
  end.

Definition partEvents (part : Part) : list Event :=
  match part with
  | FilePart url mediaType =>
      if String.prefix "image/" mediaType then
        match fetched url with
        | Returns _ => [EvFetch url]
        | Throws _ => [EvFetch url; EvConsoleError "Error processing image attachment"]
        end
      else if String.eqb mediaType "application/pdf" then
        match pdfText url with
        | Returns _ => [EvFetch url]
        | Throws _ => [EvFetch url; EvConsoleError "Error processing PDF attachment"]
        end
      else []
  | _ => []
  end.

Definition modelMessageOf (msg : ChatMessage) : ModelMessage :=
  if negb (Role_eqb (msg_role msg) user) then
    mkModelMessage (msg_role msg) (ContentString (joinTextParts (msg_parts msg)))
  else
    mkModelMessage user (ContentParts (flat_map partBlocks (msg_parts msg))).

Definition messageEvents (msg : ChatMessage) : list Event :=
  if negb (Role_eqb (msg_role msg) user) then []
  else flat_map partEvents (msg_parts msg).

End Reading.

(** The blocks of the text parts of a message, in order. *)
Definition textBlocks (parts : list Part) : list ContentPart :=
  flat_map (fun p => match p with TextPart text => [ContentText text] | _ => [] end)
    parts.

(** The fetch behind [url] does not succeed: it rejects, answers with a
    status that is not ok, or its body cannot be read. *)
Definition fetchFails (w : World) (url : string) : Prop :=
  exists e, fetched w url = Throws e.

(** Length in UTF-16 code units, as [s.length]. *)
Definition js_length (s : string) : Z := Z.of_nat (String.length s).

(** ** Reading the trace *)

Definition isStreamText (e : Event) : bool :=
  match e with EvStreamText _ => true | _ => false end.

Definition isSaveMessages (e : Event) : bool :=
  match e with EvDb (SaveMessages _) => true | _ => false end.

Definition isDbWrite (e : Event) : bool :=
  match e with EvDb _ => true | _ => false end.

Definition isDrained (e : Event) : bool :=
  match e with EvStreamDrained => true | _ => false end.

Definition isStep (e : Event) : bool :=
  match e with EvStep _ => true | _ => false end.

(** Events of the network and of the console only. *)
Definition isQuiet (e : Event) : bool :=
  match e with
  | EvFetch _ | EvConsoleError _ | EvConsoleLog _ => true
  | _ => false
  end.

(** A run on a fresh trace. *)
Definition fresh (g : option ResumableStreamContext) : Sys := mkSys [] g.

Definition turnTrace (w : World) (request : Request)
  (g : option ResumableStreamContext) : list Event :=
  trace (snd (chatTurn w request (fresh g))).

(** The row of the new user message, and the rows of the finished turn. *)
Definition userRow (w : World) (body : PostRequestBody) : DBMessage :=
  {| row_chatId := body_id body;
     row_id := msg_id (body_message body);
     row_role := user;
     row_parts := msg_parts (body_message body);
     row_attachments := [];
     row_createdAt := new_Date w |}.

Definition finishedRows (w : World) (chatId : string) : list DBMessage :=
  map (fun message =>
         {| row_chatId := chatId;
            row_id := msg_id message;
            row_role := msg_role message;
            row_parts := msg_parts message;
            row_attachments := [];
            row_createdAt := new_Date w |}) (finishedMessages w).

(** The provider's usage summary cannot be read: there is no promise, it
    rejects, it resolves to nothing, or none of the recognised fields is
    set in the usage object that is found. *)
Definition noUsage (usage : Usage) : Prop :=
  inputTokens usage = None /\ promptTokens usage = None /\
  prompt_tokens usage = None /\ outputTokens usage = None /\
  completionTokens usage = None /\ completion_tokens usage = None /\
  totalTokens usage = None /\ total_tokens usage = None.

Definition usageUnreadable (consumePromise : option Promise) : Prop :=
  match consumePromise with
  | None => True
  | Some (Rejects _) => True
  | Some (Resolves res) =>
      match pickUsage res with
      | None => True
      | Some usage => noUsage usage
      end
  end.

(** Console output and the in-band error chunk. *)
Definition isNotice (e : Event) : bool :=
  match e with
  | EvConsoleError _ | EvConsoleLog _ | EvStreamError _ => true
  | _ => false
  end.

(** What may happen before the user message is saved: anything but a model
    call, a save of messages, or the events of a stream. *)
Definition isPrelude (e : Event) : bool :=
  negb (isStreamText e) && negb (isSaveMessages e) && negb (isDrained e)
  && negb (isStep e).

(** What a request that never calls the model may do. *)
Definition isEarly (e : Event) : bool :=
  negb (isStreamText e) && negb (isDrained e) && negb (isStep e).

Definition notStreaming (response : option Response) : Prop :=
  match response with
  | Some (StreamingResponse _ _) => False
  | _ => True
  end.

(** [usageData] once the [.then] callback registered by [execute] ran. *)
Definition usageAfterThen (usageData : UsageData) (consumePromise : option Promise)
  : UsageData :=
  match consumePromise with
  | Some (Resolves (Some r)) =>
      match res_usage r with
      | Some usage => readUsage usage
      | None => usageData
      end
  | _ => usageData
  end.

(** [usageData] when [onFinish] is about to call [saveUsageLog]. *)
Definition finalUsage (stream : UIMessageStream) : UsageData :=
  match stream_consumePromise stream with
  | Some (Resolves res) =>
      match pickUsage res with
      | Some usage => readUsage usage
      | None => stream_usageData stream
      end
  | _ => stream_usageData stream
  end.

Definition usageLogOf (stream : UIMessageStream) : UsageLog :=
  {| log_userId := stream_userId stream;
     log_model := stream_model stream;
     log_requestType := "chat";
     log_promptTokens := ud_promptTokens (finalUsage stream);
     log_completionTokens := ud_completionTokens (finalUsage stream);
     log_totalTokens := ud_totalTokens (finalUsage stream) |}.

(** The usage row of a turn whose counts are all zero. *)
Definition zeroUsageLog (stream : UIMessageStream) : UsageLog :=
  {| log_userId := stream_userId stream;
     log_model := stream_model stream;
     log_requestType := "chat";
     log_promptTokens := 0;
     log_completionTokens := 0;
     log_totalTokens := 0 |}.

(** What [onFinish] prints between its two writes. *)
Definition onFinishNotices (stream : UIMessageStream) : list Event :=
  match stream_consumePromise stream with
  | Some (Resolves _) =>
      [EvConsoleLog "--- FULL GROK RESULT OBJECT ---";
       EvConsoleLog "--- GROK API USAGE DATA ---"]
  | Some (Rejects _) =>
      [EvConsoleError "Error awaiting consumePromise for usage data";
       EvConsoleLog "--- GROK API USAGE DATA ---"]
  | None => [EvConsoleLog "--- GROK API USAGE DATA ---"]
  end.

(** The last thing [onFinish] does: the usage row, or the complaint that it
    could not be written. *)
Definition usageWrite (w : World) (stream : UIMessageStream) : Event :=
  match db_refuses w (SaveUsageLog (usageLogOf stream)) with
  | None => EvDb (SaveUsageLog (usageLogOf stream))
  | Some _ => EvConsoleError "Error saving usage log"
  end.

(** ** The shape of a run of the handler *)

(** A run of [POST] on a fresh trace either ends without a stream, having
    called no model, or it saved the user message, registered the stream id
    and then called the model exactly once. *)
Inductive PostRun (w : World) (request : Request)
  : Outcome (option Response) * Sys -> Prop :=
| run_early (r : option Response) (pre : list Event)
    (g' : option ResumableStreamContext) :
    notStreaming r ->
    forallb isEarly pre = true ->
    PostRun w request (Returns r, mkSys pre g')
| run_stream (json : Json) (body : PostRequestBody) (msgs : list ModelMessage)
    (pre notices : list Event) (steps : list (list string))
    (r : option Response) (g' : option ResumableStreamContext) (t : list Event) :
    let o := streamTextOptions (selectedChatModel body) (geolocation w request) msgs in
    request_json request = Returns json ->
    postRequestBodySchema_parse w json = Returns body ->
    t = (((pre ++ [EvDb (SaveMessages [userRow w body])])
            ++ [EvDb (CreateStreamId (generateUUID w) (body_id body))])
           ++ EvStreamText o :: map EvStep steps ++ notices)%list ->
    forallb isPrelude pre = true ->
    forallb isNotice notices = true ->
    (steps = [] \/
     exists res, streamText w o = Returns res
                 /\ steps = runSteps (opt_stopWhen o) (offeredTools o) (modelSteps res)) ->
    match r with
    | Some (StreamingResponse _ stream) =>
        stream_chatId stream = body_id body
        /\ stream_usageData stream
           = usageAfterThen (mkUsageData 0 0 0) (stream_consumePromise stream)
    | _ => True
    end ->
    PostRun w request (Returns r, mkSys t g').

(** What the end of the stream adds to the trace: nothing when the store
    refuses the batch of messages, since [onFinish] then stops there. *)
Definition finishEvents (w : World) (stream : UIMessageStream) : list Event :=
  match db_refuses w (SaveMessages (finishedRows w (stream_chatId stream))) with
  | Some _ => []
  | None =>
      (EvDb (SaveMessages (finishedRows w (stream_chatId stream)))
         :: onFinishNotices stream ++ [usageWrite w stream])%list
  end.

(** ** Sample worlds *)

Definition sampleMessage : ChatMessage :=
  mkChatMessage "msg-1" user [TextPart "hello"].

Definition json_get (key : string) (fields : list (string * Json)) : option Json :=
  match find (fun kv => String.eqb (fst kv) key) fields with
  | Some kv => Some (snd kv)
  | None => None
  end.

(** A schema that wants an object with a string [id], an object [message]
    and a string [selectedChatModel]. *)
Definition sampleSchema (json : Json) : Outcome PostRequestBody :=
  match json with
  | JObj fields =>
      match json_get "id" fields, json_get "message" fields,
            json_get "selectedChatModel" fields with
      | Some (JStr id), Some (JObj _), Some (JStr model) =>
          Returns (mkPostRequestBody id sampleMessage model "private")
      | _, _, _ => Throws (Error "ZodError")
      end
  | _ => Throws (Error "ZodError")
  end.

Definition sampleUser : User := mkUser "user-1" "regular".

Definition sampleEntitlements (userType : UserType) : Entitlements :=
  if String.eqb userType "guest" then mkEntitlements 20 else mkEntitlements 100.

Definition sampleUsage : Usage :=
  mkUsage (Some 11) None None (Some 7) None None (Some 18) None.

Definition sampleReply : ChatMessage :=
  mkChatMessage "msg-2" assistant [TextPart "hi there"].

Definition sampleProvider (o : StreamTextOptions) : Outcome StreamTextResult :=
  Returns (mkStreamTextResult [["webSearch"]; []]
             (Returns (Some (Resolves (Some (mkConsumeResult (Some sampleUsage) None None)))))).

Definition acceptsAll (wr : DbWrite) : option Exn := None.

(** A world where the session is that of [sampleUser]; what varies is the
    number of messages the user sent in the last 24 hours, the chat found
    under the id, the answer of the title action, the network, the PDF
    reader, the provider and the store. *)
Definition sampleWorld (messageCount : Z) (chat : option Chat)
  (title : Outcome string) (net : string -> FetchResult)
  (pdf : list byte -> Outcome (option string))
  (provider : StreamTextOptions -> Outcome StreamTextResult)
  (refuses : DbWrite -> option Exn) : World :=
  {| postRequestBodySchema_parse := sampleSchema;
     auth := Returns (Some (mkSession (Some sampleUser)));
     entitlementsByUserType := sampleEntitlements;
     getMessageCountByUserId := fun _ _ => Returns messageCount;
     getUsageCountByUserId := fun _ _ => Returns 3;
     env_DAILY_REQUEST_LIMIT := None;
     getChatById := fun _ => Returns chat;
     generateTitleFromUserMessage := fun _ => title;
     getMessagesByChatId := fun _ => Returns [];
     convertToUIMessages :=
       map (fun row => mkChatMessage (row_id row) (row_role row) (row_parts row));
     geolocation := fun _ => mkRequestHints None None None None;
     generateUUID := "uuid-1";
     new_Date := 1700000000000;
     db_refuses := refuses;
     deleteChatById_result := fun id => mkChat id "user-1" "a chat" "private";
     fetch := net;
     pdfParse := pdf;
     createResumableStreamContext := Throws (Error "REDIS_URL environment variable is not set");
     resumableStream := fun _ => Returns tt;
     streamText := provider;
     finishedMessages := [sampleReply] |}.

Definition noNetwork (url : string) : FetchResult :=
  FetchRejects (TypeError "fetch failed").

Definition noPdf (buffer : list byte) : Outcome (option string) :=
  Returns None.

Definition sampleJson : Json :=
  JObj [("id", JStr "chat-1"); ("message", JObj []);
        ("selectedChatModel", JStr "chat-model")].

Definition sampleRequest : Request := mkRequest (Returns sampleJson) (Some "chat-1").

Definition sampleChat : Chat := mkChat "chat-1" "user-1" "a chat" "private".

Definition catUrl : string := "https://files.example/cat.png".

Definition reportUrl : string := "https://files.example/report.pdf".

Definition imageMessage : ChatMessage :=
  mkChatMessage "msg-3" user [TextPart "what is this?"; FilePart catUrl "image/png"].

Definition pdfMessage : ChatMessage :=
  mkChatMessage "msg-4" user
    [TextPart "see attached"; FilePart reportUrl "application/pdf"].

(** A text of 12,001 characters. *)
Definition longText : string := string_of_list_ascii (repeat "a"%char 12001).

Definition pdfNetwork (url : string) : FetchResult :=
  FetchResponse true (Returns [x25; x50; x44; x46]).

Definition longPdf (buffer : list byte) : Outcome (option string) :=
  Returns (Some longText).

(** No network at all; and a network that serves a long PDF. *)
Definition offlineWorld : World :=
  sampleWorld 5 None (Returns "a chat") noNetwork noPdf sampleProvider acceptsAll.

Definition pdfWorld : World :=
  sampleWorld 5 None (Returns "a chat") pdfNetwork longPdf sampleProvider acceptsAll.

Definition sampleBody : PostRequestBody :=
  mkPostRequestBody "chat-1" sampleMessage "chat-model" "private".

Definition requestWithoutId : Request :=
  mkRequest (Returns (JObj [("message", JObj [])])) None.

Definition reasoningRequest : Request :=
  mkRequest
    (Returns (JObj [("id", JStr "chat-1"); ("message", JObj []);
                    ("selectedChatModel", JStr "chat-model-reasoning")]))
    None.

(** The options of the model call these requests lead to. *)
Definition sampleOptions (model : string) : StreamTextOptions :=
  streamTextOptions model (mkRequestHints None None None None)
    [mkModelMessage user (ContentParts [ContentText "hello"])].

(** A provider that is down; one that reports no usage; a store that
    refuses usage rows. *)
Definition failingProvider (o : StreamTextOptions) : Outcome StreamTextResult :=
  Throws (Error "provider unavailable").

Definition silentProvider (o : StreamTextOptions) : Outcome StreamTextResult :=
  Returns (mkStreamTextResult [[]] (Returns (Some (Resolves None)))).

Definition refusesUsageLog (wr : DbWrite) : option Exn :=
  match wr with
  | SaveUsageLog _ => Some (ChatSDKError "bad_request:database")
  | _ => None
  end.

Definition downWorld : World :=
  sampleWorld 5 (Some sampleChat) (Returns "a chat") noNetwork noPdf
    failingProvider acceptsAll.

Definition usualWorld : World :=
  sampleWorld 5 (Some sampleChat) (Returns "a chat") noNetwork noPdf
    sampleProvider acceptsAll.

Definition silentWorld : World :=
  sampleWorld 5 (Some sampleChat) (Returns "a chat") noNetwork noPdf
    silentProvider refusesUsageLog.

(** ** What a run of the handler went through *)

(** The stream context the module holds after [getStreamContext]. *)
Definition contextAfter (w : World) (g : option ResumableStreamContext)
  : option ResumableStreamContext :=
  match g with
  | Some c => Some c
  | None =>
      match createResumableStreamContext w with
      | Returns c => Some c
      | Throws _ => None
      end
  end.

(** The usage count let the request through: it was read and is under the
    daily limit, or it could not be read, which is printed and counts as
    0. *)
Definition usageGate (w : World) (u : User) (printed : list Event) : Prop :=
  (exists usageCount,
      getUsageCountByUserId w (user_id u) 24 = Returns usageCount
      /\ js_ge usageCount (nullish (env_DAILY_REQUEST_LIMIT w) (Finite 100)) = false
      /\ printed = [])
  \/ (exists e,
         getUsageCountByUserId w (user_id u) 24 = Throws e
         /\ js_ge 0 (nullish (env_DAILY_REQUEST_LIMIT w) (Finite 100)) = false
         /\ printed = [EvConsoleError "Error fetching usage count for rate-limiting"]).

(** The chat the handler saves for the user [u] and a title. *)
Definition newChat (body : PostRequestBody) (u : User) (title : string) : Chat :=
  {| chat_id := body_id body;
     chat_userId := user_id u;
     chat_title := title;
     chat_visibility := selectedVisibilityType body |}.

(** The chat let the request through: it is the caller's, or there was none
    and one was saved under a generated title. *)
Definition chatGate (w : World) (body : PostRequestBody) (u : User)
  (chat : option Chat) (opening : list Event) : Prop :=
  match chat with
  | Some c => chat_userId c = user_id u /\ opening = []
  | None =>
      exists title,
        generateTitleFromUserMessage w (body_message body) = Returns title
        /\ opening = [EvGenerateTitle (body_message body);
                      EvDb (SaveChat (newChat body u title))]
  end.

(** A chat the handler saved was saved for want of one under the id. *)
Definition savedForWant (w : World) (request : Request) (c : Chat) : Prop :=
  exists json body session u title,
    request_json request = Returns json
    /\ postRequestBodySchema_parse w json = Returns body
    /\ auth w = Returns (Some session)
    /\ session_user session = Some u
    /\ getChatById w (body_id body) = Returns None
    /\ generateTitleFromUserMessage w (body_message body) = Returns title
    /\ c = newChat body u title.

(** The answer of a run that opened its stream. *)
Definition answerOf (w : World) (context : option ResumableStreamContext)
  (stream : UIMessageStream) (r : option Response) : Prop :=
  match context with
  | None => r = Some (StreamingResponse false stream)
  | Some _ =>
      match resumableStream w (generateUUID w) with
      | Returns _ => r = Some (StreamingResponse true stream)
      | Throws (ChatSDKError code) => r = Some (ErrorResponse code)
      | Throws _ => r = None
      end
  end.

Definition isSaveChat (e : Event) : bool :=
  match e with EvDb (SaveChat _) => true | _ => false end.

Definition isUsageLog (e : Event) : bool :=
  match e with EvDb (SaveUsageLog _) => true | _ => false end.

Inductive PostWalk (w : World) (request : Request)
  (g : option ResumableStreamContext)
  : Outcome (option Response) * Sys -> Prop :=
| walk_early (r : option Response) (pre : list Event)
    (g' : option ResumableStreamContext) :
    notStreaming r ->
    forallb isEarly pre = true ->
    forallb (fun e => negb (isUsageLog e)) pre = true ->
    (forall c, In (EvDb (SaveChat c)) pre -> savedForWant w request c) ->
    PostWalk w request g (Returns r, mkSys pre g')
| walk_stream (json : Json) (body : PostRequestBody) (session : Session)
    (u : User) (messageCount : Z) (chat : option Chat) (rows : list DBMessage)
    (printed opening notices : list Event) (steps : list (list string))
    (stream : UIMessageStream) (r : option Response) (t : list Event) :
    let uiMessages := (convertToUIMessages w rows ++ [body_message body])%list in
    let o := streamTextOptions (selectedChatModel body) (geolocation w request)
               (map (modelMessageOf w) uiMessages) in
    request_json request = Returns json ->
    postRequestBodySchema_parse w json = Returns body ->
    auth w = Returns (Some session) ->
    session_user session = Some u ->
    getMessageCountByUserId w (user_id u) 24 = Returns messageCount ->
    messageCount <= maxMessagesPerDay (entitlementsByUserType w (user_type u)) ->
    usageGate w u printed ->
    getChatById w (body_id body) = Returns chat ->
    chatGate w body u chat opening ->
    getMessagesByChatId w (body_id body) = Returns rows ->
    t = (printed ++ opening ++ flat_map (messageEvents w) uiMessages
         ++ EvDb (SaveMessages [userRow w body])
            :: EvDb (CreateStreamId (generateUUID w) (body_id body))
            :: EvStreamText o :: map EvStep steps ++ notices)%list ->
    forallb isNotice notices = true ->
    stream_chatId stream = body_id body ->
    stream_userId stream = user_id u ->
    stream_model stream = selectedChatModel body ->
    answerOf w (contextAfter w g) stream r ->
    PostWalk w request g (Returns r, mkSys t (contextAfter w g)).

(** ** Changing one collaborator *)

(** The world [w], with another answer to the usage count. *)
Definition withUsageCount (w : World) (answer : string -> Z -> Outcome Z) : World :=
  {| postRequestBodySchema_parse := postRequestBodySchema_parse w;
     auth := auth w;
     entitlementsByUserType := entitlementsByUserType w;
     getMessageCountByUserId := getMessageCountByUserId w;
     getUsageCountByUserId := answer;
     env_DAILY_REQUEST_LIMIT := env_DAILY_REQUEST_LIMIT w;
     getChatById := getChatById w;
     generateTitleFromUserMessage := generateTitleFromUserMessage w;
     getMessagesByChatId := getMessagesByChatId w;
     convertToUIMessages := convertToUIMessages w;
     geolocation := geolocation w;
     generateUUID := generateUUID w;
     new_Date := new_Date w;
     db_refuses := db_refuses w;
     deleteChatById_result := deleteChatById_result w;
     fetch := fetch w;
     pdfParse := pdfParse w;
     createResumableStreamContext := createResumableStreamContext w;
     resumableStream := resumableStream w;
     streamText := streamText w;
     finishedMessages := finishedMessages w |}.


(** The world [w], with another answer to the message count. *)
Definition withMessageCount (w : World) (answer : string -> Z -> Outcome Z) : World :=
  {| postRequestBodySchema_parse := postRequestBodySchema_parse w;
     auth := auth w;
     entitlementsByUserType := entitlementsByUserType w;
     getMessageCountByUserId := answer;
     getUsageCountByUserId := getUsageCountByUserId w;
     env_DAILY_REQUEST_LIMIT := env_DAILY_REQUEST_LIMIT w;
     getChatById := getChatById w;
     generateTitleFromUserMessage := generateTitleFromUserMessage w;
     getMessagesByChatId := getMessagesByChatId w;
     convertToUIMessages := convertToUIMessages w;
     geolocation := geolocation w;
     generateUUID := generateUUID w;
     new_Date := new_Date w;
     db_refuses := db_refuses w;
     deleteChatById_result := deleteChatById_result w;
     fetch := fetch w;
     pdfParse := pdfParse w;
     createResumableStreamContext := createResumableStreamContext w;
     resumableStream := resumableStream w;
     streamText := streamText w;
     finishedMessages := finishedMessages w |}.

(** The state [s] after one more line on the console. *)
Definition afterConsoleError (s : Sys) (label : string) : Sys :=
  mkSys (trace s ++ [EvConsoleError label])%list (globalStreamContext s).


(** The four tools [streamText] is told to keep active. *)
Definition alwaysActiveTools : list string :=
  ["getWeather"; "updateDocument"; "requestSuggestions"; "webSearch"].

(** More sample worlds: a store that is down for usage counts, a chat of
    somebody else, a network that serves a small image, a store that refuses
    the batch of a finished turn. *)
Definition noUsageCount (id : string) (differenceInHours : Z) : Outcome Z :=
  Throws (ChatSDKError "bad_request:database").

Definition othersChat : Chat := mkChat "chat-1" "user-2" "their chat" "private".

Definition imageNetwork (url : string) : FetchResult :=
  FetchResponse true (Returns [x4d; x61; x6e]).

Definition imageWorld : World :=
  sampleWorld 5 None (Returns "a chat") imageNetwork noPdf sampleProvider acceptsAll.

Definition refusesReplies (wr : DbWrite) : option Exn :=
  match wr with
  | SaveMessages [row] =>
      if Role_eqb (row_role row) assistant
      then Some (ChatSDKError "bad_request:database") else None
  | _ => None
  end.

Definition lossyWorld : World :=
  sampleWorld 5 (Some sampleChat) (Returns "a chat") noNetwork noPdf
    sampleProvider refusesReplies.

(** * The web search tool: lib/ai/tools/web-search.ts *)

Module WebSearch.

(** What reading a property off a parsed JSON value gives. *)
Inductive JsValue : Type :=
| Undefined
| Value (v : Json)
| StringMethod (name : string).   (* a method of String.prototype: [s.link] *)

Record SerperResult : Type := mkSerperResult {
  title : JsValue;
  link : JsValue;
  snippet : JsValue
}.

(** The second argument of [fetch]; [body] is the value that
    [JSON.stringify] writes out. *)
Record RequestInit : Type := mkRequestInit {
  method : string;
  headers : list (string * string);
  body : Json
}.

Record Response : Type := mkResponse {
  ok : bool;
  status : Z;
  json : Outcome Json      (* await response.json() *)
}.

Record Env : Type := mkEnv {
  SERPER_API_KEY : option string;     (* process.env.SERPER_API_KEY *)
  fetch : string -> RequestInit -> Outcome Response
}.

(** [item.key], for the keys the tool reads ([organic], [title], [link],
    [snippet]) on a value that [JSON.parse] made: reading off [null]
    throws, an object gives the value under the key, and of these keys a
    string only has [link], a method of its prototype. *)
Definition getProperty (item : Json) (key : string) : Outcome JsValue :=
  match item with
  | JNull => Throws (TypeError "Cannot read properties of null")
  | JObj fields =>
      Returns (match json_get key fields with
               | Some v => Value v
               | None => Undefined
               end)
  | JStr _ => Returns (if String.eqb key "link" then StringMethod "link" else Undefined)
  | _ => Returns Undefined
  end.

(** The callback of [.map]: [{ title: item.title, link: item.link, snippet:
    item.snippet }]. *)
Definition toResult (item : Json) : Outcome SerperResult :=
  match getProperty item "title" with
  | Throws e => Throws e
  | Returns t =>
      match getProperty item "link" with
      | Throws e => Throws e
      | Returns l =>
          match getProperty item "snippet" with
          | Throws e => Throws e
          | Returns s => Returns (mkSerperResult t l s)
          end
      end
  end.

Fixpoint mapItems (items : list Json) : Outcome (list SerperResult) :=
  match items with
  | [] => Returns []
  | item :: rest =>
      match toResult item with
      | Throws e => Throws e
      | Returns r =>
          match mapItems rest with
          | Throws e => Throws e
          | Returns rs => Returns (r :: rs)
          end
      end
  end.

(** [data?.organic] *)
Definition organicOf (data : Json) : JsValue :=
  match data with
  | JNull => Undefined
  | _ => match getProperty data "organic" with
         | Returns v => v
         | Throws _ => Undefined
         end
  end.

(** [(data?.organic ?? []).map(...)] *)
Definition resultsOf (data : Json) : Outcome (list SerperResult) :=
  match organicOf data with
  | Undefined | Value JNull => Returns []
  | Value (JArr items) => mapItems items
  | _ => Throws (TypeError "(data?.organic ?? []).map is not a function")
  end.

Definition endpoint : string := "https://google.serper.dev/search".

Definition requestFor (apiKey query : string) : RequestInit :=
  {| method := "POST";
     headers := [("Content-Type", "application/json"); ("X-API-KEY", apiKey)];
     body := JObj [("q", JStr query)] |}.

(** A status in a template literal. *)
Definition showStatus (status : Z) : string :=
  DecimalString.NilZero.string_of_int (Z.to_int status).

(** [execute({ query })]: what it returns or throws, and the requests it
    made. *)
Definition execute (env : Env) (query : string)
  : Outcome (list SerperResult) * list (string * RequestInit) :=
  match SERPER_API_KEY env with
  | None =>
      (Throws (Error "SERPER_API_KEY is not defined. Please add it to your environment configuration."),
       [])
  | Some apiKey =>
      if String.eqb apiKey EmptyString then
        (Throws (Error "SERPER_API_KEY is not defined. Please add it to your environment configuration."),
         [])
      else
        let requests := [(endpoint, requestFor apiKey query)] in
        match fetch env endpoint (requestFor apiKey query) with
        | Throws e => (Throws e, requests)
        | Returns response =>
            if negb (ok response) then
              (Throws (Error ("Serper request failed with status "
                              ++ showStatus (status response))),
               requests)
            else
              match json response with
              | Throws e => (Throws e, requests)
              | Returns data => (resultsOf data, requests)
              end
        end
  end.

(** A sample answer of the service, and an environment that gives it. *)
Definition sampleData : Json :=
  JObj [("searchParameters", JObj [("q", JStr "rocq")]);
        ("organic",
         JArr [JObj [("title", JStr "Rocq"); ("link", JStr "https://rocq-prover.org");
                     ("snippet", JStr "The Rocq prover"); ("position", JNum 1)];
               JObj [("title", JStr "Docs"); ("link", JStr "https://rocq-prover.org/docs")]])].

Definition sampleEnv (key : option string) (answer : Outcome Response) : Env :=
  mkEnv key (fun _ _ => answer).

End WebSearch.

(** * The source pills: components/source-pills.tsx *)

Module SourcePills.

Record Source : Type := mkSource {
  title : string;
  link : string;
  snippet : string
}.

(** The [reduce] that builds [uniqueSources]: a source is pushed unless one
    with the same link was pushed before. *)
Definition uniqueSources (sources : list Source) : list Source :=
  fold_left
    (fun acc src =>
       if existsb (fun s => String.eqb (link s) (link src)) acc then acc
       else (acc ++ [src])%list)
    sources [].

(** The callback of the [reduce]. *)
Definition push (acc : list Source) (src : Source) : list Source :=
  if existsb (fun s => String.eqb (link s) (link src)) acc then acc
  else (acc ++ [src])%list.

(** What the loop keeps true of the sources pushed so far ([acc]) and of
    the sources gone through so far ([seen]): the links pushed are distinct,
    each source pushed is the first seen with its link, and every link seen
    was pushed. *)
Definition kept (acc seen : list Source) : Prop :=
  NoDup (map link acc)
  /\ (forall k, In k acc ->
        find (fun x => String.eqb (link x) (link k)) seen = Some k)
  /\ (forall s, In s seen -> exists k, In k acc /\ link k = link s).

(** [s] without its first [n] characters. *)
Fixpoint skip (n : nat) (s : string) : string :=
  match n, s with
  | S n', String _ rest => skip n' rest
  | _, _ => s
  end.

(** [s.replace(pattern, replacement)] for a string pattern: the first
    occurrence only. *)
Fixpoint replaceFirst (pattern replacement s : string) : string :=
  if String.prefix pattern s then
    (replacement ++ skip (String.length pattern) s)%string
  else
    match s with
    | EmptyString => EmptyString
    | String c rest => String c (replaceFirst pattern replacement rest)
    end.

(** The text of a pill.  [hostnameOf] is [new URL(link).hostname], with
    [None] where [new URL] throws. *)
Definition domain (hostnameOf : string -> option string) (source : Source)
  : string :=
  match hostnameOf (link source) with
  | Some hostname => replaceFirst "www." EmptyString hostname
  | None => link source
  end.

(** A pill: its React key, its [href] and its text. *)
Record Pill : Type := mkPill {
  pill_key : string;
  pill_href : string;
  pill_text : string
}.

Definition pills (hostnameOf : string -> option string) (sources : list Source)
  : list Pill :=
  map (fun source => mkPill (link source) (link source) (domain hostnameOf source))
    (uniqueSources sources).

(** Sample sources, and a reading of host names good enough for them: what
    stands between [https://] and the next slash. *)
Fixpoint upToSlash (s : string) : string :=
  match s with
  | EmptyString => EmptyString
  | String c rest =>
      if Ascii.eqb c "/"%char then EmptyString else String c (upToSlash rest)
  end.

Definition sampleHostname (url : string) : option string :=
  if String.prefix "https://" url then Some (upToSlash (skip 8 url)) else None.

Definition sampleSources : list Source :=
  [mkSource "Rocq" "https://www.rocq-prover.org/" "The Rocq prover";
   mkSource "Docs" "https://rocq-prover.org/docs" "Documentation";
   mkSource "Rocq again" "https://www.rocq-prover.org/" "The same page"].

End SourcePills.

(** * Code blocks: components/code-block.tsx and components/markdown.tsx *)

Module CodeBlock.

(** [\w] *)
Definition isWordChar (c : ascii) : bool :=
  let n := nat_of_ascii c in
  ((48 <=? n) && (n <=? 57) || (65 <=? n) && (n <=? 90)
   || (97 <=? n) && (n <=? 122) || (n =? 95))%nat.

(** The longest run of word characters at the start of [s]. *)
Fixpoint takeWord (s : string) : string :=
  match s with
  | EmptyString => EmptyString
  | String c rest => if isWordChar c then String c (takeWord rest) else EmptyString
  end.

(** Only word characters. *)
Fixpoint allWord (s : string) : bool :=
  match s with
  | EmptyString => true
  | String c rest => isWordChar c && allWord rest
  end.

(** Nothing, or something that starts with another character than a word
    character. *)
Definition startsNonWord (s : string) : Prop :=
  match s with
  | EmptyString => True
  | String c _ => isWordChar c = false
  end.

(** [/language-(\w+)/.exec(className)]: the group of the leftmost match. *)
Fixpoint languageOf (className : string) : option string :=
  match (if String.prefix "language-" className
         then takeWord (SourcePills.skip 9 className) else EmptyString) with
  | String c word => Some (String c word)
  | EmptyString =>
      match className with
      | EmptyString => None
      | String _ rest => languageOf rest
      end
  end.

Definition newline : ascii := "010"%char.

(** [s.replace(/\n$/, '')]: one newline at the very end is dropped. *)
Fixpoint stripFinalNewline (s : string) : string :=
  match s with
  | EmptyString => EmptyString
  | String c EmptyString => if Ascii.eqb c newline then EmptyString else s
  | String c rest => String c (stripFinalNewline rest)
  end.

(** [String(children)], for children that are a string or missing. *)
Definition String_ (children : option string) : string :=
  match children with
  | Some text => text
  | None => "undefined"
  end.

Record Props : Type := mkProps {
  inline : option bool;
  className : option string;
  children : option string;
  language : option string;
  value : option string
}.

(** What the component renders: an inline [code] tag, or a block with the
    label of its header and the code given to the highlighter, which is
    also what the copy button writes to the clipboard. *)
Inductive View : Type :=
| InlineCode (className : string) (children : option string)
| Block (label language code : string).

Definition CodeBlock (props : Props) : View :=
  let className := nullish (className props) EmptyString in
  let language :=
    match language props with
    | Some l => l
    | None => nullish (languageOf className) EmptyString
    end in
  let code :=
    stripFinalNewline
      (match value props with
       | Some v => v
       | None => String_ (children props)
       end) in
  if nullish (inline props) false then
    InlineCode
      (className ++ " text-sm bg-zinc-100 dark:bg-zinc-800 py-0.5 px-1 rounded-md")
      (children props)
  else
    Block (if String.eqb language EmptyString then "code" else language)
      language code.

(** The [code] renderer of the Markdown component. *)
Record CodeProps : Type := mkCodeProps {
  code_inline : option bool;
  code_className : option string;
  code_children : option string
}.

Inductive Rendered : Type :=
| AsCodeBlock (view : View)
| AsInlineCode (children : option string).

Definition code (props : CodeProps) : Rendered :=
  let match_ := languageOf (nullish (code_className props) EmptyString) in
  let codeString := stripFinalNewline (String_ (code_children props)) in
  match nullish (code_inline props) false, match_ with
  | false, Some language =>
      AsCodeBlock
        (CodeBlock (mkProps None None None (Some language) (Some codeString)))
  | _, _ => AsInlineCode (code_children props)
  end.

End CodeBlock.

(** * Properties *)

Local Open Scope list_scope.

(** Runs the monad's plumbing, and nothing else. *)
Ltac js :=
  cbv beta iota zeta delta
    [bind ret throw try_catch await emit trace globalStreamContext].

(** ** The model at work *)

Example base64_of_Man : base64 [x4d; x61; x6e] = "TWFu".
Proof. reflexivity. Qed.

Example base64_pads : base64 [x4d; x61] = "TWE=" /\ base64 [x4d] = "TQ==".
Proof. split; reflexivity. Qed.

Example runSteps_stops_at_budget :
  runSteps 2 ["webSearch"] [["webSearch"]; ["webSearch"]; ["webSearch"]]
  = [["webSearch"]; ["webSearch"]].
Proof. reflexivity. Qed.

Example runSteps_drops_inactive_tools :
  runSteps 5 ["webSearch"] [["createDocument"; "webSearch"]; []]
  = [["webSearch"]; []].
Proof. reflexivity. Qed.

Example readUsage_falls_back :
  readUsage (mkUsage None None (Some 4) None (Some 6) None None (Some 10))
  = mkUsageData 4 6 10.
Proof. reflexivity. Qed.

(** A usual turn on an existing chat, from the first write to the last. *)
Example usual_turn :
  turnTrace usualWorld sampleRequest None
  = [EvDb (SaveMessages [userRow usualWorld sampleBody]);
     EvDb (CreateStreamId "uuid-1" "chat-1");
     EvStreamText (sampleOptions "chat-model");
     EvStep ["webSearch"]; EvStep [];
     EvConsoleLog " > Resumable streams are disabled due to missing REDIS_URL";
     EvStreamDrained;
     EvDb (SaveMessages (finishedRows usualWorld "chat-1"));
     EvConsoleLog "--- FULL GROK RESULT OBJECT ---";
     EvConsoleLog "--- GROK API USAGE DATA ---";
     EvDb (SaveUsageLog (mkUsageLog "user-1" "chat-model" "chat" 11 7 18))].
Proof. reflexivity. Qed.

(** The same request from a user over the ceiling of the tier. *)
Example over_ceiling_turn :
  chatTurn (sampleWorld 101 (Some sampleChat) (Returns "a chat") noNetwork noPdf
              sampleProvider acceptsAll) sampleRequest (fresh None)
  = (Returns (Some (ErrorResponse "rate_limit:chat")), fresh None).
Proof. reflexivity. Qed.

(** Deleting a chat of one's own. *)
Example delete_own_chat :
  DELETE usualWorld sampleRequest (fresh None)
  = (Returns (ChatResponse 200 sampleChat),
     mkSys [EvDb (DeleteChatById "chat-1")] None).
Proof. reflexivity. Qed.

(** ** [substring(0, n)] *)

Lemma substring_0_length (n : nat) (s : string) :
  String.length (String.substring 0 n s) = Nat.min n (String.length s).
Proof.
  revert s. induction n as [| n IH]; intros [| c s]; simpl; trivial.
  rewrite IH. reflexivity.
Qed.

Lemma substring_0_prefix (n : nat) (s : string) :
  String.prefix (String.substring 0 n s) s = true.
Proof.
  revert s. induction n as [| n IH]; intros [| c s]; simpl; trivial.
  destruct (Ascii.ascii_dec c c) as [_ | H]; [apply IH | contradiction].
Qed.

Lemma substring_budget_length (text : string) :
  12000 < js_length text ->
  js_length (String.substring 0 12000 text) = 12000.
Proof.
  unfold js_length. intros H. rewrite substring_0_length, Nat2Z.inj_min.
  change (Z.of_nat 12000) with 12000. lia.
Qed.

#[local] Arguments String.append : simpl never.
#[local] Arguments String.substring : simpl never.
#[local] Arguments String.prefix : simpl never.
#[local] Arguments String.eqb : simpl never.
#[local] Arguments Nat.of_num_uint : simpl never.
#[local] Arguments Nat.of_uint : simpl never.
#[local] Arguments base64 : simpl never.

(** ** The attachment loop *)

Section Attachments.

Variable w : World.

Ltac unfold_js := unfold bind, try_catch, ret, throw, emit, await.

Lemma fetchArrayBuffer_eq (url : string) (s : Sys) :
  fetchArrayBuffer w url s
  = (fetched w url, mkSys (trace s ++ [EvFetch url]) (globalStreamContext s)).
Proof.
  unfold fetchArrayBuffer, fetched. unfold_js. simpl.
  destruct (fetch w url) as [e | ok [buf | e]]; try reflexivity;
    destruct ok; reflexivity.
Qed.

Lemma pushPart_eq (contentParts : list ContentPart) (part : Part) (s : Sys) :
  pushPart w contentParts part s
  = (Returns (contentParts ++ partBlocks w part)%list,
     mkSys (trace s ++ partEvents w part) (globalStreamContext s)).
Proof.
  destruct s as [t g].
  destruct part as [text | url mediaType | payload | payload]; simpl;
    try (unfold ret; simpl; rewrite !app_nil_r; reflexivity).
  destruct (String.prefix "image/" mediaType).
    + unfold try_catch, bind. rewrite fetchArrayBuffer_eq. simpl.
      destruct (fetched w url); simpl.
      * reflexivity.
      * unfold emit, ret. simpl. rewrite app_nil_r, <- app_assoc. reflexivity.
    + destruct (String.eqb mediaType "application/pdf").
      * unfold try_catch, bind. rewrite fetchArrayBuffer_eq. simpl.
        unfold pdfText, extractTextFromPdf, bind, await.
        destruct (fetched w url) as [buf | e]; simpl.
        -- destruct (pdfParse w buf) as [res_text | e]; simpl.
           ++ reflexivity.
           ++ unfold emit, ret, throw. simpl.
              rewrite app_nil_r, <- app_assoc. reflexivity.
        -- unfold emit, ret. simpl. rewrite app_nil_r, <- app_assoc. reflexivity.
      * unfold ret. rewrite !app_nil_r. reflexivity.
Qed.

Lemma forParts_eq (parts : list Part) :
  forall (contentParts : list ContentPart) (s : Sys),
    forParts w parts contentParts s
    = (Returns (contentParts ++ flat_map (partBlocks w) parts)%list,
       mkSys (trace s ++ flat_map (partEvents w) parts) (globalStreamContext s)).
Proof.
  induction parts as [| part rest IH]; intros contentParts s; simpl.
  - destruct s; unfold ret; simpl. rewrite !app_nil_r. reflexivity.
  - unfold bind. rewrite pushPart_eq, IH. simpl.
    rewrite <- !app_assoc. reflexivity.
Qed.

Lemma forMessages_eq (uiMessages : list ChatMessage) :
  forall (modelMessages : list ModelMessage) (s : Sys),
    forMessages w uiMessages modelMessages s
    = (Returns (modelMessages ++ map (modelMessageOf w) uiMessages)%list,
       mkSys (trace s ++ flat_map (messageEvents w) uiMessages)
         (globalStreamContext s)).
Proof.
  induction uiMessages as [| msg rest IH]; intros modelMessages s; simpl.
  - destruct s; unfold ret; simpl. rewrite !app_nil_r. reflexivity.
  - unfold modelMessageOf, messageEvents.
    destruct (negb (Role_eqb (msg_role msg) user)); simpl.
    + rewrite IH, <- app_assoc. reflexivity.
    + unfold bind. rewrite forParts_eq, IH. simpl.
      rewrite <- !app_assoc. reflexivity.
Qed.

Lemma buildModelMessages_eq (uiMessages : list ChatMessage) (s : Sys) :
  buildModelMessages w uiMessages s
  = (Returns (map (modelMessageOf w) uiMessages),
     mkSys (trace s ++ flat_map (messageEvents w) uiMessages)
       (globalStreamContext s)).
Proof. unfold buildModelMessages. rewrite forMessages_eq. reflexivity. Qed.

Lemma partEvents_quiet (part : Part) :
  forallb isQuiet (partEvents w part) = true.
Proof.
  destruct part as [text | url mediaType | payload | payload]; simpl; trivial.
  destruct (String.prefix "image/" mediaType).
  - destruct (fetched w url); reflexivity.
  - destruct (String.eqb mediaType "application/pdf"); trivial.
    destruct (pdfText w url); reflexivity.
Qed.

Lemma forallb_flat_map {A B} (p : B -> bool) (f : A -> list B) (l : list A) :
  (forall a, forallb p (f a) = true) -> forallb p (flat_map f l) = true.
Proof.
  intros H. induction l as [| a l IH]; simpl; trivial.
  rewrite forallb_app, H, IH. reflexivity.
Qed.

Lemma messageEvents_quiet (uiMessages : list ChatMessage) :
  forallb isQuiet (flat_map (messageEvents w) uiMessages) = true.
Proof.
  apply forallb_flat_map. intros msg. unfold messageEvents.
  destruct (negb (Role_eqb (msg_role msg) user)); trivial.
  apply forallb_flat_map, partEvents_quiet.
Qed.

End Attachments.

(** ** The phases of a turn *)

Section Phases.

Variable w : World.

Lemma dbWrite_eq (wr : DbWrite) (s : Sys) :
  dbWrite w wr s
  = match db_refuses w wr with
    | Some e => (Throws e, s)
    | None => (Returns tt, mkSys (trace s ++ [EvDb wr]) (globalStreamContext s))
    end.
Proof. unfold dbWrite. destruct (db_refuses w wr); reflexivity. Qed.

Lemma emitSteps_eq (steps : list (list string)) :
  forall s : Sys,
    emitSteps steps s
    = (Returns tt, mkSys (trace s ++ map EvStep steps) (globalStreamContext s)).
Proof.
  induction steps as [| calls rest IH]; intros [t g]; simpl.
  - unfold ret. rewrite app_nil_r. reflexivity.
  - unfold bind, emit. rewrite IH. simpl. rewrite <- app_assoc. reflexivity.
Qed.

Lemma createUIMessageStream_shape (id userId model : string)
  (hints : RequestHints) (msgs : list ModelMessage) (usageData : UsageData)
  (s : Sys) :
  let o := streamTextOptions model hints msgs in
  exists stream steps notices,
    createUIMessageStream id userId model usageData
      (execute w model hints msgs usageData) s
    = (Returns stream,
       mkSys (trace s ++ EvStreamText o :: map EvStep steps ++ notices)
         (globalStreamContext s))
    /\ stream_chatId stream = id
    /\ stream_userId stream = userId
    /\ stream_model stream = model
    /\ stream_usageData stream = usageAfterThen usageData (stream_consumePromise stream)
    /\ (steps = [] \/
        exists r, streamText w o = Returns r /\
                  steps = runSteps (opt_stopWhen o) (offeredTools o) (modelSteps r))
    /\ forallb isNotice notices = true.
Proof.
  intros o. destruct s as [t g].
  unfold createUIMessageStream, execute. fold o.
  unfold try_catch, bind, emit, await. simpl.
  destruct (streamText w o) as [r | e] eqn:Er; simpl.
  - rewrite emitSteps_eq. simpl.
    set (steps := runSteps (opt_stopWhen o) (offeredTools o) (modelSteps r)).
    assert (Hsteps : steps = [] \/
              exists r0, Returns r = Returns r0 /\
                steps = runSteps (opt_stopWhen o) (offeredTools o) (modelSteps r0))
      by (right; exists r; split; reflexivity).
    destruct (consumeStream r) as [[[[res|] | e] |] | e]; simpl;
      try destruct (res_usage res) eqn:Eu;
      eexists _, steps, _; simpl; rewrite <- ?app_assoc; simpl;
      (split; [ first [ reflexivity
                      | instantiate (1 := []); rewrite app_nil_r; reflexivity ]
              | repeat split; simpl; rewrite ?Eu; trivial ]).
  - exists (mkUIMessageStream id userId model None usageData), [],
      [EvStreamError "Oops, an error occurred!"].
    simpl. rewrite <- app_assoc. repeat split; auto.
Qed.

Lemma getStreamContext_shape (s : Sys) :
  exists c notices g',
    getStreamContext w s = (Returns c, mkSys (trace s ++ notices) g')
    /\ forallb isNotice notices = true.
Proof.
  destruct s as [t g]. unfold getStreamContext. simpl.
  destruct g as [c |].
  - exists (Some c), [], (Some c). rewrite app_nil_r. auto.
  - destruct (createResumableStreamContext w) as [c | e].
    + exists (Some c), [], (Some c). rewrite app_nil_r. auto.
    + destruct (includes (exn_message e) "REDIS_URL"); eexists None, [_], None; auto.
Qed.

Lemma onFinish_eq (stream : UIMessageStream) (s : Sys) :
  onFinish w stream (finishedMessages w) s
  = match db_refuses w (SaveMessages (finishedRows w (stream_chatId stream))) with
    | Some e => (Throws e, s)
    | None =>
        (Returns tt,
         mkSys (trace s
                ++ EvDb (SaveMessages (finishedRows w (stream_chatId stream)))
                   :: onFinishNotices stream ++ [usageWrite w stream])
           (globalStreamContext s))
    end.
Proof.
  destruct s as [t g]. unfold onFinish, finishedRows.
  unfold bind at 1. rewrite dbWrite_eq.
  match goal with |- context [db_refuses w ?x] => destruct (db_refuses w x) end;
    [reflexivity |].
  unfold usageWrite, usageLogOf, finalUsage, onFinishNotices.
  unfold bind, try_catch, emit, ret, throw. simpl.
  destruct (stream_consumePromise stream) as [[res | e] |]; simpl.
  - destruct (pickUsage res) as [usage |]; simpl; rewrite dbWrite_eq;
      match goal with |- context [db_refuses w ?x] => destruct (db_refuses w x) end;
      simpl; rewrite <- ?app_assoc; reflexivity.
  - rewrite dbWrite_eq;
      match goal with |- context [db_refuses w ?x] => destruct (db_refuses w x) end;
      simpl; rewrite <- ?app_assoc; reflexivity.
  - rewrite dbWrite_eq;
      match goal with |- context [db_refuses w ?x] => destruct (db_refuses w x) end;
      simpl; rewrite <- ?app_assoc; reflexivity.
Qed.

End Phases.

(** ** The shape of a run *)

Section Shape.

Variable w : World.

Lemma quiet_prelude (l : list Event) :
  forallb isQuiet l = true -> forallb isPrelude l = true.
Proof.
  rewrite !forallb_forall. intros H e He. specialize (H e He).
  destruct e; unfold isPrelude in *; simpl in *; congruence.
Qed.

Lemma prelude_early (l : list Event) :
  forallb isPrelude l = true -> forallb isEarly l = true.
Proof.
  rewrite !forallb_forall. intros H e He. specialize (H e He).
  destruct e as [ | | | [] | | | | | ]; unfold isPrelude, isEarly in *;
    simpl in *; congruence.
Qed.

Ltac calm :=
  repeat rewrite forallb_app; simpl;
  repeat (rewrite quiet_prelude by apply messageEvents_quiet);
  repeat (rewrite prelude_early by (apply quiet_prelude, messageEvents_quiet));
  simpl; reflexivity.

Ltac early := apply run_early; [exact I | calm].

Lemma shape_assoc (a s n n2 : list Event) (z : Event) :
  (a ++ z :: s ++ n) ++ n2 = a ++ z :: s ++ (n ++ n2).
Proof. rewrite <- app_assoc. simpl. rewrite <- app_assoc. reflexivity. Qed.

Lemma POST_run (request : Request) (g : option ResumableStreamContext) :
  PostRun w request (POST w request (fresh g)).
Proof.
  unfold POST, fresh. js.
  destruct (request_json request) as [json | e] eqn:Ej; js; [| early].
  destruct (postRequestBodySchema_parse w json) as [body | e] eqn:Eb; js; [| early].
  destruct (auth w) as [session | e]; js; [| destruct e; early].
  destruct (match session with Some s => session_user s | None => None end)
    as [u |]; js; [| early].
  destruct (getMessageCountByUserId w (user_id u) 24) as [messageCount | e]; js;
    [| destruct e; early].
  destruct (messageCount >? _); js; [early |].
  destruct (getUsageCountByUserId w (user_id u) 24) as [usageCount | e0]; js.
  all: destruct (js_ge _ _); js; [early |].
  all: destruct (getChatById w (body_id body)) as [[chat |] | e]; js;
    [ | | destruct e; early].
  all: try (destruct (generateTitleFromUserMessage w (body_message body))
              as [title | e]; js; [| destruct e; early];
            rewrite dbWrite_eq; destruct (db_refuses w _) as [e |]; js;
            [destruct e; early |]).
  all: try (destruct (String.eqb (chat_userId chat) (user_id u)); cbn [negb]; js;
            [| early]).
  all: cbn [negb]; js.
  all: destruct (getMessagesByChatId w (body_id body)) as [rows | e]; js;
    [| destruct e; early].
  all: rewrite buildModelMessages_eq; js.
  all: rewrite dbWrite_eq; destruct (db_refuses w _) as [e |]; js;
    [destruct e; early |].
  all: rewrite dbWrite_eq; destruct (db_refuses w _) as [e |]; js;
    [destruct e; early |].
  all: match goal with
       | |- context [createUIMessageStream ?a ?b ?c ?d (execute w ?c ?h ?ms ?d) ?s] =>
           pose proof (createUIMessageStream_shape w a b c h ms d s) as H;
           cbv zeta in H;
           destruct H as (stream & steps & notices & E & Hid & _ & _ & Hud & Hsteps & Hnot);
           rewrite E; clear E
       end; js.
  all: match goal with
       | |- context [getStreamContext w ?s] =>
           destruct (getStreamContext_shape w s) as (c & n2 & g' & E & Hn2);
           rewrite E; clear E
       end; js.
  all: destruct c as [c |]; js.
  all: try (destruct (resumableStream w (generateUUID w)) as [[] | e]; js;
            [| destruct e]).
  all: match goal with
       | |- PostRun _ _ (_, mkSys ((((?pre ++ [EvDb (SaveMessages _)]) ++ _)
                                     ++ EvStreamText _ :: map EvStep _ ++ _) ++ _) _) =>
           eapply (run_stream w request json body _ pre (notices ++ n2) steps);
           [ exact Ej | exact Eb | apply shape_assoc | calm
           | rewrite forallb_app, Hnot, Hn2; reflexivity
           | exact Hsteps
           | simpl; auto ]
       end.
Qed.

End Shape.

(** ** The shape of a whole turn *)

Section Turn.

Variable w : World.

Lemma drain_streaming (b : bool) (stream : UIMessageStream) (s : Sys) :
  drain w (Some (StreamingResponse b stream)) s
  = (Returns tt,
     mkSys (trace s ++ EvStreamDrained :: finishEvents w stream)
       (globalStreamContext s)).
Proof.
  destruct s as [t g]. unfold drain, finishEvents. js.
  rewrite onFinish_eq.
  destruct (db_refuses w _); js; rewrite <- ?app_assoc; reflexivity.
Qed.

Lemma drain_notStreaming (r : option Response) (s : Sys) :
  notStreaming r -> drain w r s = (Returns tt, s).
Proof. destruct r as [[] |]; simpl; intros H; try contradiction; reflexivity. Qed.

Lemma chatTurn_eq (request : Request) (s : Sys) (r : option Response) (s' : Sys) :
  POST w request s = (Returns r, s') ->
  chatTurn w request s = (Returns r, snd (drain w r s')).
Proof.
  intros E. unfold chatTurn. js. rewrite E.
  destruct r as [[code | status message | b stream | status c] |];
    try reflexivity.
  rewrite drain_streaming. reflexivity.
Qed.

(** Either the turn never calls the model, or its trace is: a prelude, the
    save of the user message, the stream id, the one model call with its
    steps, notices, and then what the end of the stream adds. *)
Lemma turn_shape (request : Request) (g : option ResumableStreamContext) :
  forallb isEarly (turnTrace w request g) = true
  \/
  exists json body msgs pre steps notices rest,
    let o := streamTextOptions (selectedChatModel body) (geolocation w request) msgs in
    request_json request = Returns json
    /\ postRequestBodySchema_parse w json = Returns body
    /\ turnTrace w request g
       = pre ++ EvDb (SaveMessages [userRow w body])
             :: EvDb (CreateStreamId (generateUUID w) (body_id body))
             :: EvStreamText o :: map EvStep steps ++ notices ++ rest
    /\ forallb isPrelude pre = true
    /\ forallb isNotice notices = true
    /\ (steps = [] \/
        exists res, streamText w o = Returns res
                    /\ steps = runSteps (opt_stopWhen o) (offeredTools o) (modelSteps res))
    /\ (rest = [] \/
        exists stream, stream_chatId stream = body_id body
                       /\ rest = EvStreamDrained :: finishEvents w stream).
Proof.
  unfold turnTrace.
  pose proof (POST_run w request g) as Hrun.
  inversion Hrun as [r pre g' Hr Hpre E | json body msgs pre notices steps r g' t o Ej Eb Et Hpre Hnot Hsteps Hr E].
  - left. symmetry in E. rewrite (chatTurn_eq _ _ _ _ E).
    rewrite drain_notStreaming by assumption. exact Hpre.
  - right. symmetry in E. rewrite (chatTurn_eq _ _ _ _ E).
    exists json, body, msgs, pre, steps, notices.
    destruct r as [[code | status message | b stream | status c] |].
    1, 2, 4, 5: exists []; cbv zeta; simpl; rewrite Et, !app_nil_r, <- !app_assoc;
      simpl; repeat split; auto.
    exists (EvStreamDrained :: finishEvents w stream). cbv zeta.
    rewrite drain_streaming. simpl. rewrite Et, <- !app_assoc. simpl.
    rewrite <- !app_assoc.
    repeat split; auto. right. exists stream. split; [apply Hr | reflexivity].
Qed.

End Turn.

(** ** Validation, limits and errors of the handlers *)

(** C8.  A request whose body cannot be read as JSON, or whose JSON the
    schema rejects, is answered with [bad_request:api], and the handler
    leaves the state as it found it: nothing was written, nothing was
    called. *)
Theorem malformed_body_is_bad_request (w : World) (request : Request) (s : Sys) :
  (exists e, request_json request = Throws e) \/
  (exists json e, request_json request = Returns json
                  /\ postRequestBodySchema_parse w json = Throws e) ->
  POST w request s = (Returns (Some (ErrorResponse "bad_request:api")), s)
  /\ chatTurn w request s = (Returns (Some (ErrorResponse "bad_request:api")), s).
Proof.
  intros H.
  assert (E : POST w request s
              = (Returns (Some (ErrorResponse "bad_request:api")), s)).
  { unfold POST. js.
    destruct H as [[e Ej] | (json & e & Ej & Eb)]; rewrite Ej; js.
    - reflexivity.
    - rewrite Eb. reflexivity. }
  split; [exact E |].
  rewrite (chatTurn_eq w _ _ _ _ E). reflexivity.
Qed.

Lemma malformed_body_is_bad_request_witness :
  POST (sampleWorld 5 None (Returns "a chat") noNetwork noPdf sampleProvider acceptsAll)
    requestWithoutId (fresh None)
  = (Returns (Some (ErrorResponse "bad_request:api")), fresh None)
  /\ chatTurn (sampleWorld 5 None (Returns "a chat") noNetwork noPdf sampleProvider acceptsAll)
       requestWithoutId (fresh None)
     = (Returns (Some (ErrorResponse "bad_request:api")), fresh None).
Proof.
  apply (malformed_body_is_bad_request
           (sampleWorld 5 None (Returns "a chat") noNetwork noPdf sampleProvider acceptsAll)
           requestWithoutId (fresh None)).
  right. exists (JObj [("message", JObj [])]), (Error "ZodError").
  split; reflexivity.
Defined.

(** A user strictly above the ceiling of the tier is answered with
    [rate_limit:chat], and the handler leaves the state as it found it. *)
Lemma POST_above_ceiling (w : World) (request : Request) (s : Sys)
  (json : Json) (body : PostRequestBody) (session : Session) (u : User)
  (messageCount : Z) :
  request_json request = Returns json ->
  postRequestBodySchema_parse w json = Returns body ->
  auth w = Returns (Some session) ->
  session_user session = Some u ->
  getMessageCountByUserId w (user_id u) 24 = Returns messageCount ->
  messageCount > maxMessagesPerDay (entitlementsByUserType w (user_type u)) ->
  POST w request s = (Returns (Some (ErrorResponse "rate_limit:chat")), s).
Proof.
  intros Ej Eb Ea Eu Ec Hgt. unfold POST. js.
  rewrite Ej. js. rewrite Eb. js. rewrite Ea. js. rewrite Eu. js. rewrite Ec. js.
  apply Z.gt_lt, Z.gtb_lt in Hgt. rewrite Hgt. reflexivity.
Qed.

(** C1.  At the ceiling itself the handler does not stop: with 100 messages
    in the last 24 hours and a ceiling of 100, the request is served, the
    user message is saved and the model is called. *)
Theorem POST_at_ceiling_is_served :
  let w := sampleWorld 100 (Some sampleChat) (Returns "a chat") noNetwork noPdf
             sampleProvider acceptsAll in
  getMessageCountByUserId w (user_id sampleUser) 24
  = Returns (maxMessagesPerDay (entitlementsByUserType w (user_type sampleUser)))
  /\ exists stream s',
       POST w sampleRequest (fresh None)
       = (Returns (Some (StreamingResponse false stream)), s')
       /\ In (EvDb (SaveMessages [userRow w sampleBody])) (trace s')
       /\ existsb isStreamText (trace s') = true.
Proof.
  cbv zeta. split; [reflexivity |].
  eexists _, _. split; [vm_compute; reflexivity |].
  split; [vm_compute; auto | reflexivity].
Qed.

(** C3.  When the title action throws an error that is not a [ChatSDKError],
    the handler returns nothing at all: its [catch] only answers for
    [ChatSDKError]. *)
Theorem POST_plain_error_gives_no_response :
  let w := sampleWorld 5 None (Throws (Error "provider unavailable")) noNetwork
             noPdf sampleProvider acceptsAll in
  generateTitleFromUserMessage w sampleMessage = Throws (Error "provider unavailable")
  /\ fst (POST w sampleRequest (fresh None)) = Returns None.
Proof. cbv zeta. split; reflexivity. Qed.

(** What the [catch] of the handler does answer for: a [ChatSDKError] of the
    session lookup comes back as the response of that error. *)
Lemma POST_ChatSDKError_response (w : World) (request : Request) (s : Sys)
  (json : Json) (body : PostRequestBody) (code : string) :
  request_json request = Returns json ->
  postRequestBodySchema_parse w json = Returns body ->
  auth w = Throws (ChatSDKError code) ->
  POST w request s = (Returns (Some (ErrorResponse code)), s).
Proof.
  intros Ej Eb Ea. unfold POST. js. rewrite Ej. js. rewrite Eb. js.
  rewrite Ea. reflexivity.
Qed.

(** C9.  Deleting under an id that no chat has: the owner is read off a
    missing record, which throws, and nothing in the handler catches it. *)
Theorem DELETE_missing_chat_throws (w : World) (request : Request) (s : Sys)
  (id : string) (session : Session) (u : User) :
  request_id_param request = Some id ->
  id <> EmptyString ->
  auth w = Returns (Some session) ->
  session_user session = Some u ->
  getChatById w id = Returns None ->
  exists message, DELETE w request s = (Throws (TypeError message), s).
Proof.
  intros Eid Hid Ea Eu Ec. unfold DELETE. rewrite Eid.
  apply String.eqb_neq in Hid. rewrite Hid. js.
  rewrite Ea. js. rewrite Eu. js. rewrite Ec. js.
  eexists. reflexivity.
Qed.

Lemma DELETE_missing_chat_throws_witness :
  exists message,
    DELETE (sampleWorld 5 None (Returns "a chat") noNetwork noPdf sampleProvider acceptsAll)
      sampleRequest (fresh None)
    = (Throws (TypeError message), fresh None).
Proof.
  apply (DELETE_missing_chat_throws
           (sampleWorld 5 None (Returns "a chat") noNetwork noPdf sampleProvider acceptsAll)
           sampleRequest (fresh None) "chat-1" (mkSession (Some sampleUser)) sampleUser).
  - reflexivity.
  - discriminate.
  - reflexivity.
  - reflexivity.
  - reflexivity.
Defined.

(** ** What the attachment loop guarantees *)

Section AttachmentGuarantees.

Variable w : World.

Lemma buildModelMessages_nth (uiMessages : list ChatMessage) (s : Sys)
  (i : nat) (msg : ChatMessage) :
  nth_error uiMessages i = Some msg ->
  exists out s',
    buildModelMessages w uiMessages s = (Returns out, s')
    /\ List.length out = List.length uiMessages
    /\ nth_error out i = Some (modelMessageOf w msg)
    /\ trace s' = trace s ++ flat_map (messageEvents w) uiMessages.
Proof.
  intros Hi. rewrite buildModelMessages_eq. eexists _, _.
  split; [reflexivity |]. split; [apply List.length_map |].
  split; [| reflexivity].
  rewrite nth_error_map, Hi. reflexivity.
Qed.

Lemma modelMessageOf_user (msg : ChatMessage) :
  msg_role msg = user ->
  modelMessageOf w msg
  = mkModelMessage user (ContentParts (flat_map (partBlocks w) (msg_parts msg))).
Proof. intros H. unfold modelMessageOf. rewrite H. reflexivity. Qed.

Lemma messageEvents_user (msg : ChatMessage) :
  msg_role msg = user ->
  messageEvents w msg = flat_map (partEvents w) (msg_parts msg).
Proof. intros H. unfold messageEvents. rewrite H. reflexivity. Qed.

(** The blocks of a message whose attachments all come to nothing are the
    blocks of its text parts. *)
Lemma partBlocks_textBlocks (parts : list Part) :
  (forall url mediaType,
      In (FilePart url mediaType) parts ->
      partBlocks w (FilePart url mediaType) = []) ->
  flat_map (partBlocks w) parts = textBlocks parts.
Proof.
  induction parts as [| part rest IH]; intros H; [reflexivity |].
  unfold textBlocks in *. cbn [flat_map]. rewrite IH.
  - destruct part as [text | url mediaType | payload | payload];
      try reflexivity.
    rewrite (H url mediaType) by (left; reflexivity). reflexivity.
  - intros url mediaType Hin. apply H. right. exact Hin.
Qed.

(** C4, as the code has it.  An image of a user message whose fetch does not
    succeed does not make the preprocessing fail: the failure is written to
    the console, the image is left out, and every other part of the message
    keeps its blocks, in order. *)
Theorem failed_image_is_logged_and_left_out (uiMessages : list ChatMessage)
  (s : Sys) (i : nat) (msg : ChatMessage) (url mediaType : string)
  (before after : list Part) :
  nth_error uiMessages i = Some msg ->
  msg_role msg = user ->
  msg_parts msg = before ++ FilePart url mediaType :: after ->
  String.prefix "image/" mediaType = true ->
  fetchFails w url ->
  exists out s' events,
    buildModelMessages w uiMessages s = (Returns out, s')
    /\ nth_error out i
       = Some (mkModelMessage user
                 (ContentParts (flat_map (partBlocks w) before
                                ++ flat_map (partBlocks w) after)))
    /\ trace s' = trace s ++ events
    /\ In (EvConsoleError "Error processing image attachment") events.
Proof.
  intros Hi Hrole Hparts Himage [e Hfetch].
  destruct (buildModelMessages_nth uiMessages s i msg Hi)
    as (out & s' & E & _ & Hnth & Ht).
  exists out, s', (flat_map (messageEvents w) uiMessages).
  split; [exact E |]. split; [| split; [exact Ht |]].
  - rewrite Hnth, (modelMessageOf_user msg Hrole), Hparts.
    rewrite flat_map_app. cbn [flat_map partBlocks].
    rewrite Himage, Hfetch. reflexivity.
  - apply in_flat_map. exists msg. split; [eapply nth_error_In, Hi |].
    rewrite (messageEvents_user msg Hrole), Hparts.
    apply in_flat_map. exists (FilePart url mediaType).
    split; [apply in_elt |].
    cbn [partEvents]. rewrite Himage, Hfetch. right. left. reflexivity.
Qed.

(** C6.  A PDF of a user message never makes the preprocessing fail.  When
    its text could be extracted and is longer than 12,000 characters, the
    message carries a text block made of the summarization instruction and
    of the first 12,000 characters of that text; when the file could not be
    fetched or read, the message carries the blocks of its other parts
    only. *)
Theorem pdf_text_is_truncated_to_budget (uiMessages : list ChatMessage)
  (s : Sys) (i : nat) (msg : ChatMessage) (url : string)
  (before after : list Part) :
  nth_error uiMessages i = Some msg ->
  msg_role msg = user ->
  msg_parts msg = before ++ FilePart url "application/pdf" :: after ->
  exists out s' blocks,
    buildModelMessages w uiMessages s = (Returns out, s')
    /\ nth_error out i = Some (mkModelMessage user (ContentParts blocks))
    /\ (forall text,
           pdfText w url = Returns text ->
           12000 < js_length text ->
           exists truncated,
             blocks
             = flat_map (partBlocks w) before
               ++ ContentText
                    ("Please summarize the following document:"
                     ++ String "010" (String "010" truncated))%string
                  :: flat_map (partBlocks w) after
             /\ js_length truncated = 12000
             /\ String.prefix truncated text = true)
    /\ (forall e,
           pdfText w url = Throws e ->
           blocks = flat_map (partBlocks w) before ++ flat_map (partBlocks w) after).
Proof.
  intros Hi Hrole Hparts.
  destruct (buildModelMessages_nth uiMessages s i msg Hi)
    as (out & s' & E & _ & Hnth & _).
  exists out, s', (flat_map (partBlocks w) (msg_parts msg)).
  split; [exact E |].
  split; [rewrite Hnth, (modelMessageOf_user msg Hrole); reflexivity |].
  rewrite Hparts, flat_map_app. cbn [flat_map partBlocks].
  change (String.prefix "image/" "application/pdf") with false.
  change (String.eqb "application/pdf" "application/pdf") with true.
  cbv iota. split.
  - intros text Htext Hlong. rewrite Htext.
    exists (String.substring 0 12000 text).
    split; [reflexivity |].
    split; [apply substring_budget_length, Hlong | apply substring_0_prefix].
  - intros e Htext. rewrite Htext. reflexivity.
Qed.

(** C10, as the code has it.  The preprocessing never fails and keeps the
    number, the order and the roles of the messages.  A message of another
    role than [user] becomes the concatenation of its text parts; a user
    message becomes one message with a list of blocks, which, when none of
    its attachments yields a block, holds the blocks of its text parts and
    nothing else. *)
Theorem buildModelMessages_keeps_messages (uiMessages : list ChatMessage) (s : Sys) :
  exists out s',
    buildModelMessages w uiMessages s = (Returns out, s')
    /\ List.length out = List.length uiMessages
    /\ map mm_role out = map msg_role uiMessages
    /\ forall i msg,
         nth_error uiMessages i = Some msg ->
         exists m,
           nth_error out i = Some m
           /\ mm_role m = msg_role msg
           /\ (msg_role msg <> user ->
               mm_content m = ContentString (joinTextParts (msg_parts msg)))
           /\ (msg_role msg = user ->
               exists blocks,
                 mm_content m = ContentParts blocks
                 /\ ((forall url mediaType,
                         In (FilePart url mediaType) (msg_parts msg) ->
                         partBlocks w (FilePart url mediaType) = []) ->
                     blocks = textBlocks (msg_parts msg))).
Proof.
  rewrite buildModelMessages_eq. eexists _, _.
  split; [reflexivity |]. split; [apply List.length_map |]. split.
  - rewrite map_map. apply map_ext. intros msg. unfold modelMessageOf.
    destruct (msg_role msg); reflexivity.
  - intros i msg Hi. exists (modelMessageOf w msg).
    split; [rewrite nth_error_map, Hi; reflexivity |].
    unfold modelMessageOf.
    destruct (msg_role msg) eqn:Hrole; simpl;
      (split; [reflexivity |]); (split; [intros H | intros H; try discriminate]);
      try reflexivity; try congruence.
    eexists. split; [reflexivity |]. apply partBlocks_textBlocks.
Qed.

End AttachmentGuarantees.

Lemma failed_image_is_logged_and_left_out_witness :
  exists out s' events,
    buildModelMessages offlineWorld [imageMessage] (fresh None) = (Returns out, s')
    /\ nth_error out 0
       = Some (mkModelMessage user (ContentParts [ContentText "what is this?"]))
    /\ trace s' = trace (fresh None) ++ events
    /\ In (EvConsoleError "Error processing image attachment") events.
Proof.
  apply (failed_image_is_logged_and_left_out offlineWorld [imageMessage] (fresh None)
           0 imageMessage catUrl "image/png" [TextPart "what is this?"] []).
  - reflexivity.
  - reflexivity.
  - reflexivity.
  - reflexivity.
  - exists (TypeError "fetch failed"). reflexivity.
Defined.

(** C4, as stated, fails: the fetch of the image of this message does not
    succeed, and the preprocessing returns all the same, the image left
    out. *)
Lemma failed_image_does_not_fail_preprocessing :
  String.prefix "image/" "image/png" = true
  /\ fetchFails offlineWorld catUrl
  /\ buildModelMessages offlineWorld [imageMessage] (fresh None)
     = (Returns [mkModelMessage user (ContentParts [ContentText "what is this?"])],
        mkSys [EvFetch catUrl; EvConsoleError "Error processing image attachment"]
          None)
  /\ ~ (exists e,
          fst (buildModelMessages offlineWorld [imageMessage] (fresh None))
          = Throws e).
Proof.
  split; [reflexivity |].
  split; [exists (TypeError "fetch failed"); reflexivity |].
  split; [reflexivity |].
  intros [e H]. discriminate H.
Qed.

Lemma pdf_text_is_truncated_to_budget_witness :
  (exists out s' truncated,
      buildModelMessages pdfWorld [pdfMessage] (fresh None) = (Returns out, s')
      /\ nth_error out 0
         = Some (mkModelMessage user
                   (ContentParts
                      [ContentText "see attached";
                       ContentText
                         ("Please summarize the following document:"
                          ++ String "010" (String "010" truncated))%string]))
      /\ js_length truncated = 12000
      /\ String.prefix truncated longText = true)
  /\ (exists out s',
         buildModelMessages offlineWorld [pdfMessage] (fresh None) = (Returns out, s')
         /\ nth_error out 0
            = Some (mkModelMessage user (ContentParts [ContentText "see attached"]))).
Proof.
  split.
  - destruct (pdf_text_is_truncated_to_budget pdfWorld [pdfMessage] (fresh None)
                0 pdfMessage reportUrl [TextPart "see attached"] []
                eq_refl eq_refl eq_refl)
      as (out & s' & blocks & E & Hnth & Hlong & _).
    destruct (Hlong longText eq_refl eq_refl) as (truncated & Hb & Hlen & Hpre).
    exists out, s', truncated. rewrite Hb in Hnth. auto.
  - destruct (pdf_text_is_truncated_to_budget offlineWorld [pdfMessage] (fresh None)
                0 pdfMessage reportUrl [TextPart "see attached"] []
                eq_refl eq_refl eq_refl)
      as (out & s' & blocks & E & Hnth & _ & Hfail).
    rewrite (Hfail (TypeError "fetch failed") eq_refl) in Hnth.
    exists out, s'. auto.
Defined.

Lemma buildModelMessages_keeps_messages_witness :
  exists out s',
    buildModelMessages offlineWorld [imageMessage; sampleReply] (fresh None)
    = (Returns out, s')
    /\ List.length out = 2%nat
    /\ map mm_role out = [user; assistant].
Proof.
  destruct (buildModelMessages_keeps_messages offlineWorld
              [imageMessage; sampleReply] (fresh None))
    as (out & s' & E & Hlen & Hroles & _).
  exists out, s'. auto.
Defined.

(** C10, as stated, fails: the one attachment of this message yields no
    block, and the message still carries a block, that of its text part. *)
Lemma failed_attachments_leave_the_text_blocks :
  (forall url mediaType,
      In (FilePart url mediaType) (msg_parts imageMessage) ->
      partBlocks offlineWorld (FilePart url mediaType) = [])
  /\ fst (buildModelMessages offlineWorld [imageMessage] (fresh None))
     = Returns [mkModelMessage user (ContentParts [ContentText "what is this?"])]
  /\ [ContentText "what is this?"] <> [].
Proof.
  split; [| split; [reflexivity | discriminate]].
  intros url mediaType [H | [H | []]]; [discriminate H |].
  injection H as <- <-. reflexivity.
Qed.

(** ** The order of a turn *)

Section TurnOrder.

Variable w : World.

Lemma forallb_impl {A} (p q : A -> bool) (l : list A) :
  (forall a, p a = true -> q a = true) ->
  forallb p l = true -> forallb q l = true.
Proof.
  intros H. rewrite !forallb_forall. intros Hp a Ha. apply H, Hp, Ha.
Qed.

Lemma forallb_map_step (q : Event -> bool) (steps : list (list string)) :
  (forall calls, q (EvStep calls) = true) ->
  forallb q (map EvStep steps) = true.
Proof.
  intros H. induction steps as [| calls rest IH]; simpl; trivial.
  rewrite H, IH. reflexivity.
Qed.

Lemma onFinishNotices_notice (stream : UIMessageStream) :
  forallb isNotice (onFinishNotices stream) = true.
Proof.
  unfold onFinishNotices.
  destruct (stream_consumePromise stream) as [[res | e] |]; reflexivity.
Qed.

Lemma usageWrite_not_messages (stream : UIMessageStream) :
  isSaveMessages (usageWrite w stream) = false
  /\ isStreamText (usageWrite w stream) = false
  /\ isStep (usageWrite w stream) = false.
Proof. unfold usageWrite. destruct (db_refuses w _); auto. Qed.

(** Nothing that the end of the stream adds is a model call or a step. *)
Lemma finishEvents_after (stream : UIMessageStream) :
  forallb (fun e => negb (isStreamText e) && negb (isStep e))
    (EvStreamDrained :: finishEvents w stream) = true.
Proof.
  unfold finishEvents. destruct (db_refuses w _); [reflexivity |].
  cbn [forallb isStreamText isStep negb andb].
  rewrite forallb_app.
  rewrite (forallb_impl isNotice
             (fun e => negb (isStreamText e) && negb (isStep e)) _
             ltac:(intros []; simpl; congruence)
             (onFinishNotices_notice stream)).
  destruct (usageWrite_not_messages stream) as (_ & H1 & H2).
  simpl. rewrite H1, H2. reflexivity.
Qed.

(** The only model call of a turn is the one of its shape. *)
Lemma turn_model_call (pre notices rest : list Event) (steps : list (list string))
  (a b : Event) (o o' : StreamTextOptions) :
  forallb isPrelude pre = true ->
  isStreamText a = false -> isStreamText b = false ->
  forallb isNotice notices = true ->
  forallb (fun e => negb (isStreamText e) && negb (isStep e)) rest = true ->
  In (EvStreamText o')
    (pre ++ a :: b :: EvStreamText o :: map EvStep steps ++ notices ++ rest) ->
  o' = o.
Proof.
  intros Hpre Ha Hb Hnot Hrest Hin.
  assert (Hno : forall l, forallb (fun e => negb (isStreamText e)) l = true ->
                          ~ In (EvStreamText o') l).
  { intros l Hl Hi. rewrite forallb_forall in Hl. specialize (Hl _ Hi).
    discriminate Hl. }
  apply in_app_or in Hin. destruct Hin as [Hin | Hin].
  { exfalso. revert Hin. apply Hno.
    apply (forallb_impl isPrelude); [| exact Hpre].
    intros []; unfold isPrelude; simpl; congruence. }
  destruct Hin as [E | [E | [E | Hin]]].
  { subst a. discriminate Ha. }
  { subst b. discriminate Hb. }
  { congruence. }
  exfalso. apply in_app_or in Hin. destruct Hin as [Hin | Hin].
  { revert Hin. apply Hno, forallb_map_step. reflexivity. }
  apply in_app_or in Hin. destruct Hin as [Hin | Hin]; revert Hin; apply Hno.
  - apply (forallb_impl isNotice); [| exact Hnot]. intros []; simpl; congruence.
  - apply (forallb_impl (fun e => negb (isStreamText e) && negb (isStep e)));
      [| exact Hrest].
    intros e He. apply andb_prop in He. apply He.
Qed.

Lemma early_no_model_call (l : list Event) (o : StreamTextOptions) :
  forallb isEarly l = true -> ~ In (EvStreamText o) l.
Proof.
  intros Hl Hin. rewrite forallb_forall in Hl. specialize (Hl _ Hin).
  discriminate Hl.
Qed.

Lemma rest_after (body : PostRequestBody) (rest : list Event) :
  (rest = [] \/
   exists stream, stream_chatId stream = body_id body
                  /\ rest = EvStreamDrained :: finishEvents w stream) ->
  forallb (fun e => negb (isStreamText e) && negb (isStep e)) rest = true.
Proof.
  intros [-> | (stream & _ & ->)]; [reflexivity | apply finishEvents_after].
Qed.

(** C2.  In a turn that calls the model, the row of the new user message is
    saved before that call, and no model call comes before the save.
    After the call, and whatever the provider does with it, come only the
    steps and notices of the stream; messages are saved again at most once,
    right after the stream was drained, and then as the one batch of all
    the messages the stream assembled. *)
Theorem user_message_saved_before_model_call (request : Request)
  (g : option ResumableStreamContext) (o : StreamTextOptions) :
  In (EvStreamText o) (turnTrace w request g) ->
  exists json body pre mid run rest,
    request_json request = Returns json
    /\ postRequestBodySchema_parse w json = Returns body
    /\ turnTrace w request g
       = pre ++ EvDb (SaveMessages [userRow w body])
             :: mid ++ EvStreamText o :: run ++ rest
    /\ forallb (fun e => negb (isStreamText e)) (pre ++ mid) = true
    /\ forallb (fun e => negb (isDbWrite e) && negb (isDrained e)) run = true
    /\ (rest = [] \/ rest = [EvStreamDrained] \/
        exists tail,
          rest = EvStreamDrained
                 :: EvDb (SaveMessages (finishedRows w (body_id body))) :: tail
          /\ forallb (fun e => negb (isSaveMessages e)) tail = true).
Proof.
  intros Hin.
  destruct (turn_shape w request g)
    as [Hearly | (json & body & msgs & pre & steps & notices & rest & H)].
  { exfalso. exact (early_no_model_call _ _ Hearly Hin). }
  cbv zeta in H. destruct H as (Ej & Eb & Et & Hpre & Hnot & _ & Hrest).
  rewrite Et in Hin.
  apply turn_model_call in Hin;
    [| exact Hpre | reflexivity | reflexivity | exact Hnot
     | exact (rest_after body rest Hrest)].
  subst o.
  exists json, body, pre, [EvDb (CreateStreamId (generateUUID w) (body_id body))],
    (map EvStep steps ++ notices), rest.
  split; [exact Ej |]. split; [exact Eb |].
  split; [rewrite Et, <- app_assoc; reflexivity |].
  split; [| split].
  - rewrite forallb_app. simpl. rewrite andb_true_r.
    apply (forallb_impl isPrelude); [| exact Hpre].
    intros []; unfold isPrelude; simpl; congruence.
  - rewrite forallb_app, forallb_map_step by reflexivity.
    apply (forallb_impl isNotice); [| exact Hnot]. intros []; simpl; congruence.
  - destruct Hrest as [-> | (stream & Hid & ->)]; [left; reflexivity |].
    right. unfold finishEvents. rewrite Hid.
    destruct (db_refuses w _); [left; reflexivity |].
    right. eexists. split; [reflexivity |].
    rewrite forallb_app.
    rewrite (forallb_impl isNotice (fun e => negb (isSaveMessages e)) _
               ltac:(intros []; simpl; congruence)
               (onFinishNotices_notice stream)).
    destruct (usageWrite_not_messages stream) as (H1 & _).
    simpl. rewrite H1. reflexivity.
Qed.

Lemma runSteps_length (budget : nat) (offered : list string)
  (steps : list (list string)) :
  (List.length (runSteps budget offered steps) <= budget)%nat.
Proof.
  revert steps. induction budget as [| budget IH]; intros [| calls rest];
    simpl; try lia.
  destruct (filter _ calls); simpl; [lia |].
  specialize (IH rest). lia.
Qed.

Lemma filter_none_offered (calls : list string) :
  filter (fun t => existsb (String.eqb t) []) calls = [].
Proof. induction calls as [| t rest IH]; simpl; trivial. Qed.

Lemma runSteps_no_tool (budget : nat) (steps : list (list string))
  (calls : list string) :
  In calls (runSteps budget [] steps) -> calls = [].
Proof.
  destruct budget as [| budget]; destruct steps as [| first rest]; simpl;
    try contradiction.
  rewrite filter_none_offered. simpl. intros [<- | []]. reflexivity.
Qed.

Lemma filter_isStep_none (l : list Event) :
  forallb (fun e => negb (isStep e)) l = true -> filter isStep l = [].
Proof.
  induction l as [| e l IH]; simpl; trivial.
  intros H. apply andb_prop in H. destruct H as [He Hl].
  apply negb_true_iff in He. rewrite He. apply IH, Hl.
Qed.

Lemma filter_isStep_steps (steps : list (list string)) :
  filter isStep (map EvStep steps) = map EvStep steps.
Proof.
  induction steps as [| calls rest IH]; simpl; trivial. rewrite IH. reflexivity.
Qed.

(** The steps of a turn are the steps of its one model call. *)
Lemma turn_steps (pre notices rest : list Event) (steps : list (list string))
  (a b : Event) (o : StreamTextOptions) :
  forallb isPrelude pre = true ->
  isStep a = false -> isStep b = false ->
  forallb isNotice notices = true ->
  forallb (fun e => negb (isStreamText e) && negb (isStep e)) rest = true ->
  filter isStep
    (pre ++ a :: b :: EvStreamText o :: map EvStep steps ++ notices ++ rest)
  = map EvStep steps.
Proof.
  intros Hpre Ha Hb Hnot Hrest.
  rewrite filter_app. cbn [filter]. rewrite Ha, Hb. cbn [isStep].
  rewrite !filter_app, filter_isStep_steps.
  rewrite (filter_isStep_none pre), (filter_isStep_none notices),
    (filter_isStep_none rest).
  - rewrite !app_nil_r. reflexivity.
  - apply (forallb_impl (fun e => negb (isStreamText e) && negb (isStep e)));
      [| exact Hrest].
    intros e He. apply andb_prop in He. apply He.
  - apply (forallb_impl isNotice); [| exact Hnot]. intros []; simpl; congruence.
  - apply (forallb_impl isPrelude); [| exact Hpre].
    intros []; unfold isPrelude; simpl; congruence.
Qed.

(** C5.  The model call of a turn is made for the model the request
    selected.  When that is [chat-model-reasoning], the call has an empty
    list of active tools and every step of the turn runs no tool; for any
    other model the call is bounded by [stepCountIs(5)] and the turn has at
    most 5 steps. *)
Theorem reasoning_model_runs_no_tool (request : Request)
  (g : option ResumableStreamContext) (o : StreamTextOptions) :
  In (EvStreamText o) (turnTrace w request g) ->
  exists json body,
    request_json request = Returns json
    /\ postRequestBodySchema_parse w json = Returns body
    /\ opt_model o = selectedChatModel body
    /\ (selectedChatModel body = "chat-model-reasoning" ->
        opt_experimental_activeTools o = []
        /\ forall calls, In (EvStep calls) (turnTrace w request g) -> calls = [])
    /\ (selectedChatModel body <> "chat-model-reasoning" ->
        opt_stopWhen o = 5%nat
        /\ (List.length (filter isStep (turnTrace w request g)) <= 5)%nat).
Proof.
  intros Hin.
  destruct (turn_shape w request g)
    as [Hearly | (json & body & msgs & pre & steps & notices & rest & H)].
  { exfalso. exact (early_no_model_call _ _ Hearly Hin). }
  cbv zeta in H. destruct H as (Ej & Eb & Et & Hpre & Hnot & Hsteps & Hrest).
  pose proof (rest_after body rest Hrest) as Hafter.
  assert (Hfilter : filter isStep (turnTrace w request g) = map EvStep steps).
  { rewrite Et.
    apply turn_steps;
      [exact Hpre | reflexivity | reflexivity | exact Hnot | exact Hafter]. }
  rewrite Et in Hin.
  apply turn_model_call in Hin;
    [| exact Hpre | reflexivity | reflexivity | exact Hnot | exact Hafter].
  subst o.
  exists json, body. split; [exact Ej |]. split; [exact Eb |].
  split; [reflexivity |]. split.
  - intros Hmodel.
    assert (Hactive : activeTools (selectedChatModel body) = []).
    { unfold activeTools. rewrite Hmodel. reflexivity. }
    split; [exact Hactive |].
    intros calls Hcalls.
    assert (Hs : In (EvStep calls) (filter isStep (turnTrace w request g))).
    { apply filter_In. split; [exact Hcalls | reflexivity]. }
    rewrite Hfilter in Hs. apply in_map_iff in Hs.
    destruct Hs as (calls' & Heq & Hs). injection Heq as ->.
    destruct Hsteps as [-> | (res & _ & ->)]; [contradiction |].
    unfold offeredTools in Hs. cbn [opt_experimental_activeTools opt_tools
      streamTextOptions] in Hs.
    rewrite Hactive in Hs. cbn [filter existsb] in Hs.
    exact (runSteps_no_tool _ _ _ Hs).
  - intros _. split; [reflexivity |].
    rewrite Hfilter, List.length_map.
    destruct Hsteps as [-> | (res & _ & ->)]; [simpl; lia |].
    apply runSteps_length.
Qed.

Lemma readUsage_noUsage (usage : Usage) :
  noUsage usage -> readUsage usage = mkUsageData 0 0 0.
Proof.
  destruct usage. unfold noUsage, readUsage. simpl.
  intros (-> & -> & -> & -> & -> & -> & -> & ->). reflexivity.
Qed.

(** With nothing to read in the usage summary, [usageData] is still what it
    was initialised to when [onFinish] writes it. *)
Lemma finalUsage_zero (stream : UIMessageStream) :
  stream_usageData stream
  = usageAfterThen (mkUsageData 0 0 0) (stream_consumePromise stream) ->
  usageUnreadable (stream_consumePromise stream) ->
  finalUsage stream = mkUsageData 0 0 0.
Proof.
  unfold finalUsage, usageUnreadable, usageAfterThen. intros Hud Hun.
  destruct (stream_consumePromise stream) as [[[r |] | e] |];
    try exact Hud; simpl in *.
  unfold orNullish in *.
  destruct (res_usage r) as [usage |]; [apply readUsage_noUsage, Hun |].
  destruct (res_data_usage r) as [usage |]; [apply readUsage_noUsage, Hun |].
  destruct (res_metadata_usage r) as [usage |];
    [apply readUsage_noUsage, Hun | exact Hud].
Qed.

(** C7.  A turn whose handler handed out its stream, whose usage summary
    cannot be read, and whose batch of messages the store accepted: after
    the stream was drained the batch is saved first, and the last thing the
    turn does is to write a usage row with three zero counts, or, when the
    store refuses that row, to print that it could not.  Either way the
    saved batch stays in the trace and the answer of the turn is the
    stream. *)
Theorem unreadable_usage_is_logged_as_zero (request : Request)
  (g : option ResumableStreamContext) (b : bool) (stream : UIMessageStream)
  (s' : Sys) :
  POST w request (fresh g) = (Returns (Some (StreamingResponse b stream)), s') ->
  usageUnreadable (stream_consumePromise stream) ->
  db_refuses w (SaveMessages (finishedRows w (stream_chatId stream))) = None ->
  exists notices,
    chatTurn w request (fresh g)
    = (Returns (Some (StreamingResponse b stream)),
       mkSys (trace s'
              ++ EvStreamDrained
                 :: EvDb (SaveMessages (finishedRows w (stream_chatId stream)))
                 :: notices
                 ++ [match db_refuses w (SaveUsageLog (zeroUsageLog stream)) with
                     | None => EvDb (SaveUsageLog (zeroUsageLog stream))
                     | Some _ => EvConsoleError "Error saving usage log"
                     end])
         (globalStreamContext s'))
    /\ forallb isNotice notices = true.
Proof.
  intros E Hun Hacc.
  assert (Hud : stream_usageData stream
                = usageAfterThen (mkUsageData 0 0 0) (stream_consumePromise stream)).
  { pose proof (POST_run w request g) as Hrun. rewrite E in Hrun.
    inversion Hrun as [r pre g' Hr Hpre | json body msgs pre notices steps r g' t o
                       Ej Eb Et Hpre Hnot Hsteps Hr].
    - contradiction.
    - apply Hr. }
  exists (onFinishNotices stream).
  split; [| apply onFinishNotices_notice].
  rewrite (chatTurn_eq w _ _ _ _ E), drain_streaming.
  unfold finishEvents. rewrite Hacc.
  unfold usageWrite, usageLogOf, zeroUsageLog.
  rewrite (finalUsage_zero stream Hud Hun). reflexivity.
Qed.

End TurnOrder.

Lemma user_message_saved_before_model_call_witness :
  exists json body pre mid run rest,
    request_json sampleRequest = Returns json
    /\ postRequestBodySchema_parse downWorld json = Returns body
    /\ turnTrace downWorld sampleRequest None
       = pre ++ EvDb (SaveMessages [userRow downWorld body])
             :: mid ++ EvStreamText (sampleOptions "chat-model") :: run ++ rest
    /\ forallb (fun e => negb (isStreamText e)) (pre ++ mid) = true
    /\ forallb (fun e => negb (isDbWrite e) && negb (isDrained e)) run = true
    /\ (rest = [] \/ rest = [EvStreamDrained] \/
        exists tail,
          rest = EvStreamDrained
                 :: EvDb (SaveMessages (finishedRows downWorld (body_id body)))
                 :: tail
          /\ forallb (fun e => negb (isSaveMessages e)) tail = true).
Proof.
  apply (user_message_saved_before_model_call downWorld sampleRequest None
           (sampleOptions "chat-model")).
  vm_compute. right. right. left. reflexivity.
Defined.

Lemma reasoning_model_runs_no_tool_witness :
  exists json body,
    request_json reasoningRequest = Returns json
    /\ postRequestBodySchema_parse usualWorld json = Returns body
    /\ opt_model (sampleOptions "chat-model-reasoning") = selectedChatModel body
    /\ (selectedChatModel body = "chat-model-reasoning" ->
        opt_experimental_activeTools (sampleOptions "chat-model-reasoning") = []
        /\ forall calls,
             In (EvStep calls) (turnTrace usualWorld reasoningRequest None) ->
             calls = [])
    /\ (selectedChatModel body <> "chat-model-reasoning" ->
        opt_stopWhen (sampleOptions "chat-model-reasoning") = 5%nat
        /\ (List.length (filter isStep (turnTrace usualWorld reasoningRequest None))
            <= 5)%nat).
Proof.
  apply (reasoning_model_runs_no_tool usualWorld reasoningRequest None
           (sampleOptions "chat-model-reasoning")).
  vm_compute. right. right. left. reflexivity.
Defined.

Lemma unreadable_usage_is_logged_as_zero_witness :
  exists b stream s' notices,
    chatTurn silentWorld sampleRequest (fresh None)
    = (Returns (Some (StreamingResponse b stream)),
       mkSys (trace s'
              ++ EvStreamDrained
                 :: EvDb (SaveMessages (finishedRows silentWorld (stream_chatId stream)))
                 :: notices
                 ++ [match db_refuses silentWorld (SaveUsageLog (zeroUsageLog stream)) with
                     | None => EvDb (SaveUsageLog (zeroUsageLog stream))
                     | Some _ => EvConsoleError "Error saving usage log"
                     end])
         (globalStreamContext s'))
    /\ forallb isNotice notices = true.
Proof.
  eexists _, _, _.
  apply (unreadable_usage_is_logged_as_zero silentWorld sampleRequest None).
  - vm_compute. reflexivity.
  - exact I.
  - reflexivity.
Defined.

(** * Further properties of the route *)

(** ** The stream context *)

(** Once a stream context is stored, every later call returns it as it is:
    nothing is created anew and nothing is printed, whatever the world has
    become in between. *)
Theorem getStreamContext_is_memoized (w w' : World) (s s1 : Sys)
  (c : ResumableStreamContext) (later : list Event) :
  getStreamContext w s = (Returns (Some c), s1) ->
  getStreamContext w' (mkSys later (globalStreamContext s1))
  = (Returns (Some c), mkSys later (globalStreamContext s1)).
Proof.
  destruct s as [t g]. unfold getStreamContext. simpl.
  destruct g as [c0 |].
  - intros E. injection E as -> <-. reflexivity.
  - destruct (createResumableStreamContext w) as [c0 | e].
    + intros E. injection E as -> <-. reflexivity.
    + destruct (includes (exn_message e) "REDIS_URL"); discriminate.
Qed.

Lemma getStreamContext_is_memoized_witness :
  getStreamContext downWorld
    (mkSys [EvStreamDrained] (globalStreamContext (fresh (Some resumableStreamContext))))
  = (Returns (Some resumableStreamContext),
     mkSys [EvStreamDrained] (globalStreamContext (fresh (Some resumableStreamContext)))).
Proof.
  apply (getStreamContext_is_memoized usualWorld downWorld
           (fresh (Some resumableStreamContext))
           (fresh (Some resumableStreamContext)) resumableStreamContext
           [EvStreamDrained]).
  reflexivity.
Defined.

(** [getStreamContext] never throws, and what it returns is what the module
    holds afterwards.  When the context cannot be created the module holds
    nothing, so the next call tries again, and exactly one line was
    printed. *)
Theorem getStreamContext_returns_what_it_stores (w : World) (s : Sys) :
  exists s',
    getStreamContext w s = (Returns (globalStreamContext s'), s')
    /\ (globalStreamContext s' = None ->
        globalStreamContext s = None
        /\ exists line, trace s' = trace s ++ [line] /\ isNotice line = true)
    /\ (globalStreamContext s' <> None -> trace s' = trace s).
Proof.
  destruct s as [t g]. unfold getStreamContext. simpl.
  destruct g as [c |].
  - exists (mkSys t (Some c)). split; [reflexivity |]. simpl.
    split; [discriminate | reflexivity].
  - destruct (createResumableStreamContext w) as [c | e].
    + exists (mkSys t (Some c)). split; [reflexivity |]. simpl.
      split; [discriminate | reflexivity].
    + destruct (includes (exn_message e) "REDIS_URL");
        (eexists (mkSys (t ++ [_]) None); split; [reflexivity |]); simpl;
        (split; [intros _; split; [reflexivity |]; eexists; split; reflexivity
                | intros H; contradiction]).
Qed.

(** ** The gates of [POST] *)



Lemma POST_above_ceiling_witness :
  POST (sampleWorld 101 (Some sampleChat) (Returns "a chat") noNetwork noPdf
          sampleProvider acceptsAll) sampleRequest (fresh None)
  = (Returns (Some (ErrorResponse "rate_limit:chat")), fresh None).
Proof.
  apply (POST_above_ceiling
           (sampleWorld 101 (Some sampleChat) (Returns "a chat") noNetwork noPdf
              sampleProvider acceptsAll)
           sampleRequest (fresh None) sampleJson sampleBody
           (mkSession (Some sampleUser)) sampleUser 101);
    try reflexivity.
Defined.

(** When the count of messages cannot be read, the request stops there: a
    [ChatSDKError] of the query is the answer, and nothing was written or
    called. *)
Theorem POST_message_count_failure_is_fatal (w : World) (request : Request)
  (s : Sys) (json : Json) (body : PostRequestBody) (session : Session)
  (u : User) (code : string) :
  request_json request = Returns json ->
  postRequestBodySchema_parse w json = Returns body ->
  auth w = Returns (Some session) ->
  session_user session = Some u ->
  getMessageCountByUserId w (user_id u) 24 = Throws (ChatSDKError code) ->
  POST w request s = (Returns (Some (ErrorResponse code)), s).
Proof.
  intros Ej Eb Ea Eu Ec. unfold POST. js. rewrite Ej. js. rewrite Eb. js.
  rewrite Ea. js. rewrite Eu. js. rewrite Ec. reflexivity.
Qed.

(** A user within the ceiling whose requests of the last 24 hours reach the
    daily limit (100 unless the environment says otherwise) is answered
    with status 429, and nothing was written or called. *)
Theorem POST_daily_limit (w : World) (request : Request) (s : Sys)
  (json : Json) (body : PostRequestBody) (session : Session) (u : User)
  (messageCount usageCount dailyLimit : Z) :
  request_json request = Returns json ->
  postRequestBodySchema_parse w json = Returns body ->
  auth w = Returns (Some session) ->
  session_user session = Some u ->
  getMessageCountByUserId w (user_id u) 24 = Returns messageCount ->
  messageCount <= maxMessagesPerDay (entitlementsByUserType w (user_type u)) ->
  getUsageCountByUserId w (user_id u) 24 = Returns usageCount ->
  nullish (env_DAILY_REQUEST_LIMIT w) (Finite 100) = Finite dailyLimit ->
  dailyLimit <= usageCount ->
  POST w request s
  = (Returns (Some (MessageResponse 429 "Daily request limit exceeded.")), s).
Proof.
  intros Ej Eb Ea Eu Ec Hle Euc El Hge. unfold POST. js.
  rewrite Ej. js. rewrite Eb. js. rewrite Ea. js. rewrite Eu. js. rewrite Ec. js.
  replace (messageCount >? _) with false
    by (symmetry; rewrite Z.gtb_ltb; apply Z.ltb_ge, Hle).
  js. rewrite Euc. js. rewrite El. unfold js_ge.
  replace (usageCount >=? dailyLimit) with true
    by (symmetry; apply Z.geb_le; lia).
  reflexivity.
Qed.

Lemma POST_message_count_failure_is_fatal_witness :
  POST (withMessageCount usualWorld noUsageCount) sampleRequest (fresh None)
  = (Returns (Some (ErrorResponse "bad_request:database")), fresh None).
Proof.
  apply (POST_message_count_failure_is_fatal
           (withMessageCount usualWorld noUsageCount) sampleRequest (fresh None)
           sampleJson sampleBody (mkSession (Some sampleUser)) sampleUser
           "bad_request:database");
    reflexivity.
Defined.

Lemma POST_daily_limit_witness :
  POST (withUsageCount usualWorld (fun _ _ => Returns 100)) sampleRequest (fresh None)
  = (Returns (Some (MessageResponse 429 "Daily request limit exceeded.")), fresh None).
Proof.
  apply (POST_daily_limit (withUsageCount usualWorld (fun _ _ => Returns 100))
           sampleRequest (fresh None) sampleJson sampleBody
           (mkSession (Some sampleUser)) sampleUser 5 100 100);
    try reflexivity; simpl; lia.
Defined.

(** A failing usage count is not fatal.  For a user within the ceiling, the
    handler prints one line and then does exactly what it does when the
    count is 0. *)
Theorem POST_usage_count_failure_counts_as_zero (w : World) (request : Request)
  (s : Sys) (json : Json) (body : PostRequestBody) (session : Session)
  (u : User) (messageCount : Z) (e : Exn) :
  request_json request = Returns json ->
  postRequestBodySchema_parse w json = Returns body ->
  auth w = Returns (Some session) ->
  session_user session = Some u ->
  getMessageCountByUserId w (user_id u) 24 = Returns messageCount ->
  messageCount <= maxMessagesPerDay (entitlementsByUserType w (user_type u)) ->
  getUsageCountByUserId w (user_id u) 24 = Throws e ->
  POST w request s
  = POST (withUsageCount w (fun _ _ => Returns 0)) request
      (afterConsoleError s "Error fetching usage count for rate-limiting").
Proof.
  intros Ej Eb Ea Eu Ec Hle Euc.
  assert (Hgt : (messageCount >? maxMessagesPerDay (entitlementsByUserType w (user_type u)))
                = false)
    by (rewrite Z.gtb_ltb; apply Z.ltb_ge, Hle).
  unfold POST, afterConsoleError, withUsageCount. js.
  cbn [postRequestBodySchema_parse auth entitlementsByUserType
       getMessageCountByUserId getUsageCountByUserId env_DAILY_REQUEST_LIMIT
       getChatById generateTitleFromUserMessage].
  rewrite Ej. js. rewrite Eb. js. rewrite Ea. js. rewrite Eu. js. rewrite Ec. js.
  rewrite Hgt. js. rewrite Euc. js.
  reflexivity.
Qed.

Lemma POST_usage_count_failure_counts_as_zero_witness :
  POST (withUsageCount usualWorld noUsageCount) sampleRequest (fresh None)
  = POST (withUsageCount (withUsageCount usualWorld noUsageCount) (fun _ _ => Returns 0))
      sampleRequest
      (afterConsoleError (fresh None) "Error fetching usage count for rate-limiting").
Proof.
  apply (POST_usage_count_failure_counts_as_zero
           (withUsageCount usualWorld noUsageCount) sampleRequest (fresh None)
           sampleJson sampleBody (mkSession (Some sampleUser)) sampleUser 5
           (ChatSDKError "bad_request:database"));
    try reflexivity. simpl. lia.
Defined.

(** A chat that belongs to somebody else: the answer is [forbidden:chat],
    and nothing was written or called. *)
Theorem POST_forbidden (w : World) (request : Request) (s : Sys)
  (json : Json) (body : PostRequestBody) (session : Session) (u : User)
  (messageCount usageCount : Z) (chat : Chat) :
  request_json request = Returns json ->
  postRequestBodySchema_parse w json = Returns body ->
  auth w = Returns (Some session) ->
  session_user session = Some u ->
  getMessageCountByUserId w (user_id u) 24 = Returns messageCount ->
  messageCount <= maxMessagesPerDay (entitlementsByUserType w (user_type u)) ->
  getUsageCountByUserId w (user_id u) 24 = Returns usageCount ->
  js_ge usageCount (nullish (env_DAILY_REQUEST_LIMIT w) (Finite 100)) = false ->
  getChatById w (body_id body) = Returns (Some chat) ->
  chat_userId chat <> user_id u ->
  POST w request s = (Returns (Some (ErrorResponse "forbidden:chat")), s).
Proof.
  intros Ej Eb Ea Eu Ec Hle Euc Hlim Echat Hother. unfold POST. js.
  rewrite Ej. js. rewrite Eb. js. rewrite Ea. js. rewrite Eu. js. rewrite Ec. js.
  replace (messageCount >? _) with false
    by (symmetry; rewrite Z.gtb_ltb; apply Z.ltb_ge, Hle).
  js. rewrite Euc. js. rewrite Hlim. js. rewrite Echat. js.
  apply String.eqb_neq in Hother. rewrite Hother. reflexivity.
Qed.

Lemma POST_forbidden_witness :
  POST (sampleWorld 5 (Some othersChat) (Returns "a chat") noNetwork noPdf
          sampleProvider acceptsAll) sampleRequest (fresh None)
  = (Returns (Some (ErrorResponse "forbidden:chat")), fresh None).
Proof.
  apply (POST_forbidden
           (sampleWorld 5 (Some othersChat) (Returns "a chat") noNetwork noPdf
              sampleProvider acceptsAll)
           sampleRequest (fresh None) sampleJson sampleBody
           (mkSession (Some sampleUser)) sampleUser 5 3 othersChat);
    try reflexivity; simpl; try lia; discriminate.
Defined.

(** Whatever its collaborators do, the handler itself never throws. *)
Theorem POST_never_throws (w : World) (request : Request)
  (g : option ResumableStreamContext) :
  exists response s', POST w request (fresh g) = (Returns response, s').
Proof.
  pose proof (POST_run w request g) as Hrun.
  inversion Hrun; eexists _, _; reflexivity.
Qed.

(** ** Tools and steps of a turn *)

Lemma runSteps_offered (budget : nat) (offered : list string) :
  forall (steps : list (list string)) (calls : list string) (t : string),
    In calls (runSteps budget offered steps) -> In t calls -> In t offered.
Proof.
  induction budget as [| budget IH]; intros [| first rest] calls t;
    simpl; try contradiction.
  destruct (filter _ first) as [| t0 ran] eqn:Ef.
  - intros [<- | []] [].
  - intros [<- | Hin] Ht.
    + rewrite <- Ef in Ht. apply filter_In in Ht. destruct Ht as [_ Ht].
      apply existsb_exists in Ht. destruct Ht as (t' & Hin' & Heq).
      apply String.eqb_eq in Heq. subst t'. exact Hin'.
    + exact (IH rest calls t Hin Ht).
Qed.

Lemma offeredTools_active (model : string) (hints : RequestHints)
  (msgs : list ModelMessage) (t : string) :
  In t (offeredTools (streamTextOptions model hints msgs)) ->
  In t alwaysActiveTools.
Proof.
  unfold offeredTools. cbn [opt_experimental_activeTools opt_tools streamTextOptions].
  intros H. apply filter_In in H. destruct H as [_ H].
  apply existsb_exists in H. destruct H as (t' & Hin & Heq).
  apply String.eqb_eq in Heq. subst t'.
  unfold activeTools in Hin.
  destruct (String.eqb model "chat-model-reasoning"); [contradiction | exact Hin].
Qed.

(** For every model, a turn has at most 5 steps, and every tool a step runs
    is one of [getWeather], [updateDocument], [requestSuggestions] and
    [webSearch]: [createDocument] is declared to [streamText] but is never
    among the active tools, so no step runs it. *)
Theorem turn_runs_only_active_tools (w : World) (request : Request)
  (g : option ResumableStreamContext) :
  (List.length (filter isStep (turnTrace w request g)) <= 5)%nat
  /\ forall calls t,
       In (EvStep calls) (turnTrace w request g) ->
       In t calls ->
       In t alwaysActiveTools /\ t <> "createDocument".
Proof.
  assert (Hnot : forall t, In t alwaysActiveTools -> t <> "createDocument").
  { intros t [<- | [<- | [<- | [<- | []]]]]; discriminate. }
  destruct (turn_shape w request g)
    as [Hearly | (json & body & msgs & pre & steps & notices & rest & H)].
  - assert (Hnone : filter isStep (turnTrace w request g) = []).
    { apply filter_isStep_none.
      apply (forallb_impl isEarly); [| exact Hearly].
      intros []; unfold isEarly; simpl; congruence. }
    split; [rewrite Hnone; simpl; lia |].
    intros calls t Hin _. exfalso.
    assert (Hs : In (EvStep calls) (filter isStep (turnTrace w request g)))
      by (apply filter_In; split; [exact Hin | reflexivity]).
    rewrite Hnone in Hs. exact Hs.
  - cbv zeta in H. destruct H as (_ & _ & Et & Hpre & Hnotice & Hsteps & Hrest).
    pose proof (rest_after w body rest Hrest) as Hafter.
    assert (Hfilter : filter isStep (turnTrace w request g) = map EvStep steps).
    { rewrite Et.
      apply turn_steps;
        [exact Hpre | reflexivity | reflexivity | exact Hnotice | exact Hafter]. }
    split.
    + rewrite Hfilter, List.length_map.
      destruct Hsteps as [-> | (res & _ & ->)]; [simpl; lia |].
      apply runSteps_length.
    + intros calls t Hin Ht.
      assert (Hs : In (EvStep calls) (filter isStep (turnTrace w request g)))
        by (apply filter_In; split; [exact Hin | reflexivity]).
      rewrite Hfilter in Hs. apply in_map_iff in Hs.
      destruct Hs as (calls' & Heq & Hs). injection Heq as ->.
      destruct Hsteps as [-> | (res & _ & ->)]; [contradiction |].
      pose proof (runSteps_offered _ _ _ _ _ Hs Ht) as Hoff.
      apply offeredTools_active in Hoff.
      split; [exact Hoff | exact (Hnot t Hoff)].
Qed.

(** ** The end of the stream *)

(** When the store refuses the batch of messages of a finished turn,
    [onFinish] stops there: the turn adds nothing after the drain, so no
    usage row is written either. *)
Theorem refused_batch_loses_the_usage_row (w : World) (request : Request)
  (g : option ResumableStreamContext) (b : bool) (stream : UIMessageStream)
  (s' : Sys) (e : Exn) :
  POST w request (fresh g) = (Returns (Some (StreamingResponse b stream)), s') ->
  db_refuses w (SaveMessages (finishedRows w (stream_chatId stream))) = Some e ->
  chatTurn w request (fresh g)
  = (Returns (Some (StreamingResponse b stream)),
     mkSys (trace s' ++ [EvStreamDrained]) (globalStreamContext s')).
Proof.
  intros E Hrefused.
  rewrite (chatTurn_eq w _ _ _ _ E), drain_streaming.
  unfold finishEvents. rewrite Hrefused. reflexivity.
Qed.

Lemma refused_batch_loses_the_usage_row_witness :
  exists b stream s',
    chatTurn lossyWorld sampleRequest (fresh None)
    = (Returns (Some (StreamingResponse b stream)),
       mkSys (trace s' ++ [EvStreamDrained]) (globalStreamContext s')).
Proof.
  eexists _, _, _.
  apply (refused_batch_loses_the_usage_row lossyWorld sampleRequest None _ _ _
           (ChatSDKError "bad_request:database")).
  - vm_compute. reflexivity.
  - reflexivity.
Defined.

(** ** [DELETE] *)

(** A chat that belongs to somebody else is not deleted: the answer is
    [forbidden:chat] and the state is as it was. *)
Theorem DELETE_forbidden (w : World) (request : Request) (s : Sys)
  (id : string) (session : Session) (u : User) (chat : Chat) :
  request_id_param request = Some id ->
  id <> EmptyString ->
  auth w = Returns (Some session) ->
  session_user session = Some u ->
  getChatById w id = Returns (Some chat) ->
  chat_userId chat <> user_id u ->
  DELETE w request s = (Returns (ErrorResponse "forbidden:chat"), s).
Proof.
  intros Eid Hid Ea Eu Ec Hother. unfold DELETE. rewrite Eid.
  apply String.eqb_neq in Hid. rewrite Hid. js.
  rewrite Ea. js. rewrite Eu. js. rewrite Ec. js.
  apply String.eqb_neq in Hother. rewrite Hother. reflexivity.
Qed.

Lemma DELETE_forbidden_witness :
  DELETE (sampleWorld 5 (Some othersChat) (Returns "a chat") noNetwork noPdf
            sampleProvider acceptsAll) sampleRequest (fresh None)
  = (Returns (ErrorResponse "forbidden:chat"), fresh None).
Proof.
  apply (DELETE_forbidden
           (sampleWorld 5 (Some othersChat) (Returns "a chat") noNetwork noPdf
              sampleProvider acceptsAll)
           sampleRequest (fresh None) "chat-1" (mkSession (Some sampleUser))
           sampleUser othersChat);
    try reflexivity; discriminate.
Defined.

(** Whatever [DELETE] answers, it changes the state in one way only: by the
    deletion of the chat named in the request, and then the caller is its
    owner and the answer is the deleted chat with status 200. *)
Theorem DELETE_deletes_only_for_the_owner (w : World) (request : Request)
  (s s' : Sys) (r : Outcome Response) :
  DELETE w request s = (r, s') ->
  s' = s
  \/ exists id session u chat,
       request_id_param request = Some id
       /\ auth w = Returns (Some session)
       /\ session_user session = Some u
       /\ getChatById w id = Returns (Some chat)
       /\ chat_userId chat = user_id u
       /\ s' = mkSys (trace s ++ [EvDb (DeleteChatById id)]) (globalStreamContext s)
       /\ r = Returns (ChatResponse 200 (deleteChatById_result w id)).
Proof.
  unfold DELETE.
  destruct (request_id_param request) as [id |] eqn:Eid; js;
    [| intros E; injection E as _ <-; left; reflexivity].
  destruct (String.eqb id EmptyString); js;
    [intros E; injection E as _ <-; left; reflexivity |].
  destruct (auth w) as [[session |] | e] eqn:Ea; js;
    try (intros E; injection E as _ <-; left; reflexivity).
  destruct (session_user session) as [u |] eqn:Eu; js;
    [| intros E; injection E as _ <-; left; reflexivity].
  destruct (getChatById w id) as [[chat |] | e] eqn:Ec; js;
    try (intros E; injection E as _ <-; left; reflexivity).
  destruct (String.eqb (chat_userId chat) (user_id u)) eqn:Eo; cbn [negb]; js;
    [| intros E; injection E as _ <-; left; reflexivity].
  rewrite dbWrite_eq. destruct (db_refuses w _) as [e |]; js;
    [intros E; injection E as _ <-; left; reflexivity |].
  intros E. injection E as <- <-. right.
  exists id, session, u, chat. apply String.eqb_eq in Eo.
  repeat split; assumption.
Qed.

Lemma DELETE_deletes_only_for_the_owner_witness :
  mkSys [EvDb (DeleteChatById "chat-1")] None = fresh None
  \/ exists id session u chat,
       request_id_param sampleRequest = Some id
       /\ auth usualWorld = Returns (Some session)
       /\ session_user session = Some u
       /\ getChatById usualWorld id = Returns (Some chat)
       /\ chat_userId chat = user_id u
       /\ mkSys [EvDb (DeleteChatById "chat-1")] None
          = mkSys (trace (fresh None) ++ [EvDb (DeleteChatById id)])
              (globalStreamContext (fresh None))
       /\ Returns (ChatResponse 200 sampleChat)
          = Returns (ChatResponse 200 (deleteChatById_result usualWorld id)).
Proof.
  apply (DELETE_deletes_only_for_the_owner usualWorld sampleRequest (fresh None)
           (mkSys [EvDb (DeleteChatById "chat-1")] None)
           (Returns (ChatResponse 200 sampleChat))).
  reflexivity.
Defined.

(** ** More on the attachment loop *)

Lemma base64_length_bounded (n : nat) :
  forall bytes : list byte,
    (List.length bytes <= n)%nat ->
    String.length (base64 bytes) = (4 * ((List.length bytes + 2) / 3))%nat.
Proof.
  induction n as [| n IH]; intros bytes Hn.
  - destruct bytes; [reflexivity | simpl in Hn; lia].
  - destruct bytes as [| a [| b [| c rest]]]; try reflexivity.
    assert (Hr : (List.length rest <= n)%nat) by (simpl in Hn; lia).
    unfold base64; fold base64. cbv zeta. cbn [String.length List.length].
    rewrite (IH rest Hr).
    replace (S (S (S (List.length rest))) + 2)%nat
      with (1 * 3 + (List.length rest + 2))%nat by lia.
    rewrite Nat.div_add_l by lia. lia.
Qed.

(** The base64 text of [n] bytes has 4 characters for every started group
    of 3 bytes. *)
Lemma base64_length (bytes : list byte) :
  String.length (base64 bytes) = (4 * ((List.length bytes + 2) / 3))%nat.
Proof. apply (base64_length_bounded (List.length bytes)). lia. Qed.

(** An image of a user message whose bytes could be fetched is handed to
    the model inline, at the place of the part: as a data URL made of the
    media type of the part and of the base64 text of the bytes, which has 4
    characters for every started group of 3 bytes. *)
Theorem fetched_image_is_inlined (w : World) (uiMessages : list ChatMessage)
  (s : Sys) (i : nat) (msg : ChatMessage) (url mediaType : string)
  (before after : list Part) (arrayBuf : list byte) :
  nth_error uiMessages i = Some msg ->
  msg_role msg = user ->
  msg_parts msg = before ++ FilePart url mediaType :: after ->
  String.prefix "image/" mediaType = true ->
  fetched w url = Returns arrayBuf ->
  exists out s' payload,
    buildModelMessages w uiMessages s = (Returns out, s')
    /\ nth_error out i
       = Some (mkModelMessage user
                 (ContentParts
                    (flat_map (partBlocks w) before
                     ++ ContentImageUrl
                          ("data:" ++ mediaType ++ ";base64," ++ payload)%string
                        :: flat_map (partBlocks w) after)))
    /\ payload = base64 arrayBuf
    /\ String.length payload = (4 * ((List.length arrayBuf + 2) / 3))%nat.
Proof.
  intros Hi Hrole Hparts Himage Hfetch.
  destruct (buildModelMessages_nth w uiMessages s i msg Hi)
    as (out & s' & E & _ & Hnth & _).
  exists out, s', (base64 arrayBuf).
  split; [exact E |]. split; [| split; [reflexivity | apply base64_length]].
  rewrite Hnth, (modelMessageOf_user w msg Hrole), Hparts.
  rewrite flat_map_app. cbn [flat_map partBlocks].
  rewrite Himage, Hfetch. reflexivity.
Qed.

Lemma fetched_image_is_inlined_witness :
  exists out s' payload,
    buildModelMessages imageWorld [imageMessage] (fresh None) = (Returns out, s')
    /\ nth_error out 0
       = Some (mkModelMessage user
                 (ContentParts
                    [ContentText "what is this?";
                     ContentImageUrl ("data:image/png;base64," ++ payload)%string]))
    /\ payload = "TWFu"
    /\ String.length payload = 4%nat.
Proof.
  apply (fetched_image_is_inlined imageWorld [imageMessage] (fresh None) 0
           imageMessage catUrl "image/png" [TextPart "what is this?"] []
           [x4d; x61; x6e]);
    reflexivity.
Defined.




(** ** The path of a run that calls the model *)

Section Walk.

Variable w : World.

Lemma getStreamContext_eq (s : Sys) :
  exists notices,
    getStreamContext w s
    = (Returns (contextAfter w (globalStreamContext s)),
       mkSys (trace s ++ notices) (contextAfter w (globalStreamContext s)))
    /\ forallb isNotice notices = true.
Proof.
  destruct s as [t g]. unfold getStreamContext, contextAfter. simpl.
  destruct g as [c |].
  - exists []. rewrite app_nil_r. auto.
  - destruct (createResumableStreamContext w) as [c | e].
    + exists []. rewrite app_nil_r. auto.
    + destruct (includes (exn_message e) "REDIS_URL"); eexists [_]; auto.
Qed.

Lemma quiet_no_chat (l : list Event) (c : Chat) :
  forallb isQuiet l = true -> ~ In (EvDb (SaveChat c)) l.
Proof.
  intros Hl Hin. rewrite forallb_forall in Hl. specialize (Hl _ Hin).
  discriminate Hl.
Qed.

Ltac calm :=
  repeat rewrite forallb_app; simpl;
  repeat (rewrite quiet_prelude by apply messageEvents_quiet);
  repeat (rewrite prelude_early by (apply quiet_prelude, messageEvents_quiet));
  simpl; reflexivity.

(** Every saved chat of the trace at hand is the one of the title at hand. *)
Ltac saved :=
  let c0 := fresh "c0" in
  let Hin := fresh "Hin" in
  intros c0 Hin;
  repeat (apply in_app_or in Hin; destruct Hin as [Hin | Hin]);
  try (exfalso; exact (quiet_no_chat _ _ (messageEvents_quiet w _) Hin));
  simpl in Hin;
  repeat (destruct Hin as [Hin | Hin]);
  try discriminate Hin; try contradiction;
  injection Hin as <-;
  unfold savedForWant, newChat;
  eexists _, _, _, _, _; repeat split; eassumption.

Lemma quiet_no_usage_log (l : list Event) :
  forallb isQuiet l = true -> forallb (fun e => negb (isUsageLog e)) l = true.
Proof.
  apply forallb_impl. intros []; simpl; congruence.
Qed.

Ltac unlogged :=
  repeat rewrite forallb_app; simpl;
  repeat (rewrite quiet_no_usage_log by apply messageEvents_quiet);
  simpl; reflexivity.

Ltac early := apply walk_early; [exact I | calm | unlogged | saved].

Lemma walk_assoc (a b c d notices notices2 : list Event) (z : Event) :
  (((a ++ b) ++ c) ++ z :: d ++ notices) ++ notices2
  = a ++ b ++ c ++ z :: d ++ (notices ++ notices2).
Proof. rewrite <- !app_assoc. simpl. rewrite <- !app_assoc. reflexivity. Qed.

Lemma POST_walk (request : Request) (g : option ResumableStreamContext) :
  PostWalk w request g (POST w request (fresh g)).
Proof.
  unfold POST, fresh. js.
  destruct (request_json request) as [json | e] eqn:Ej; js; [| early].
  destruct (postRequestBodySchema_parse w json) as [body | e] eqn:Eb; js; [| early].
  destruct (auth w) as [[session |] | e] eqn:Ea; js; [| early | destruct e; early].
  destruct (session_user session) as [u |] eqn:Eu; js; [| early].
  destruct (getMessageCountByUserId w (user_id u) 24) as [messageCount | e] eqn:Ec;
    js; [| destruct e; early].
  destruct (messageCount >? _) eqn:Hgt; js; [early |].
  rewrite Z.gtb_ltb in Hgt. apply Z.ltb_ge in Hgt.
  destruct (getUsageCountByUserId w (user_id u) 24) as [usageCount | e0] eqn:Euc; js.
  all: destruct (js_ge _ _) eqn:Hlim; js; [early |].
  all: destruct (getChatById w (body_id body)) as [[chat |] | e] eqn:Echat; js;
    [ | | destruct e; early].
  all: try (destruct (generateTitleFromUserMessage w (body_message body))
              as [title | e] eqn:Etitle; js; [| destruct e; early];
            rewrite dbWrite_eq; destruct (db_refuses w _) as [e |]; js;
            [destruct e; early |]).
  all: try (destruct (String.eqb (chat_userId chat) (user_id u)) eqn:Eown;
            cbn [negb]; js; [apply String.eqb_eq in Eown | early]).
  all: cbn [negb]; js.
  all: destruct (getMessagesByChatId w (body_id body)) as [rows | e] eqn:Erows; js;
    [| destruct e; early].
  all: rewrite buildModelMessages_eq; js.
  all: rewrite dbWrite_eq; destruct (db_refuses w _) as [e |]; js;
    [destruct e; early |].
  all: rewrite dbWrite_eq; destruct (db_refuses w _) as [e |]; js;
    [destruct e; early |].
  all: match goal with
       | |- context [createUIMessageStream ?a ?b ?c ?d (execute w ?c ?h ?ms ?d) ?s] =>
           pose proof (createUIMessageStream_shape w a b c h ms d s) as H;
           cbv zeta in H;
           destruct H as (stream & steps & notices & E & Hid & Huid & Hmodel & _ & _ & Hnot);
           rewrite E; clear E
       end; js.
  all: match goal with
       | |- context [getStreamContext w ?s] =>
           destruct (getStreamContext_eq s) as (n2 & E & Hn2);
           rewrite E; clear E
       end; cbn [globalStreamContext]; js.
  all: destruct (contextAfter w g) as [c |] eqn:Ectx; js.
  all: try (destruct (resumableStream w (generateUUID w)) as [[] | e] eqn:Eres; js;
            [| destruct e]).
  all: rewrite <- ?Ectx.
  all: match goal with
       | |- PostWalk _ _ _ (Returns ?r, mkSys _ _) =>
           eapply (walk_stream w request g json body session u messageCount _ rows
                     _ _ (notices ++ n2) steps stream r);
           [ exact Ej | exact Eb | exact Ea | exact Eu | exact Ec | exact Hgt
           | first [ left; eexists; repeat split; eassumption
                   | right; eexists; repeat split; eassumption ]
           | exact Echat
           | first [ split; [eassumption | reflexivity]
                   | eexists; split; [eassumption | reflexivity] ]
           | exact Erows
           | unfold newChat; rewrite <- ?app_assoc; simpl; rewrite <- ?app_assoc;
             reflexivity
           | rewrite forallb_app, Hnot, Hn2; reflexivity
           | exact Hid | exact Huid | exact Hmodel
           | unfold answerOf; rewrite Ectx; rewrite ?Eres; reflexivity ]
       end.
Qed.

End Walk.

(** ** What the path tells *)

Section WalkFacts.

Variable w : World.

Lemma usageGate_quiet (u : User) (printed : list Event) :
  usageGate w u printed -> forallb isQuiet printed = true.
Proof.
  intros [(k & _ & _ & ->) | (e & _ & _ & ->)]; reflexivity.
Qed.

Lemma chatGate_prelude (body : PostRequestBody) (u : User)
  (chat : option Chat) (opening : list Event) :
  chatGate w body u chat opening -> forallb isPrelude opening = true.
Proof.
  destruct chat as [c |]; simpl.
  - intros [_ ->]. reflexivity.
  - intros (title & _ & ->). reflexivity.
Qed.

(** What comes before the save of the user message is a prelude. *)
Lemma walk_prelude (body : PostRequestBody) (u : User) (chat : option Chat)
  (printed opening : list Event) (uiMessages : list ChatMessage) :
  usageGate w u printed ->
  chatGate w body u chat opening ->
  forallb isPrelude (printed ++ opening ++ flat_map (messageEvents w) uiMessages)
  = true.
Proof.
  intros Hu Hc. rewrite !forallb_app.
  rewrite (quiet_prelude _ (usageGate_quiet u printed Hu)).
  rewrite (chatGate_prelude body u chat opening Hc).
  rewrite (quiet_prelude _ (messageEvents_quiet w uiMessages)). reflexivity.
Qed.

Lemma walk_call (pre notices : list Event) (steps : list (list string))
  (a b : Event) (o0 o : StreamTextOptions) :
  forallb isPrelude pre = true ->
  isStreamText a = false -> isStreamText b = false ->
  forallb isNotice notices = true ->
  In (EvStreamText o)
    (pre ++ a :: b :: EvStreamText o0 :: map EvStep steps ++ notices) ->
  o = o0.
Proof.
  intros Hpre Ha Hb Hnot Hin.
  apply (turn_model_call pre notices [] steps a b o0 o Hpre Ha Hb Hnot eq_refl).
  rewrite app_nil_r. exact Hin.
Qed.

(** The model is only called past every gate: for a user with a session,
    within the ceiling of the tier, whose usage count, if it could be read,
    is under the daily limit, and on a chat that is new or their own. *)
Theorem model_is_called_only_past_the_gates (request : Request)
  (g : option ResumableStreamContext) (o : StreamTextOptions) :
  In (EvStreamText o) (trace (snd (POST w request (fresh g)))) ->
  exists json body session u messageCount chat,
    request_json request = Returns json
    /\ postRequestBodySchema_parse w json = Returns body
    /\ auth w = Returns (Some session)
    /\ session_user session = Some u
    /\ getMessageCountByUserId w (user_id u) 24 = Returns messageCount
    /\ messageCount <= maxMessagesPerDay (entitlementsByUserType w (user_type u))
    /\ (forall usageCount,
           getUsageCountByUserId w (user_id u) 24 = Returns usageCount ->
           js_ge usageCount (nullish (env_DAILY_REQUEST_LIMIT w) (Finite 100)) = false)
    /\ getChatById w (body_id body) = Returns chat
    /\ (forall c, chat = Some c -> chat_userId c = user_id u).
Proof.
  intros Hin. pose proof (POST_walk w request g) as Hw.
  inversion Hw as [r pre g' Hr Hpre Hlog Hsaved E
                  | json body session u messageCount chat rows printed opening
                    notices steps stream r t uiMessages o0 Ej Eb Ea Eu Ec Hle
                    Hu Echat Hc Erows Et Hnot Hid Huid Hmodel Hans E].
  - rewrite <- E in Hin. exfalso. exact (early_no_model_call _ _ Hpre Hin).
  - exists json, body, session, u, messageCount, chat.
    repeat split; try assumption.
    + intros k Ek. destruct Hu as [(k' & Ek' & Hk & _) | (e & Ee & _)];
        congruence.
    + intros c ->. simpl in Hc. apply Hc.
Qed.

(** The messages given to the model are the stored history of the chat
    followed by the new message, each preprocessed, in that order; the new
    message comes last. *)
Theorem model_sees_history_then_new_message (request : Request)
  (g : option ResumableStreamContext) (o : StreamTextOptions) :
  In (EvStreamText o) (trace (snd (POST w request (fresh g)))) ->
  exists json body rows,
    request_json request = Returns json
    /\ postRequestBodySchema_parse w json = Returns body
    /\ getMessagesByChatId w (body_id body) = Returns rows
    /\ opt_messages o
       = map (modelMessageOf w) (convertToUIMessages w rows)
         ++ [modelMessageOf w (body_message body)]
    /\ opt_model o = selectedChatModel body.
Proof.
  intros Hin. pose proof (POST_walk w request g) as Hw.
  inversion Hw as [r pre g' Hr Hpre Hlog Hsaved E
                  | json body session u messageCount chat rows printed opening
                    notices steps stream r t uiMessages o0 Ej Eb Ea Eu Ec Hle
                    Hu Echat Hc Erows Et Hnot Hid Huid Hmodel Hans E].
  - rewrite <- E in Hin. exfalso. exact (early_no_model_call _ _ Hpre Hin).
  - rewrite <- E in Hin. cbn [snd trace] in Hin. rewrite Et in Hin.
    assert (Ho : o = o0).
    { apply (walk_call (printed ++ opening ++ flat_map (messageEvents w) uiMessages)
               notices steps (EvDb (SaveMessages [userRow w body]))
               (EvDb (CreateStreamId (generateUUID w) (body_id body))) o0 o);
        [ exact (walk_prelude body u chat printed opening uiMessages Hu Hc)
        | reflexivity | reflexivity | exact Hnot
        | rewrite <- !app_assoc; exact Hin ]. }
    subst o. exists json, body, rows.
    repeat split; try assumption.
    unfold o0, uiMessages. cbn [opt_messages streamTextOptions].
    rewrite map_app. reflexivity.
Qed.

End WalkFacts.

Lemma model_is_called_only_past_the_gates_witness :
  exists json body session u messageCount chat,
    request_json sampleRequest = Returns json
    /\ postRequestBodySchema_parse usualWorld json = Returns body
    /\ auth usualWorld = Returns (Some session)
    /\ session_user session = Some u
    /\ getMessageCountByUserId usualWorld (user_id u) 24 = Returns messageCount
    /\ messageCount
       <= maxMessagesPerDay (entitlementsByUserType usualWorld (user_type u))
    /\ (forall usageCount,
           getUsageCountByUserId usualWorld (user_id u) 24 = Returns usageCount ->
           js_ge usageCount (nullish (env_DAILY_REQUEST_LIMIT usualWorld) (Finite 100))
           = false)
    /\ getChatById usualWorld (body_id body) = Returns chat
    /\ (forall c, chat = Some c -> chat_userId c = user_id u).
Proof.
  apply (model_is_called_only_past_the_gates usualWorld sampleRequest None
           (sampleOptions "chat-model")).
  vm_compute. right. right. left. reflexivity.
Defined.

Lemma model_sees_history_then_new_message_witness :
  exists json body rows,
    request_json sampleRequest = Returns json
    /\ postRequestBodySchema_parse usualWorld json = Returns body
    /\ getMessagesByChatId usualWorld (body_id body) = Returns rows
    /\ opt_messages (sampleOptions "chat-model")
       = map (modelMessageOf usualWorld) (convertToUIMessages usualWorld rows)
         ++ [modelMessageOf usualWorld (body_message body)]
    /\ opt_model (sampleOptions "chat-model") = selectedChatModel body.
Proof.
  apply (model_sees_history_then_new_message usualWorld sampleRequest None
           (sampleOptions "chat-model")).
  vm_compute. right. right. left. reflexivity.
Defined.

Section WalkFacts2.

Variable w : World.

Lemma no_event_of_kind (p : Event -> bool) (l : list Event) (e : Event) :
  forallb (fun x => negb (p x)) l = true -> p e = true -> ~ In e l.
Proof.
  intros Hl He Hin. rewrite forallb_forall in Hl. specialize (Hl _ Hin).
  rewrite He in Hl. discriminate Hl.
Qed.

Lemma steps_of_no_kind (p : Event -> bool) (steps : list (list string)) :
  (forall calls, p (EvStep calls) = false) ->
  forallb (fun x => negb (p x)) (map EvStep steps) = true.
Proof.
  intros H. apply forallb_map_step. intros calls. rewrite H. reflexivity.
Qed.

(** A chat is only ever saved for want of one: when the handler saves a
    chat, none existed under the id of the request, and the chat saved has
    that id, the caller as its owner, the title the title action gave and
    the visibility the request asked for. *)
Theorem chat_is_saved_only_for_want_of_one (request : Request)
  (g : option ResumableStreamContext) (c : Chat) :
  In (EvDb (SaveChat c)) (trace (snd (POST w request (fresh g)))) ->
  exists json body session u title,
    request_json request = Returns json
    /\ postRequestBodySchema_parse w json = Returns body
    /\ auth w = Returns (Some session)
    /\ session_user session = Some u
    /\ getChatById w (body_id body) = Returns None
    /\ generateTitleFromUserMessage w (body_message body) = Returns title
    /\ c = mkChat (body_id body) (user_id u) title (selectedVisibilityType body).
Proof.
  intros Hin. pose proof (POST_walk w request g) as Hw.
  inversion Hw as [r pre g' Hr Hpre Hlog Hsaved E
                  | json body session u messageCount chat rows printed opening
                    notices steps stream r t uiMessages o0 Ej Eb Ea Eu Ec Hle
                    Hu Echat Hc Erows Et Hnot Hid Huid Hmodel Hans E].
  - rewrite <- E in Hin. exact (Hsaved c Hin).
  - rewrite <- E in Hin. cbn [snd trace] in Hin. rewrite Et in Hin.
    apply in_app_or in Hin. destruct Hin as [Hin | Hin].
    { exfalso. exact (quiet_no_chat _ _ (usageGate_quiet w u printed Hu) Hin). }
    apply in_app_or in Hin. destruct Hin as [Hin | Hin].
    { destruct chat as [c0 |]; simpl in Hc.
      - destruct Hc as [_ ->]. contradiction.
      - destruct Hc as (title & Etitle & ->).
        destruct Hin as [Hin | [Hin | []]]; [discriminate Hin |].
        injection Hin as <-.
        exists json, body, session, u, title. repeat split; assumption. }
    apply in_app_or in Hin. destruct Hin as [Hin | Hin].
    { exfalso. exact (quiet_no_chat _ _ (messageEvents_quiet w _) Hin). }
    destruct Hin as [Hin | [Hin | [Hin | Hin]]]; try discriminate Hin.
    exfalso. apply in_app_or in Hin. destruct Hin as [Hin | Hin].
    + apply in_map_iff in Hin. destruct Hin as (calls & Heq & _). discriminate Heq.
    + revert Hin. apply (no_event_of_kind isSaveChat); [| reflexivity].
      apply (forallb_impl isNotice); [| exact Hnot]. intros []; simpl; congruence.
Qed.

(** The stream is answered as a resumable one exactly when the module has a
    stream context after the call, in which case it was registered under
    the stream id; without a context the same stream is answered as it
    is. *)
Theorem stream_is_resumable_with_a_context (request : Request)
  (g : option ResumableStreamContext) (b : bool) (stream : UIMessageStream)
  (s' : Sys) :
  POST w request (fresh g) = (Returns (Some (StreamingResponse b stream)), s') ->
  globalStreamContext s' = contextAfter w g
  /\ (b = true <-> contextAfter w g <> None)
  /\ (b = true -> resumableStream w (generateUUID w) = Returns tt).
Proof.
  intros E. pose proof (POST_walk w request g) as Hw. rewrite E in Hw.
  inversion Hw as [r pre g' Hr Hpre Hlog Hsaved
                  | json body session u messageCount chat rows printed opening
                    notices steps stream0 r t uiMessages o0 Ej Eb Ea Eu Ec Hle
                    Hu Echat Hc Erows Et Hnot Hid Huid Hmodel Hans].
  - contradiction.
  - split; [reflexivity |].
    unfold answerOf in Hans. destruct (contextAfter w g) as [c |].
    + destruct (resumableStream w (generateUUID w)) as [[] | [code | m | m]];
        try discriminate Hans.
      injection Hans as -> _.
      split; [split; [discriminate | reflexivity] | reflexivity].
    + injection Hans as -> _.
      split; [split; [discriminate | intros Hctx; contradiction] | discriminate].
Qed.

Lemma walk_no_usage_log (body : PostRequestBody) (u : User) (chat : option Chat)
  (printed opening notices : list Event) (uiMessages : list ChatMessage)
  (steps : list (list string)) (a b : Event) (o : StreamTextOptions) :
  usageGate w u printed ->
  chatGate w body u chat opening ->
  isUsageLog a = false -> isUsageLog b = false ->
  forallb isNotice notices = true ->
  forallb (fun e => negb (isUsageLog e))
    (printed ++ opening ++ flat_map (messageEvents w) uiMessages
     ++ a :: b :: EvStreamText o :: map EvStep steps ++ notices) = true.
Proof.
  intros Hu Hc Ha Hb Hnot. rewrite !forallb_app.
  rewrite (quiet_no_usage_log _ (usageGate_quiet w u printed Hu)).
  rewrite (quiet_no_usage_log _ (messageEvents_quiet w uiMessages)).
  cbn [forallb]. rewrite Ha, Hb, forallb_app.
  rewrite (steps_of_no_kind isUsageLog steps) by reflexivity.
  rewrite (forallb_impl isNotice (fun e => negb (isUsageLog e)) notices
             ltac:(intros []; simpl; congruence) Hnot).
  assert (Ho : forallb (fun e => negb (isUsageLog e)) opening = true).
  { destruct chat as [c |]; simpl in Hc.
    - destruct Hc as [_ ->]. reflexivity.
    - destruct Hc as (title & _ & ->). reflexivity. }
  rewrite Ho. reflexivity.
Qed.

(** A turn writes at most one usage row, and the row is that of the caller:
    it carries the id of the user of the session, the model the request
    selected and the request type [chat]. *)
Theorem usage_row_is_for_the_caller (request : Request)
  (g : option ResumableStreamContext) :
  (List.length (filter isUsageLog (turnTrace w request g)) <= 1)%nat
  /\ forall row,
       In (EvDb (SaveUsageLog row)) (turnTrace w request g) ->
       exists json body session u,
         request_json request = Returns json
         /\ postRequestBodySchema_parse w json = Returns body
         /\ auth w = Returns (Some session)
         /\ session_user session = Some u
         /\ log_userId row = user_id u
         /\ log_model row = selectedChatModel body
         /\ log_requestType row = "chat".
Proof.
  assert (Hfilter : forall l, forallb (fun e => negb (isUsageLog e)) l = true ->
                              filter isUsageLog l = []).
  { induction l as [| e l IH]; simpl; trivial.
    intros H. apply andb_prop in H. destruct H as [He Hl].
    apply negb_true_iff in He. rewrite He. apply IH, Hl. }
  unfold turnTrace. pose proof (POST_walk w request g) as Hw.
  inversion Hw as [r pre g' Hr Hpre Hlog Hsaved E
                  | json body session u messageCount chat rows printed opening
                    notices steps stream r t uiMessages o0 Ej Eb Ea Eu Ec Hle
                    Hu Echat Hc Erows Et Hnot Hid Huid Hmodel Hans E].
  - symmetry in E. rewrite (chatTurn_eq w _ _ _ _ E).
    rewrite drain_notStreaming by assumption. cbn [snd trace].
    split; [rewrite (Hfilter pre Hlog); simpl; lia |].
    intros row Hin. exfalso. revert Hin.
    apply (no_event_of_kind isUsageLog); [exact Hlog | reflexivity].
  - symmetry in E. rewrite (chatTurn_eq w _ _ _ _ E).
    assert (Ht : forallb (fun e => negb (isUsageLog e)) t = true).
    { rewrite Et. apply (walk_no_usage_log body u chat); auto. }
    assert (Hcase : notStreaming r
                    \/ exists b, r = Some (StreamingResponse b stream)).
    { unfold answerOf in Hans. destruct (contextAfter w g).
      - destruct (resumableStream w (generateUUID w)) as [[] | [code | m | m]];
          subst r; simpl; eauto.
      - subst r. eauto. }
    destruct Hcase as [Hr | [b ->]].
    + rewrite drain_notStreaming by assumption. cbn [snd trace].
      split; [rewrite (Hfilter t Ht); simpl; lia |].
      intros row Hin. exfalso. revert Hin.
      apply (no_event_of_kind isUsageLog); [exact Ht | reflexivity].
    + rewrite drain_streaming. cbn [snd trace globalStreamContext].
      assert (Hfin : finishEvents w stream = []
                     \/ finishEvents w stream
                        = EvDb (SaveMessages (finishedRows w (stream_chatId stream)))
                          :: onFinishNotices stream ++ [usageWrite w stream]).
      { unfold finishEvents. destruct (db_refuses w _); auto. }
      assert (Hn : forallb (fun e => negb (isUsageLog e)) (onFinishNotices stream)
                   = true).
      { apply (forallb_impl isNotice); [| apply onFinishNotices_notice].
        intros []; simpl; congruence. }
      split.
      * rewrite filter_app, (Hfilter t Ht). cbn [app filter isUsageLog].
        destruct Hfin as [-> | ->]; [simpl; lia |].
        cbn [filter isUsageLog]. rewrite filter_app, (Hfilter _ Hn).
        simpl. destruct (isUsageLog (usageWrite w stream)); simpl; lia.
      * intros row Hin. apply in_app_or in Hin. destruct Hin as [Hin | Hin].
        { exfalso. revert Hin.
          apply (no_event_of_kind isUsageLog); [exact Ht | reflexivity]. }
        destruct Hin as [Hin | Hin]; [discriminate Hin |].
        destruct Hfin as [Hfin | Hfin]; rewrite Hfin in Hin; [contradiction |].
        destruct Hin as [Hin | Hin]; [discriminate Hin |].
        apply in_app_or in Hin. destruct Hin as [Hin | Hin].
        { exfalso. revert Hin.
          apply (no_event_of_kind isUsageLog); [exact Hn | reflexivity]. }
        destruct Hin as [Hin | []]. unfold usageWrite in Hin.
        destruct (db_refuses w _); [discriminate Hin |].
        injection Hin as <-.
        exists json, body, session, u. unfold usageLogOf. cbn.
        rewrite Huid, Hmodel. repeat split; assumption.
Qed.

End WalkFacts2.

Lemma chat_is_saved_only_for_want_of_one_witness :
  exists json body session u title,
    request_json sampleRequest = Returns json
    /\ postRequestBodySchema_parse offlineWorld json = Returns body
    /\ auth offlineWorld = Returns (Some session)
    /\ session_user session = Some u
    /\ getChatById offlineWorld (body_id body) = Returns None
    /\ generateTitleFromUserMessage offlineWorld (body_message body) = Returns title
    /\ mkChat "chat-1" "user-1" "a chat" "private"
       = mkChat (body_id body) (user_id u) title (selectedVisibilityType body).
Proof.
  apply (chat_is_saved_only_for_want_of_one offlineWorld sampleRequest None
           (mkChat "chat-1" "user-1" "a chat" "private")).
  vm_compute. right. left. reflexivity.
Defined.

Lemma stream_is_resumable_with_a_context_witness :
  exists b stream s',
    globalStreamContext s' = contextAfter usualWorld (Some resumableStreamContext)
    /\ (b = true <-> contextAfter usualWorld (Some resumableStreamContext) <> None)
    /\ (b = true -> resumableStream usualWorld (generateUUID usualWorld) = Returns tt)
    /\ POST usualWorld sampleRequest (fresh (Some resumableStreamContext))
       = (Returns (Some (StreamingResponse b stream)), s').
Proof.
  eexists _, _, _.
  assert (E : POST usualWorld sampleRequest (fresh (Some resumableStreamContext))
              = (Returns (Some (StreamingResponse _ _)), _))
    by (vm_compute; reflexivity).
  destruct (stream_is_resumable_with_a_context usualWorld sampleRequest
              (Some resumableStreamContext) _ _ _ E) as (H1 & H2 & H3).
  repeat split; try apply H2; assumption.
Defined.

(** * Properties of the web search tool *)

(** Without an API key, or with an empty one, the tool throws and sends
    nothing. *)
Theorem webSearch_needs_a_key (env : WebSearch.Env) (query : string) :
  WebSearch.SERPER_API_KEY env = None
  \/ WebSearch.SERPER_API_KEY env = Some EmptyString ->
  exists message,
    WebSearch.execute env query = (Throws (Error message), []).
Proof.
  unfold WebSearch.execute. intros [-> | ->]; eexists; reflexivity.
Qed.

Lemma webSearch_needs_a_key_witness :
  exists message,
    WebSearch.execute
      (WebSearch.sampleEnv None
         (Returns (WebSearch.mkResponse true 200 (Returns WebSearch.sampleData))))
      "rocq"
    = (Throws (Error message), []).
Proof.
  apply (webSearch_needs_a_key
           (WebSearch.sampleEnv None
              (Returns (WebSearch.mkResponse true 200 (Returns WebSearch.sampleData))))
           "rocq").
  left. reflexivity.
Defined.

(** Whatever happens, the tool sends at most one request, and only this
    one: a POST to the search endpoint with the key in the [X-API-KEY]
    header and the query as the JSON body.  When it returns results, the
    request was sent, the answer was ok and its body could be read. *)
Theorem webSearch_sends_one_request (env : WebSearch.Env) (query : string)
  (outcome : Outcome (list WebSearch.SerperResult))
  (requests : list (string * WebSearch.RequestInit)) :
  WebSearch.execute env query = (outcome, requests) ->
  (requests = []
   \/ exists apiKey,
        WebSearch.SERPER_API_KEY env = Some apiKey
        /\ apiKey <> EmptyString
        /\ requests
           = [("https://google.serper.dev/search",
               WebSearch.mkRequestInit "POST"
                 [("Content-Type", "application/json"); ("X-API-KEY", apiKey)]
                 (JObj [("q", JStr query)]))])
  /\ (forall results,
         outcome = Returns results ->
         requests <> []
         /\ exists apiKey response data,
              WebSearch.SERPER_API_KEY env = Some apiKey
              /\ WebSearch.fetch env WebSearch.endpoint
                   (WebSearch.requestFor apiKey query) = Returns response
              /\ WebSearch.ok response = true
              /\ WebSearch.json response = Returns data
              /\ WebSearch.resultsOf data = Returns results).
Proof.
  unfold WebSearch.execute.
  destruct (WebSearch.SERPER_API_KEY env) as [apiKey |] eqn:Ekey.
  2: { intros E. injection E as <- <-. split; [left; reflexivity |].
       intros results H. discriminate H. }
  destruct (String.eqb apiKey EmptyString) eqn:Hempty.
  { intros E. injection E as <- <-. split; [left; reflexivity |].
    intros results H. discriminate H. }
  apply String.eqb_neq in Hempty.
  assert (Hsent : forall o,
            (o, [(WebSearch.endpoint, WebSearch.requestFor apiKey query)])
            = (outcome, requests) ->
            requests = []
            \/ exists apiKey0,
                 Some apiKey = Some apiKey0 /\ apiKey0 <> EmptyString
                 /\ requests
                    = [("https://google.serper.dev/search",
                        WebSearch.mkRequestInit "POST"
                          [("Content-Type", "application/json");
                           ("X-API-KEY", apiKey0)]
                          (JObj [("q", JStr query)]))]).
  { intros o E. injection E as _ <-. right. exists apiKey. auto. }
  destruct (WebSearch.fetch env WebSearch.endpoint
              (WebSearch.requestFor apiKey query)) as [response | e] eqn:Ef.
  2: { intros E. split; [exact (Hsent _ E) |].
       injection E as <- _. intros results H. discriminate H. }
  destruct (WebSearch.ok response) eqn:Hok; cbn [negb].
  2: { intros E. split; [exact (Hsent _ E) |].
       injection E as <- _. intros results H. discriminate H. }
  destruct (WebSearch.json response) as [data | e] eqn:Ed.
  2: { intros E. split; [exact (Hsent _ E) |].
       injection E as <- _. intros results H. discriminate H. }
  intros E. split; [exact (Hsent _ E) |].
  injection E as <- <-. intros results H.
  split; [discriminate |].
  exists apiKey, response, data. auto.
Qed.

Lemma webSearch_sends_one_request_witness :
  snd (WebSearch.execute
         (WebSearch.sampleEnv (Some "secret")
            (Returns (WebSearch.mkResponse true 200 (Returns WebSearch.sampleData))))
         "rocq")
  = [("https://google.serper.dev/search",
      WebSearch.mkRequestInit "POST"
        [("Content-Type", "application/json"); ("X-API-KEY", "secret")]
        (JObj [("q", JStr "rocq")]))].
Proof.
  destruct (webSearch_sends_one_request
              (WebSearch.sampleEnv (Some "secret")
                 (Returns (WebSearch.mkResponse true 200 (Returns WebSearch.sampleData))))
              "rocq" _ _ eq_refl) as [[Hnone | (apiKey & Hkey & _ & Hsent)] _].
  - discriminate Hnone.
  - injection Hkey as <-. exact Hsent.
Defined.

(** An answer that is not ok makes the tool throw an error that names the
    status; the body of the answer is not read. *)
Theorem webSearch_rejects_bad_status (env : WebSearch.Env) (query apiKey : string)
  (response : WebSearch.Response) :
  WebSearch.SERPER_API_KEY env = Some apiKey ->
  apiKey <> EmptyString ->
  WebSearch.fetch env WebSearch.endpoint (WebSearch.requestFor apiKey query)
  = Returns response ->
  WebSearch.ok response = false ->
  fst (WebSearch.execute env query)
  = Throws (Error ("Serper request failed with status "
                   ++ WebSearch.showStatus (WebSearch.status response))%string).
Proof.
  intros Ekey Hkey Ef Hok. unfold WebSearch.execute. rewrite Ekey.
  apply String.eqb_neq in Hkey. rewrite Hkey, Ef, Hok. reflexivity.
Qed.

Lemma webSearch_rejects_bad_status_witness :
  fst (WebSearch.execute
         (WebSearch.sampleEnv (Some "secret")
            (Returns (WebSearch.mkResponse false 403 (Throws (Error "no body")))))
         "rocq")
  = Throws (Error "Serper request failed with status 403").
Proof.
  apply (webSearch_rejects_bad_status
           (WebSearch.sampleEnv (Some "secret")
              (Returns (WebSearch.mkResponse false 403 (Throws (Error "no body")))))
           "rocq" "secret"
           (WebSearch.mkResponse false 403 (Throws (Error "no body"))));
    try reflexivity. discriminate.
Defined.

Lemma mapItems_objects (items : list Json) :
  (forall item, In item items -> exists fields, item = JObj fields) ->
  exists results,
    WebSearch.mapItems items = Returns results
    /\ List.length results = List.length items
    /\ forall i fields,
         nth_error items i = Some (JObj fields) ->
         exists r,
           nth_error results i = Some r
           /\ WebSearch.getProperty (JObj fields) "title" = Returns (WebSearch.title r)
           /\ WebSearch.getProperty (JObj fields) "link" = Returns (WebSearch.link r)
           /\ WebSearch.getProperty (JObj fields) "snippet"
              = Returns (WebSearch.snippet r).
Proof.
  induction items as [| item rest IH]; intros Hobj.
  - exists []. repeat split. intros [| i] fields H; discriminate H.
  - destruct (Hobj item (or_introl eq_refl)) as [fields0 ->].
    destruct IH as (results & E & Hlen & Hnth).
    { intros item Hin. apply Hobj. right. exact Hin. }
    cbn [WebSearch.mapItems]. unfold WebSearch.toResult.
    cbn [WebSearch.getProperty]. rewrite E.
    eexists. split; [reflexivity |]. split; [simpl; rewrite Hlen; reflexivity |].
    intros [| i] fields H.
    + injection H as <-. eexists. split; [reflexivity |]. repeat split.
    + exact (Hnth i fields H).
Qed.

(** An ok answer without [organic] (or with [null] for it, or that is
    [null] itself) gives no results and no error.  An ok answer whose
    [organic] is an array of objects gives one result per item, in the same
    order, each holding what the item has under [title], [link] and
    [snippet]. *)
Theorem webSearch_results_follow_organic (env : WebSearch.Env)
  (query apiKey : string) (response : WebSearch.Response) (data : Json) :
  WebSearch.SERPER_API_KEY env = Some apiKey ->
  apiKey <> EmptyString ->
  WebSearch.fetch env WebSearch.endpoint (WebSearch.requestFor apiKey query)
  = Returns response ->
  WebSearch.ok response = true ->
  WebSearch.json response = Returns data ->
  (WebSearch.organicOf data = WebSearch.Undefined
   \/ WebSearch.organicOf data = WebSearch.Value JNull ->
   fst (WebSearch.execute env query) = Returns [])
  /\ (forall items,
         WebSearch.organicOf data = WebSearch.Value (JArr items) ->
         (forall item, In item items -> exists fields, item = JObj fields) ->
         exists results,
           fst (WebSearch.execute env query) = Returns results
           /\ List.length results = List.length items
           /\ forall i fields,
                nth_error items i = Some (JObj fields) ->
                exists r,
                  nth_error results i = Some r
                  /\ WebSearch.getProperty (JObj fields) "title"
                     = Returns (WebSearch.title r)
                  /\ WebSearch.getProperty (JObj fields) "link"
                     = Returns (WebSearch.link r)
                  /\ WebSearch.getProperty (JObj fields) "snippet"
                     = Returns (WebSearch.snippet r)).
Proof.
  intros Ekey Hkey Ef Hok Ed.
  assert (E : fst (WebSearch.execute env query) = WebSearch.resultsOf data).
  { unfold WebSearch.execute. rewrite Ekey.
    apply String.eqb_neq in Hkey. rewrite Hkey, Ef, Hok, Ed. reflexivity. }
  rewrite E. unfold WebSearch.resultsOf. split.
  - intros [-> | ->]; reflexivity.
  - intros items -> Hobj. exact (mapItems_objects items Hobj).
Qed.

Lemma webSearch_results_follow_organic_witness :
  exists results,
    fst (WebSearch.execute
           (WebSearch.sampleEnv (Some "secret")
              (Returns (WebSearch.mkResponse true 200 (Returns WebSearch.sampleData))))
           "rocq")
    = Returns results
    /\ List.length results = 2%nat.
Proof.
  destruct (webSearch_results_follow_organic
              (WebSearch.sampleEnv (Some "secret")
                 (Returns (WebSearch.mkResponse true 200 (Returns WebSearch.sampleData))))
              "rocq" "secret"
              (WebSearch.mkResponse true 200 (Returns WebSearch.sampleData))
              WebSearch.sampleData eq_refl ltac:(discriminate) eq_refl eq_refl eq_refl)
    as [_ H].
  destruct (H _ eq_refl) as (results & E & Hlen & _).
  - intros item [<- | [<- | []]]; eexists; reflexivity.
  - exists results. split; [exact E | exact Hlen].
Defined.

Lemma mapItems_null (items : list Json) :
  In JNull items ->
  exists message, WebSearch.mapItems items = Throws (TypeError message).
Proof.
  induction items as [| item rest IH]; intros Hin; [contradiction |].
  cbn [WebSearch.mapItems].
  destruct item as [| b | n | text | elements | fields];
    try (destruct Hin as [Hin | Hin]; [discriminate Hin |];
         destruct (IH Hin) as [message ->];
         unfold WebSearch.toResult; cbn [WebSearch.getProperty];
         eexists; reflexivity).
  eexists. reflexivity.
Qed.

(** One [null] among the items of [organic] makes the whole search throw:
    no result is returned for the other items. *)
Theorem webSearch_null_item_fails_the_search (env : WebSearch.Env)
  (query apiKey : string) (response : WebSearch.Response) (data : Json)
  (items : list Json) :
  WebSearch.SERPER_API_KEY env = Some apiKey ->
  apiKey <> EmptyString ->
  WebSearch.fetch env WebSearch.endpoint (WebSearch.requestFor apiKey query)
  = Returns response ->
  WebSearch.ok response = true ->
  WebSearch.json response = Returns data ->
  WebSearch.organicOf data = WebSearch.Value (JArr items) ->
  In JNull items ->
  exists message,
    fst (WebSearch.execute env query) = Throws (TypeError message).
Proof.
  intros Ekey Hkey Ef Hok Ed Eorg Hnull.
  unfold WebSearch.execute. rewrite Ekey.
  apply String.eqb_neq in Hkey. rewrite Hkey, Ef, Hok, Ed. cbn [negb fst].
  unfold WebSearch.resultsOf. rewrite Eorg. exact (mapItems_null items Hnull).
Qed.

Lemma webSearch_null_item_fails_the_search_witness :
  exists message,
    fst (WebSearch.execute
           (WebSearch.sampleEnv (Some "secret")
              (Returns (WebSearch.mkResponse true 200
                          (Returns (JObj [("organic",
                                           JArr [JObj [("title", JStr "Rocq")];
                                                 JNull])])))))
           "rocq")
    = Throws (TypeError message).
Proof.
  apply (webSearch_null_item_fails_the_search
           (WebSearch.sampleEnv (Some "secret")
              (Returns (WebSearch.mkResponse true 200
                          (Returns (JObj [("organic",
                                           JArr [JObj [("title", JStr "Rocq")];
                                                 JNull])])))))
           "rocq" "secret"
           (WebSearch.mkResponse true 200
              (Returns (JObj [("organic",
                               JArr [JObj [("title", JStr "Rocq")]; JNull])])))
           (JObj [("organic", JArr [JObj [("title", JStr "Rocq")]; JNull])])
           [JObj [("title", JStr "Rocq")]; JNull]);
    try reflexivity.
  - discriminate.
  - right. left. reflexivity.
Defined.

(** * Properties of the source pills *)

Section Pills.

Import SourcePills.

Let step := push.

Lemma find_app_first {A} (p : A -> bool) (l1 l2 : list A) (x : A) :
  find p l1 = Some x -> find p (l1 ++ l2) = Some x.
Proof.
  induction l1 as [| a l1 IH]; simpl; [discriminate |].
  destruct (p a); [trivial | exact IH].
Qed.

Lemma find_app_none {A} (p : A -> bool) (l1 l2 : list A) :
  find p l1 = None -> find p (l1 ++ l2) = find p l2.
Proof.
  induction l1 as [| a l1 IH]; simpl; [trivial |].
  destruct (p a); [discriminate | exact IH].
Qed.

Lemma kept_step (acc seen : list Source) (src : Source) :
  kept acc seen -> kept (step acc src) (seen ++ [src]).
Proof.
  intros (Hnd & Hfirst & Hcover). unfold step, push.
  destruct (existsb _ acc) eqn:Hex.
  - apply existsb_exists in Hex. destruct Hex as (s0 & Hs0 & Heq).
    apply String.eqb_eq in Heq.
    split; [exact Hnd |]. split.
    + intros k Hk. apply find_app_first, Hfirst, Hk.
    + intros s Hs. apply in_app_or in Hs. destruct Hs as [Hs | [<- | []]].
      * exact (Hcover s Hs).
      * exists s0. auto.
  - assert (Hnew : forall s, In s acc -> link s <> link src).
    { intros s Hs Heq.
      assert (Hex' : existsb (fun s => String.eqb (link s) (link src)) acc = true).
      { apply existsb_exists. exists s. split; [exact Hs |].
        apply String.eqb_eq, Heq. }
      congruence. }
    split; [| split].
    + rewrite map_app. apply NoDup_app; [exact Hnd | repeat constructor; auto |].
      intros l Hl [<- | []]. apply in_map_iff in Hl.
      destruct Hl as (s & Heq & Hs). exact (Hnew s Hs Heq).
    + intros k Hk. apply in_app_or in Hk. destruct Hk as [Hk | [<- | []]].
      * apply find_app_first, Hfirst, Hk.
      * rewrite find_app_none.
        -- simpl. rewrite String.eqb_refl. reflexivity.
        -- destruct (find _ seen) as [s |] eqn:Ef; [| reflexivity].
           exfalso. apply find_some in Ef. destruct Ef as [Hs Heq].
           apply String.eqb_eq in Heq.
           destruct (Hcover s Hs) as (k & Hk & Hlink).
           apply (Hnew k Hk). congruence.
    + intros s Hs. apply in_app_or in Hs. destruct Hs as [Hs | [<- | []]].
      * destruct (Hcover s Hs) as (k & Hk & Hlink).
        exists k. split; [apply in_or_app; left; exact Hk | exact Hlink].
      * exists src. split; [apply in_or_app; right; left; reflexivity | reflexivity].
Qed.

Lemma kept_loop (sources : list Source) :
  forall acc seen,
    kept acc seen -> kept (fold_left step sources acc) (seen ++ sources).
Proof.
  induction sources as [| src rest IH]; intros acc seen H; simpl.
  - rewrite app_nil_r. exact H.
  - replace (seen ++ src :: rest) with ((seen ++ [src]) ++ rest)
      by (rewrite <- app_assoc; reflexivity).
    apply IH, kept_step, H.
Qed.

Lemma uniqueSources_kept (sources : list Source) :
  kept (uniqueSources sources) sources.
Proof.
  apply (kept_loop sources [] []). split; [constructor |].
  split; intros x [].
Qed.

(** The unique sources have pairwise distinct links, so the pills have
    pairwise distinct React keys.  Every link of the input is the link of a
    unique source, and the source kept for a link is the first of the input
    with that link. *)
Theorem uniqueSources_keeps_first_of_each_link
  (hostnameOf : string -> option string) (sources : list Source) :
  NoDup (map link (uniqueSources sources))
  /\ NoDup (map pill_key (pills hostnameOf sources))
  /\ (forall k, In k (uniqueSources sources) ->
        find (fun x => String.eqb (link x) (link k)) sources = Some k)
  /\ (forall s, In s sources ->
        exists k, In k (uniqueSources sources) /\ link k = link s).
Proof.
  destruct (uniqueSources_kept sources) as (Hnd & Hfirst & Hcover).
  split; [exact Hnd |]. split; [| split; assumption].
  unfold pills. rewrite map_map. cbn [pill_key]. exact Hnd.
Qed.

Lemma loop_distinct (sources : list Source) :
  forall acc,
    NoDup (map link (acc ++ sources)) ->
    fold_left step sources acc = acc ++ sources.
Proof.
  induction sources as [| src rest IH]; intros acc Hnd; simpl.
  - rewrite app_nil_r. reflexivity.
  - assert (Hstep : step acc src = acc ++ [src]).
    { unfold step, push. destruct (existsb _ acc) eqn:Hex; [| reflexivity].
      exfalso. apply existsb_exists in Hex. destruct Hex as (s & Hs & Heq).
      apply String.eqb_eq in Heq.
      rewrite map_app in Hnd. cbn [map] in Hnd.
      apply NoDup_remove_2 in Hnd. apply Hnd, in_or_app. left.
      apply in_map_iff. exists s. auto. }
    rewrite Hstep, IH; rewrite <- app_assoc; [reflexivity | exact Hnd].
Qed.

(** Sources whose links are pairwise distinct are all kept, in their order;
    so making the sources unique twice is the same as once. *)
Theorem uniqueSources_fixes_distinct_links (sources : list Source) :
  (NoDup (map link sources) -> uniqueSources sources = sources)
  /\ uniqueSources (uniqueSources sources) = uniqueSources sources.
Proof.
  assert (H : forall l, NoDup (map link l) -> uniqueSources l = l).
  { intros l Hnd. exact (loop_distinct l [] Hnd). }
  split; [apply H |].
  apply H.
  apply (uniqueSources_kept sources).
Qed.

Lemma prefix_app (p s : string) : String.prefix p (p ++ s) = true.
Proof.
  induction p as [| c p IH].
  - destruct s; reflexivity.
  - change (String.prefix (String c p) (String c p ++ s))
      with (if Ascii.ascii_dec c c then String.prefix p (p ++ s) else false).
    destruct (Ascii.ascii_dec c c) as [_ | H]; [exact IH | contradiction].
Qed.

Lemma skip_app (p s : string) : skip (String.length p) (p ++ s) = s.
Proof.
  induction p as [| c p IH]; [destruct s; reflexivity |].
  change (skip (String.length (String c p)) (String c p ++ s))
    with (skip (String.length p) (p ++ s)).
  exact IH.
Qed.

Lemma replaceFirst_unfold (pattern replacement : string) (c : ascii) (rest : string) :
  String.prefix pattern (String c rest) = false ->
  replaceFirst pattern replacement (String c rest)
  = String c (replaceFirst pattern replacement rest).
Proof. intros H. cbn [replaceFirst]. rewrite H. reflexivity. Qed.

Lemma replaceFirst_here (pattern replacement s : string) :
  replaceFirst pattern replacement (pattern ++ s) = (replacement ++ s)%string.
Proof.
  assert (E : forall t, String.prefix pattern t = true ->
                        replaceFirst pattern replacement t
                        = (replacement ++ skip (String.length pattern) t)%string).
  { intros [| c t] Ht; cbn [replaceFirst]; rewrite Ht; reflexivity. }
  rewrite (E _ (prefix_app pattern s)), skip_app. reflexivity.
Qed.

(** The first occurrence of the pattern is the one replaced. *)
Lemma replaceFirst_at (pattern replacement : string) (before : string) :
  forall after,
    (forall n, (n < String.length before)%nat ->
               String.prefix pattern (skip n (before ++ pattern ++ after)) = false) ->
    replaceFirst pattern replacement (before ++ pattern ++ after)
    = (before ++ replacement ++ after)%string.
Proof.
  induction before as [| c before IH]; intros after Hfirst.
  - change (replaceFirst pattern replacement (pattern ++ after)
            = (replacement ++ after)%string).
    apply replaceFirst_here.
  - change ((String c before ++ pattern ++ after)%string)
      with (String c (before ++ pattern ++ after)%string).
    rewrite replaceFirst_unfold.
    + rewrite IH; [reflexivity |].
      intros n Hn. apply (Hfirst (S n)). simpl. lia.
    + apply (Hfirst 0%nat). simpl. lia.
Qed.

Lemma replaceFirst_absent (pattern replacement : string) (s : string) :
  (forall n, (n <= String.length s)%nat ->
             String.prefix pattern (skip n s) = false) ->
  replaceFirst pattern replacement s = s.
Proof.
  induction s as [| c s IH]; intros Habsent.
  - assert (H0 : String.prefix pattern EmptyString = false)
      by (apply (Habsent 0%nat); simpl; lia).
    cbn [replaceFirst]. rewrite H0. reflexivity.
  - rewrite replaceFirst_unfold by (apply (Habsent 0%nat); simpl; lia).
    rewrite IH; [reflexivity |].
    intros n Hn. apply (Habsent (S n)). simpl. lia.
Qed.

(** The text of a pill.  A link that is no URL is shown as it is.  A host
    name is shown without its first [www.], wherever that stands: at the
    start, as in [www.example.com], or further on; a host name without
    [www.] is shown as it is. *)
Theorem pill_text_drops_first_www (hostnameOf : string -> option string)
  (source : Source) :
  (hostnameOf (link source) = None ->
   domain hostnameOf source = link source)
  /\ (forall before after,
         hostnameOf (link source) = Some (before ++ "www." ++ after)%string ->
         (forall n, (n < String.length before)%nat ->
                    String.prefix "www." (skip n (before ++ "www." ++ after)) = false) ->
         domain hostnameOf source = (before ++ after)%string)
  /\ (forall hostname,
         hostnameOf (link source) = Some hostname ->
         (forall n, (n <= String.length hostname)%nat ->
                    String.prefix "www." (skip n hostname) = false) ->
         domain hostnameOf source = hostname).
Proof.
  unfold domain. split; [intros ->; reflexivity |]. split.
  - intros before after -> Hfirst.
    exact (replaceFirst_at "www." EmptyString before after Hfirst).
  - intros hostname -> Habsent.
    exact (replaceFirst_absent "www." EmptyString hostname Habsent).
Qed.

End Pills.

Lemma uniqueSources_fixes_distinct_links_witness :
  SourcePills.uniqueSources (firstn 2 SourcePills.sampleSources)
  = firstn 2 SourcePills.sampleSources.
Proof.
  apply (proj1 (uniqueSources_fixes_distinct_links
                  (firstn 2 SourcePills.sampleSources))).
  simpl. repeat constructor; simpl; intuition discriminate.
Defined.

Lemma pill_text_drops_first_www_witness :
  SourcePills.domain SourcePills.sampleHostname
    (SourcePills.mkSource "Rocq" "https://www.rocq-prover.org/" "The Rocq prover")
  = "rocq-prover.org".
Proof.
  destruct (pill_text_drops_first_www SourcePills.sampleHostname
              (SourcePills.mkSource "Rocq" "https://www.rocq-prover.org/"
                 "The Rocq prover")) as (_ & H & _).
  apply (H EmptyString "rocq-prover.org").
  - reflexivity.
  - intros n Hn. simpl in Hn. lia.
Defined.

(** * Properties of the code blocks *)

Section Blocks.

Import CodeBlock.

Lemma takeWord_split (s : string) :
  exists rest,
    s = (takeWord s ++ rest)%string
    /\ allWord (takeWord s) = true
    /\ startsNonWord rest.
Proof.
  induction s as [| c s (rest & Es & Hw & Hr)].
  - exists EmptyString. repeat split.
  - cbn [takeWord]. destruct (isWordChar c) eqn:Hc.
    + exists rest. split; [| split; [| exact Hr]].
      * change ((String c (takeWord s) ++ rest)%string)
          with (String c (takeWord s ++ rest)%string).
        rewrite <- Es. reflexivity.
      * cbn [allWord]. rewrite Hc, Hw. reflexivity.
    + exists (String c s). repeat split. exact Hc.
Qed.

Lemma takeWord_app (word rest : string) :
  allWord word = true -> startsNonWord rest ->
  takeWord (word ++ rest) = word.
Proof.
  induction word as [| c word IH]; intros Hw Hr.
  - destruct rest as [| c rest]; [reflexivity |].
    simpl in Hr. change (takeWord (String c rest) = EmptyString).
    cbn [takeWord]. rewrite Hr. reflexivity.
  - cbn [allWord] in Hw. apply andb_prop in Hw. destruct Hw as [Hc Hw].
    change (takeWord (String c (word ++ rest)) = String c word).
    cbn [takeWord]. rewrite Hc, (IH Hw Hr). reflexivity.
Qed.

Lemma prefix_skip (p s : string) :
  String.prefix p s = true -> s = (p ++ SourcePills.skip (String.length p) s)%string.
Proof.
  revert s. induction p as [| c p IH]; intros s H.
  - destruct s; reflexivity.
  - destruct s as [| a s]; [discriminate H |].
    change (if Ascii.ascii_dec c a then String.prefix p s else false) with
      (String.prefix (String c p) (String a s)) in H.
    change (String.prefix (String c p) (String a s))
      with (if Ascii.ascii_dec c a then String.prefix p s else false) in H.
    destruct (Ascii.ascii_dec c a) as [-> | _]; [| discriminate H].
    change (String a s = String a (p ++ SourcePills.skip (String.length p) s)%string).
    rewrite <- (IH s H). reflexivity.
Qed.

(** What [languageOf] does at the head of a class name. *)
Lemma languageOf_unfold (className : string) :
  languageOf className
  = match (if String.prefix "language-" className
           then takeWord (SourcePills.skip 9 className) else EmptyString) with
    | String c word => Some (String c word)
    | EmptyString =>
        match className with
        | EmptyString => None
        | String _ rest => languageOf rest
        end
    end.
Proof. destruct className; reflexivity. Qed.

Lemma languageOf_sound (className : string) :
  forall language,
    languageOf className = Some language ->
    language <> EmptyString
    /\ allWord language = true
    /\ exists before after,
         className = (before ++ "language-" ++ language ++ after)%string
         /\ startsNonWord after.
Proof.
  induction className as [| a className IH]; intros language H.
  - rewrite languageOf_unfold in H.
    change (String.prefix "language-" EmptyString) with false in H.
    discriminate H.
  - rewrite languageOf_unfold in H.
    destruct (String.prefix "language-" (String a className)) eqn:Hp.
    + destruct (takeWord_split (SourcePills.skip 9 (String a className)))
        as (rest & Es & Hw & Hr).
      destruct (takeWord (SourcePills.skip 9 (String a className)))
        as [| c word] eqn:Et.
      * destruct (IH language H) as (Hne & Hall & before & after & -> & Hafter).
        split; [exact Hne |]. split; [exact Hall |].
        exists (String a before), after. split; [reflexivity | exact Hafter].
      * injection H as <-.
        split; [discriminate |]. split; [exact Hw |].
        exists EmptyString, rest. split; [| exact Hr].
        rewrite (prefix_skip _ _ Hp) at 1.
        change (String.length "language-") with 9%nat.
        rewrite Es at 1. reflexivity.
    + destruct (IH language H) as (Hne & Hall & before & after & -> & Hafter).
      split; [exact Hne |]. split; [exact Hall |].
      exists (String a before), after. split; [reflexivity | exact Hafter].
Qed.

(** The language read off a class name: when there is one, it is a
    non-empty run of word characters that stands in the class name right
    after [language-] and ends where the word characters end.  A class name
    that is [language-] followed by such a run has that run as its
    language. *)
Theorem languageOf_reads_the_fence_language (className : string) :
  (forall language,
      languageOf className = Some language ->
      language <> EmptyString
      /\ allWord language = true
      /\ exists before after,
           className = (before ++ "language-" ++ language ++ after)%string
           /\ startsNonWord after)
  /\ (forall language after,
         className = ("language-" ++ language ++ after)%string ->
         language <> EmptyString ->
         allWord language = true ->
         startsNonWord after ->
         languageOf className = Some language).
Proof.
  split; [apply languageOf_sound |].
  - intros language after -> Hne Hall Hafter.
    rewrite languageOf_unfold, prefix_app.
    change 9%nat with (String.length "language-").
    rewrite skip_app, (takeWord_app language after Hall Hafter).
    destruct language; [contradiction | reflexivity].
Qed.

Lemma stripFinalNewline_unfold (c : ascii) (a : ascii) (rest : string) :
  stripFinalNewline (String c (String a rest))
  = String c (stripFinalNewline (String a rest)).
Proof. reflexivity. Qed.

Lemma stripFinalNewline_app (text : string) :
  stripFinalNewline (text ++ String newline EmptyString) = text.
Proof.
  induction text as [| c text IH]; [reflexivity |].
  change ((String c text ++ String newline EmptyString)%string)
    with (String c (text ++ String newline EmptyString)%string).
  destruct text as [| a text].
  - reflexivity.
  - change ((String a text ++ String newline EmptyString)%string)
      with (String a (text ++ String newline EmptyString)%string) in *.
    rewrite stripFinalNewline_unfold, IH. reflexivity.
Qed.

Lemma stripFinalNewline_same (text : string) :
  (forall start, text <> (start ++ String newline EmptyString)%string) ->
  stripFinalNewline text = text.
Proof.
  induction text as [| c text IH]; intros Hend; [reflexivity |].
  destruct text as [| a text].
  - cbn [stripFinalNewline]. destruct (Ascii.eqb c newline) eqn:Hc; [| reflexivity].
    apply Ascii.eqb_eq in Hc. subst c. exfalso. apply (Hend EmptyString). reflexivity.
  - rewrite stripFinalNewline_unfold, IH; [reflexivity |].
    intros start E. apply (Hend (String c start)).
    change ((String c start ++ String newline EmptyString)%string)
      with (String c (start ++ String newline EmptyString)%string).
    rewrite <- E. reflexivity.
Qed.

(** A fenced block with a language, as the Markdown renderer hands it to
    the code block: the header shows the language, and the code shown, which
    is also the text the copy button copies, is the text of the fence
    stripped of a final newline twice, once by the renderer and once by the
    block.  So the one newline that ends the text of a fence is dropped,
    and a second one before it is dropped too. *)
Theorem fenced_block_is_stripped_twice (props : CodeProps) (language : string) :
  nullish (code_inline props) false = false ->
  languageOf (nullish (code_className props) EmptyString) = Some language ->
  code props
  = AsCodeBlock
      (Block language language
         (stripFinalNewline (stripFinalNewline (String_ (code_children props)))))
  /\ (forall text,
         code_children props = Some (text ++ String newline EmptyString)%string ->
         (forall start, text <> (start ++ String newline EmptyString)%string) ->
         code props = AsCodeBlock (Block language language text))
  /\ (forall text,
         code_children props
         = Some ((text ++ String newline EmptyString)
                 ++ String newline EmptyString)%string ->
         code props = AsCodeBlock (Block language language text)).
Proof.
  intros Hinline Hlang.
  assert (Hne : String.eqb language EmptyString = false).
  { apply String.eqb_neq.
    apply (languageOf_sound _ language Hlang). }
  assert (E : code props
              = AsCodeBlock
                  (Block language language
                     (stripFinalNewline
                        (stripFinalNewline (String_ (code_children props)))))).
  { unfold code. rewrite Hinline, Hlang. unfold CodeBlock.
    cbn [inline className children CodeBlock.language value nullish].
    rewrite Hne. reflexivity. }
  split; [exact E |]. split.
  - intros text Hc Hend. rewrite E, Hc. cbn [String_].
    rewrite stripFinalNewline_app, (stripFinalNewline_same text Hend). reflexivity.
  - intros text Hc. rewrite E, Hc. cbn [String_].
    rewrite !stripFinalNewline_app. reflexivity.
Qed.

(** Without a language in the class name the renderer never makes a code
    block: a fence without a language is rendered by the inline [code] tag,
    like inline code, with its children as they are. *)
Theorem fence_without_language_is_inline (props : CodeProps) :
  languageOf (nullish (code_className props) EmptyString) = None
  \/ nullish (code_inline props) false = true ->
  code props = AsInlineCode (code_children props).
Proof.
  unfold code. intros [-> | ->].
  - destruct (nullish (code_inline props) false); reflexivity.
  - reflexivity.
Qed.

(** The header of a block is never empty: it shows the language, and
    [code] when there is none.  An explicit [language] wins over the class
    name, and an explicit [value] over the children. *)
Theorem block_header_is_never_empty (props : Props) :
  nullish (inline props) false = false ->
  exists label language code,
    CodeBlock props = Block label language code
    /\ label <> EmptyString
    /\ (language <> EmptyString -> label = language)
    /\ (language = EmptyString -> label = "code")
    /\ (forall l, CodeBlock.language props = Some l -> language = l)
    /\ (forall v, value props = Some v -> code = stripFinalNewline v).
Proof.
  intros Hinline. unfold CodeBlock. rewrite Hinline.
  eexists _, _, _. split; [reflexivity |].
  split; [| split; [| split; [| split]]].
  - destruct (String.eqb _ EmptyString) eqn:He; [discriminate |].
    apply String.eqb_neq in He. exact He.
  - intros Hne. apply String.eqb_neq in Hne. rewrite Hne. reflexivity.
  - intros ->. reflexivity.
  - intros l ->. reflexivity.
  - intros v ->. reflexivity.
Qed.

End Blocks.

Lemma languageOf_reads_the_fence_language_witness :
  CodeBlock.languageOf "language-ts extra" = Some "ts".
Proof.
  apply (proj2 (languageOf_reads_the_fence_language "language-ts extra")
           "ts" " extra").
  - reflexivity.
  - discriminate.
  - reflexivity.
  - reflexivity.
Defined.

Lemma fenced_block_is_stripped_twice_witness :
  CodeBlock.code
    (CodeBlock.mkCodeProps None (Some "language-ts")
       (Some ("let x = 1" ++ String CodeBlock.newline EmptyString)%string))
  = CodeBlock.AsCodeBlock (CodeBlock.Block "ts" "ts" "let x = 1").
Proof.
  destruct (fenced_block_is_stripped_twice
              (CodeBlock.mkCodeProps None (Some "language-ts")
                 (Some ("let x = 1" ++ String CodeBlock.newline EmptyString)%string))
              "ts" eq_refl eq_refl) as (_ & H & _).
  apply (H "let x = 1"); [reflexivity |].
  intros start H0. vm_compute in H0.
  destruct start as [| c1 [| c2 [| c3 [| c4 [| c5 [| c6 [| c7 [| c8 [| c9 [| c10 s]]]]]]]]]];
    discriminate H0.
Defined.

Lemma fence_without_language_is_inline_witness :
  CodeBlock.code (CodeBlock.mkCodeProps None None (Some "plain text"))
  = CodeBlock.AsInlineCode (Some "plain text").
Proof.
  apply (fence_without_language_is_inline
           (CodeBlock.mkCodeProps None None (Some "plain text"))).
  left. reflexivity.
Defined.

Lemma block_header_is_never_empty_witness :
  exists label language code,
    CodeBlock.CodeBlock (CodeBlock.mkProps None None None None None)
    = CodeBlock.Block label language code
    /\ label = "code" /\ code = "undefined".
Proof.
  destruct (block_header_is_never_empty
              (CodeBlock.mkProps None None None None None) eq_refl)
    as (label & language & code & E & _).
  exists label, language, code. split; [exact E |].
  vm_compute in E. injection E as <- _ <-. split; reflexivity.
Defined.
